(** * Flight-Sight: the airport lookup cache and the recommendation pipeline

    A shallow embedding of [src/server.js] (the current server, the second
    module of the file: the one with [airportCache], [CACHE_TTL_MS] and the
    rate limiter) and the properties of its two handlers,
    [POST /api/search-flights] and [GET /api/search-airports].

    Conventions of the embedding.
    - A JavaScript string is the list of its UTF-16 code units, each a number
      of type [N].  [txt] turns an ASCII literal into such a list.
      [toUpperCase] maps the code points of a string as the Unicode
      Character Database, version 14.0, says; its tables are [CaseTables].
    - A JavaScript value that comes out of [JSON.parse] (a request body, the
      text of the suggestion service) is a [jsval].  A number keeps the exact
      decimal value of its literal.
    - The handlers are asynchronous.  [search-flights] shares no state with
      other requests, so it is a function of what its upstream calls answer.
      [search-airports] reads and writes the process-wide [airportCache]
      around an [await], so it is split at the [await] and run by an event
      loop ([step]): requests, upstream replies, timer callbacks and the
      passing of time are the events.
    - The two services are outside the repository.  What they answer is an
      input of the embedding, in the shape the handlers read: a text for the
      suggestion service, a list of offers with a [price.total] for the fare
      lookup, any value for the location lookup; or a rejection.
    - A request is one that reaches its handler: the parsing of the body and
      of the query and the rate limiter in front of [/api/] are not part of
      the embedding.

    The last part adds the first server of [src/server.js] (its port and its
    lookup handler, which has no cache) and the page, [src/public/main.js]:
    what a click on the search button sends and shows, and the dropdown of
    airport suggestions. *)

From Stdlib Require Import ZArith NArith List String Ascii Bool Lia FMapPositive.
From stdpp Require Import base option list gmap.
Import ListNotations.

Set Default Proof Using "Type".
Set Warnings "-register-all".

(** ** The case mappings of Unicode

    The upper-case and the lower-case mapping of every code point that has
    one, from the Unicode Character Database, version 14.0: the simple
    mappings of [UnicodeData.txt] with the unconditional full mappings of
    [SpecialCasing.txt] in their place (sharp s goes to SS).  A code point
    that is not listed maps to itself.  These are the mappings
    [String.prototype.toUpperCase] and [toLowerCase] apply: they depend
    neither on the locale nor, but for the final sigma of [toLowerCase], on
    the context. *)

Module CaseTables.

Definition upper_case_mappings : list (N * list N) :=
  [(97, [65]); (98, [66]); (99, [67]); (100, [68]); (101, [69]); (102, [70]);
   (103, [71]); (104, [72]); (105, [73]); (106, [74]); (107, [75]);
   (108, [76]); (109, [77]); (110, [78]); (111, [79]); (112, [80]);
   (113, [81]); (114, [82]); (115, [83]); (116, [84]); (117, [85]);
   (118, [86]); (119, [87]); (120, [88]); (121, [89]); (122, [90]);
   (181, [924]); (223, [83; 83]); (224, [192]); (225, [193]); (226, [194]);
   (227, [195]); (228, [196]); (229, [197]); (230, [198]); (231, [199]);
   (232, [200]); (233, [201]); (234, [202]); (235, [203]); (236, [204]);
   (237, [205]); (238, [206]); (239, [207]); (240, [208]); (241, [209]);
   (242, [210]); (243, [211]); (244, [212]); (245, [213]); (246, [214]);
   (248, [216]); (249, [217]); (250, [218]); (251, [219]); (252, [220]);
   (253, [221]); (254, [222]); (255, [376]); (257, [256]); (259, [258]);
   (261, [260]); (263, [262]); (265, [264]); (267, [266]); (269, [268]);
   (271, [270]); (273, [272]); (275, [274]); (277, [276]); (279, [278]);
   (281, [280]); (283, [282]); (285, [284]); (287, [286]); (289, [288]);
   (291, [290]); (293, [292]); (295, [294]); (297, [296]); (299, [298]);
   (301, [300]); (303, [302]); (305, [73]); (307, [306]); (309, [308]);
   (311, [310]); (314, [313]); (316, [315]); (318, [317]); (320, [319]);
   (322, [321]); (324, [323]); (326, [325]); (328, [327]); (329, [700; 78]);
   (331, [330]); (333, [332]); (335, [334]); (337, [336]); (339, [338]);
   (341, [340]); (343, [342]); (345, [344]); (347, [346]); (349, [348]);
   (351, [350]); (353, [352]); (355, [354]); (357, [356]); (359, [358]);
   (361, [360]); (363, [362]); (365, [364]); (367, [366]); (369, [368]);
   (371, [370]); (373, [372]); (375, [374]); (378, [377]); (380, [379]);
   (382, [381]); (383, [83]); (384, [579]); (387, [386]); (389, [388]);
   (392, [391]); (396, [395]); (402, [401]); (405, [502]); (409, [408]);
   (410, [573]); (414, [544]); (417, [416]); (419, [418]); (421, [420]);
   (424, [423]); (429, [428]); (432, [431]); (436, [435]); (438, [437]);
   (441, [440]); (445, [444]); (447, [503]); (453, [452]); (454, [452]);
   (456, [455]); (457, [455]); (459, [458]); (460, [458]); (462, [461]);
   (464, [463]); (466, [465]); (468, [467]); (470, [469]); (472, [471]);
   (474, [473]); (476, [475]); (477, [398]); (479, [478]); (481, [480]);
   (483, [482]); (485, [484]); (487, [486]); (489, [488]); (491, [490]);
   (493, [492]); (495, [494]); (496, [74; 780]); (498, [497]); (499, [497]);
   (501, [500]); (505, [504]); (507, [506]); (509, [508]); (511, [510]);
   (513, [512]); (515, [514]); (517, [516]); (519, [518]); (521, [520]);
   (523, [522]); (525, [524]); (527, [526]); (529, [528]); (531, [530]);
   (533, [532]); (535, [534]); (537, [536]); (539, [538]); (541, [540]);
   (543, [542]); (547, [546]); (549, [548]); (551, [550]); (553, [552]);
   (555, [554]); (557, [556]); (559, [558]); (561, [560]); (563, [562]);
   (572, [571]); (575, [11390]); (576, [11391]); (578, [577]); (583, [582]);
   (585, [584]); (587, [586]); (589, [588]); (591, [590]); (592, [11375]);
   (593, [11373]); (594, [11376]); (595, [385]); (596, [390]); (598, [393]);
   (599, [394]); (601, [399]); (603, [400]); (604, [42923]); (608, [403]);
   (609, [42924]); (611, [404]); (613, [42893]); (614, [42922]); (616, [407]);
   (617, [406]); (618, [42926]); (619, [11362]); (620, [42925]); (623, [412]);
   (625, [11374]); (626, [413]); (629, [415]); (637, [11364]); (640, [422]);
   (642, [42949]); (643, [425]); (647, [42929]); (648, [430]); (649, [580]);
   (650, [433]); (651, [434]); (652, [581]); (658, [439]); (669, [42930]);
   (670, [42928]); (837, [921]); (881, [880]); (883, [882]); (887, [886]);
   (891, [1021]); (892, [1022]); (893, [1023]); (912, [921; 776; 769]);
   (940, [902]); (941, [904]); (942, [905]); (943, [906]);
   (944, [933; 776; 769]); (945, [913]); (946, [914]); (947, [915]);
   (948, [916]); (949, [917]); (950, [918]); (951, [919]); (952, [920]);
   (953, [921]); (954, [922]); (955, [923]); (956, [924]); (957, [925]);
   (958, [926]); (959, [927]); (960, [928]); (961, [929]); (962, [931]);
   (963, [931]); (964, [932]); (965, [933]); (966, [934]); (967, [935]);
   (968, [936]); (969, [937]); (970, [938]); (971, [939]); (972, [908]);
   (973, [910]); (974, [911]); (976, [914]); (977, [920]); (981, [934]);
   (982, [928]); (983, [975]); (985, [984]); (987, [986]); (989, [988]);
   (991, [990]); (993, [992]); (995, [994]); (997, [996]); (999, [998]);
   (1001, [1000]); (1003, [1002]); (1005, [1004]); (1007, [1006]);
   (1008, [922]); (1009, [929]); (1010, [1017]); (1011, [895]); (1013, [917]);
   (1016, [1015]); (1019, [1018]); (1072, [1040]); (1073, [1041]);
   (1074, [1042]); (1075, [1043]); (1076, [1044]); (1077, [1045]);
   (1078, [1046]); (1079, [1047]); (1080, [1048]); (1081, [1049]);
   (1082, [1050]); (1083, [1051]); (1084, [1052]); (1085, [1053]);
   (1086, [1054]); (1087, [1055]); (1088, [1056]); (1089, [1057]);
   (1090, [1058]); (1091, [1059]); (1092, [1060]); (1093, [1061]);
   (1094, [1062]); (1095, [1063]); (1096, [1064]); (1097, [1065]);
   (1098, [1066]); (1099, [1067]); (1100, [1068]); (1101, [1069]);
   (1102, [1070]); (1103, [1071]); (1104, [1024]); (1105, [1025]);
   (1106, [1026]); (1107, [1027]); (1108, [1028]); (1109, [1029]);
   (1110, [1030]); (1111, [1031]); (1112, [1032]); (1113, [1033]);
   (1114, [1034]); (1115, [1035]); (1116, [1036]); (1117, [1037]);
   (1118, [1038]); (1119, [1039]); (1121, [1120]); (1123, [1122]);
   (1125, [1124]); (1127, [1126]); (1129, [1128]); (1131, [1130]);
   (1133, [1132]); (1135, [1134]); (1137, [1136]); (1139, [1138]);
   (1141, [1140]); (1143, [1142]); (1145, [1144]); (1147, [1146]);
   (1149, [1148]); (1151, [1150]); (1153, [1152]); (1163, [1162]);
   (1165, [1164]); (1167, [1166]); (1169, [1168]); (1171, [1170]);
   (1173, [1172]); (1175, [1174]); (1177, [1176]); (1179, [1178]);
   (1181, [1180]); (1183, [1182]); (1185, [1184]); (1187, [1186]);
   (1189, [1188]); (1191, [1190]); (1193, [1192]); (1195, [1194]);
   (1197, [1196]); (1199, [1198]); (1201, [1200]); (1203, [1202]);
   (1205, [1204]); (1207, [1206]); (1209, [1208]); (1211, [1210]);
   (1213, [1212]); (1215, [1214]); (1218, [1217]); (1220, [1219]);
   (1222, [1221]); (1224, [1223]); (1226, [1225]); (1228, [1227]);
   (1230, [1229]); (1231, [1216]); (1233, [1232]); (1235, [1234]);
   (1237, [1236]); (1239, [1238]); (1241, [1240]); (1243, [1242]);
   (1245, [1244]); (1247, [1246]); (1249, [1248]); (1251, [1250]);
   (1253, [1252]); (1255, [1254]); (1257, [1256]); (1259, [1258]);
   (1261, [1260]); (1263, [1262]); (1265, [1264]); (1267, [1266]);
   (1269, [1268]); (1271, [1270]); (1273, [1272]); (1275, [1274]);
   (1277, [1276]); (1279, [1278]); (1281, [1280]); (1283, [1282]);
   (1285, [1284]); (1287, [1286]); (1289, [1288]); (1291, [1290]);
   (1293, [1292]); (1295, [1294]); (1297, [1296]); (1299, [1298]);
   (1301, [1300]); (1303, [1302]); (1305, [1304]); (1307, [1306]);
   (1309, [1308]); (1311, [1310]); (1313, [1312]); (1315, [1314]);
   (1317, [1316]); (1319, [1318]); (1321, [1320]); (1323, [1322]);
   (1325, [1324]); (1327, [1326]); (1377, [1329]); (1378, [1330]);
   (1379, [1331]); (1380, [1332]); (1381, [1333]); (1382, [1334]);
   (1383, [1335]); (1384, [1336]); (1385, [1337]); (1386, [1338]);
   (1387, [1339]); (1388, [1340]); (1389, [1341]); (1390, [1342]);
   (1391, [1343]); (1392, [1344]); (1393, [1345]); (1394, [1346]);
   (1395, [1347]); (1396, [1348]); (1397, [1349]); (1398, [1350]);
   (1399, [1351]); (1400, [1352]); (1401, [1353]); (1402, [1354]);
   (1403, [1355]); (1404, [1356]); (1405, [1357]); (1406, [1358]);
   (1407, [1359]); (1408, [1360]); (1409, [1361]); (1410, [1362]);
   (1411, [1363]); (1412, [1364]); (1413, [1365]); (1414, [1366]);
   (1415, [1333; 1362]); (4304, [7312]); (4305, [7313]); (4306, [7314]);
   (4307, [7315]); (4308, [7316]); (4309, [7317]); (4310, [7318]);
   (4311, [7319]); (4312, [7320]); (4313, [7321]); (4314, [7322]);
   (4315, [7323]); (4316, [7324]); (4317, [7325]); (4318, [7326]);
   (4319, [7327]); (4320, [7328]); (4321, [7329]); (4322, [7330]);
   (4323, [7331]); (4324, [7332]); (4325, [7333]); (4326, [7334]);
   (4327, [7335]); (4328, [7336]); (4329, [7337]); (4330, [7338]);
   (4331, [7339]); (4332, [7340]); (4333, [7341]); (4334, [7342]);
   (4335, [7343]); (4336, [7344]); (4337, [7345]); (4338, [7346]);
   (4339, [7347]); (4340, [7348]); (4341, [7349]); (4342, [7350]);
   (4343, [7351]); (4344, [7352]); (4345, [7353]); (4346, [7354]);
   (4349, [7357]); (4350, [7358]); (4351, [7359]); (5112, [5104]);
   (5113, [5105]); (5114, [5106]); (5115, [5107]); (5116, [5108]);
   (5117, [5109]); (7296, [1042]); (7297, [1044]); (7298, [1054]);
   (7299, [1057]); (7300, [1058]); (7301, [1058]); (7302, [1066]);
   (7303, [1122]); (7304, [42570]); (7545, [42877]); (7549, [11363]);
   (7566, [42950]); (7681, [7680]); (7683, [7682]); (7685, [7684]);
   (7687, [7686]); (7689, [7688]); (7691, [7690]); (7693, [7692]);
   (7695, [7694]); (7697, [7696]); (7699, [7698]); (7701, [7700]);
   (7703, [7702]); (7705, [7704]); (7707, [7706]); (7709, [7708]);
   (7711, [7710]); (7713, [7712]); (7715, [7714]); (7717, [7716]);
   (7719, [7718]); (7721, [7720]); (7723, [7722]); (7725, [7724]);
   (7727, [7726]); (7729, [7728]); (7731, [7730]); (7733, [7732]);
   (7735, [7734]); (7737, [7736]); (7739, [7738]); (7741, [7740]);
   (7743, [7742]); (7745, [7744]); (7747, [7746]); (7749, [7748]);
   (7751, [7750]); (7753, [7752]); (7755, [7754]); (7757, [7756]);
   (7759, [7758]); (7761, [7760]); (7763, [7762]); (7765, [7764]);
   (7767, [7766]); (7769, [7768]); (7771, [7770]); (7773, [7772]);
   (7775, [7774]); (7777, [7776]); (7779, [7778]); (7781, [7780]);
   (7783, [7782]); (7785, [7784]); (7787, [7786]); (7789, [7788]);
   (7791, [7790]); (7793, [7792]); (7795, [7794]); (7797, [7796]);
   (7799, [7798]); (7801, [7800]); (7803, [7802]); (7805, [7804]);
   (7807, [7806]); (7809, [7808]); (7811, [7810]); (7813, [7812]);
   (7815, [7814]); (7817, [7816]); (7819, [7818]); (7821, [7820]);
   (7823, [7822]); (7825, [7824]); (7827, [7826]); (7829, [7828]);
   (7830, [72; 817]); (7831, [84; 776]); (7832, [87; 778]); (7833, [89; 778]);
   (7834, [65; 702]); (7835, [7776]); (7841, [7840]); (7843, [7842]);
   (7845, [7844]); (7847, [7846]); (7849, [7848]); (7851, [7850]);
   (7853, [7852]); (7855, [7854]); (7857, [7856]); (7859, [7858]);
   (7861, [7860]); (7863, [7862]); (7865, [7864]); (7867, [7866]);
   (7869, [7868]); (7871, [7870]); (7873, [7872]); (7875, [7874]);
   (7877, [7876]); (7879, [7878]); (7881, [7880]); (7883, [7882]);
   (7885, [7884]); (7887, [7886]); (7889, [7888]); (7891, [7890]);
   (7893, [7892]); (7895, [7894]); (7897, [7896]); (7899, [7898]);
   (7901, [7900]); (7903, [7902]); (7905, [7904]); (7907, [7906]);
   (7909, [7908]); (7911, [7910]); (7913, [7912]); (7915, [7914]);
   (7917, [7916]); (7919, [7918]); (7921, [7920]); (7923, [7922]);
   (7925, [7924]); (7927, [7926]); (7929, [7928]); (7931, [7930]);
   (7933, [7932]); (7935, [7934]); (7936, [7944]); (7937, [7945]);
   (7938, [7946]); (7939, [7947]); (7940, [7948]); (7941, [7949]);
   (7942, [7950]); (7943, [7951]); (7952, [7960]); (7953, [7961]);
   (7954, [7962]); (7955, [7963]); (7956, [7964]); (7957, [7965]);
   (7968, [7976]); (7969, [7977]); (7970, [7978]); (7971, [7979]);
   (7972, [7980]); (7973, [7981]); (7974, [7982]); (7975, [7983]);
   (7984, [7992]); (7985, [7993]); (7986, [7994]); (7987, [7995]);
   (7988, [7996]); (7989, [7997]); (7990, [7998]); (7991, [7999]);
   (8000, [8008]); (8001, [8009]); (8002, [8010]); (8003, [8011]);
   (8004, [8012]); (8005, [8013]); (8016, [933; 787]); (8017, [8025]);
   (8018, [933; 787; 768]); (8019, [8027]); (8020, [933; 787; 769]);
   (8021, [8029]); (8022, [933; 787; 834]); (8023, [8031]); (8032, [8040]);
   (8033, [8041]); (8034, [8042]); (8035, [8043]); (8036, [8044]);
   (8037, [8045]); (8038, [8046]); (8039, [8047]); (8048, [8122]);
   (8049, [8123]); (8050, [8136]); (8051, [8137]); (8052, [8138]);
   (8053, [8139]); (8054, [8154]); (8055, [8155]); (8056, [8184]);
   (8057, [8185]); (8058, [8170]); (8059, [8171]); (8060, [8186]);
   (8061, [8187]); (8064, [7944; 921]); (8065, [7945; 921]);
   (8066, [7946; 921]); (8067, [7947; 921]); (8068, [7948; 921]);
   (8069, [7949; 921]); (8070, [7950; 921]); (8071, [7951; 921]);
   (8072, [7944; 921]); (8073, [7945; 921]); (8074, [7946; 921]);
   (8075, [7947; 921]); (8076, [7948; 921]); (8077, [7949; 921]);
   (8078, [7950; 921]); (8079, [7951; 921]); (8080, [7976; 921]);
   (8081, [7977; 921]); (8082, [7978; 921]); (8083, [7979; 921]);
   (8084, [7980; 921]); (8085, [7981; 921]); (8086, [7982; 921]);
   (8087, [7983; 921]); (8088, [7976; 921]); (8089, [7977; 921]);
   (8090, [7978; 921]); (8091, [7979; 921]); (8092, [7980; 921]);
   (8093, [7981; 921]); (8094, [7982; 921]); (8095, [7983; 921]);
   (8096, [8040; 921]); (8097, [8041; 921]); (8098, [8042; 921]);
   (8099, [8043; 921]); (8100, [8044; 921]); (8101, [8045; 921]);
   (8102, [8046; 921]); (8103, [8047; 921]); (8104, [8040; 921]);
   (8105, [8041; 921]); (8106, [8042; 921]); (8107, [8043; 921]);
   (8108, [8044; 921]); (8109, [8045; 921]); (8110, [8046; 921]);
   (8111, [8047; 921]); (8112, [8120]); (8113, [8121]); (8114, [8122; 921]);
   (8115, [913; 921]); (8116, [902; 921]); (8118, [913; 834]);
   (8119, [913; 834; 921]); (8124, [913; 921]); (8126, [921]);
   (8130, [8138; 921]); (8131, [919; 921]); (8132, [905; 921]);
   (8134, [919; 834]); (8135, [919; 834; 921]); (8140, [919; 921]);
   (8144, [8152]); (8145, [8153]); (8146, [921; 776; 768]);
   (8147, [921; 776; 769]); (8150, [921; 834]); (8151, [921; 776; 834]);
   (8160, [8168]); (8161, [8169]); (8162, [933; 776; 768]);
   (8163, [933; 776; 769]); (8164, [929; 787]); (8165, [8172]);
   (8166, [933; 834]); (8167, [933; 776; 834]); (8178, [8186; 921]);
   (8179, [937; 921]); (8180, [911; 921]); (8182, [937; 834]);
   (8183, [937; 834; 921]); (8188, [937; 921]); (8526, [8498]);
   (8560, [8544]); (8561, [8545]); (8562, [8546]); (8563, [8547]);
   (8564, [8548]); (8565, [8549]); (8566, [8550]); (8567, [8551]);
   (8568, [8552]); (8569, [8553]); (8570, [8554]); (8571, [8555]);
   (8572, [8556]); (8573, [8557]); (8574, [8558]); (8575, [8559]);
   (8580, [8579]); (9424, [9398]); (9425, [9399]); (9426, [9400]);
   (9427, [9401]); (9428, [9402]); (9429, [9403]); (9430, [9404]);
   (9431, [9405]); (9432, [9406]); (9433, [9407]); (9434, [9408]);
   (9435, [9409]); (9436, [9410]); (9437, [9411]); (9438, [9412]);
   (9439, [9413]); (9440, [9414]); (9441, [9415]); (9442, [9416]);
   (9443, [9417]); (9444, [9418]); (9445, [9419]); (9446, [9420]);
   (9447, [9421]); (9448, [9422]); (9449, [9423]); (11312, [11264]);
   (11313, [11265]); (11314, [11266]); (11315, [11267]); (11316, [11268]);
   (11317, [11269]); (11318, [11270]); (11319, [11271]); (11320, [11272]);
   (11321, [11273]); (11322, [11274]); (11323, [11275]); (11324, [11276]);
   (11325, [11277]); (11326, [11278]); (11327, [11279]); (11328, [11280]);
   (11329, [11281]); (11330, [11282]); (11331, [11283]); (11332, [11284]);
   (11333, [11285]); (11334, [11286]); (11335, [11287]); (11336, [11288]);
   (11337, [11289]); (11338, [11290]); (11339, [11291]); (11340, [11292]);
   (11341, [11293]); (11342, [11294]); (11343, [11295]); (11344, [11296]);
   (11345, [11297]); (11346, [11298]); (11347, [11299]); (11348, [11300]);
   (11349, [11301]); (11350, [11302]); (11351, [11303]); (11352, [11304]);
   (11353, [11305]); (11354, [11306]); (11355, [11307]); (11356, [11308]);
   (11357, [11309]); (11358, [11310]); (11359, [11311]); (11361, [11360]);
   (11365, [570]); (11366, [574]); (11368, [11367]); (11370, [11369]);
   (11372, [11371]); (11379, [11378]); (11382, [11381]); (11393, [11392]);
   (11395, [11394]); (11397, [11396]); (11399, [11398]); (11401, [11400]);
   (11403, [11402]); (11405, [11404]); (11407, [11406]); (11409, [11408]);
   (11411, [11410]); (11413, [11412]); (11415, [11414]); (11417, [11416]);
   (11419, [11418]); (11421, [11420]); (11423, [11422]); (11425, [11424]);
   (11427, [11426]); (11429, [11428]); (11431, [11430]); (11433, [11432]);
   (11435, [11434]); (11437, [11436]); (11439, [11438]); (11441, [11440]);
   (11443, [11442]); (11445, [11444]); (11447, [11446]); (11449, [11448]);
   (11451, [11450]); (11453, [11452]); (11455, [11454]); (11457, [11456]);
   (11459, [11458]); (11461, [11460]); (11463, [11462]); (11465, [11464]);
   (11467, [11466]); (11469, [11468]); (11471, [11470]); (11473, [11472]);
   (11475, [11474]); (11477, [11476]); (11479, [11478]); (11481, [11480]);
   (11483, [11482]); (11485, [11484]); (11487, [11486]); (11489, [11488]);
   (11491, [11490]); (11500, [11499]); (11502, [11501]); (11507, [11506]);
   (11520, [4256]); (11521, [4257]); (11522, [4258]); (11523, [4259]);
   (11524, [4260]); (11525, [4261]); (11526, [4262]); (11527, [4263]);
   (11528, [4264]); (11529, [4265]); (11530, [4266]); (11531, [4267]);
   (11532, [4268]); (11533, [4269]); (11534, [4270]); (11535, [4271]);
   (11536, [4272]); (11537, [4273]); (11538, [4274]); (11539, [4275]);
   (11540, [4276]); (11541, [4277]); (11542, [4278]); (11543, [4279]);
   (11544, [4280]); (11545, [4281]); (11546, [4282]); (11547, [4283]);
   (11548, [4284]); (11549, [4285]); (11550, [4286]); (11551, [4287]);
   (11552, [4288]); (11553, [4289]); (11554, [4290]); (11555, [4291]);
   (11556, [4292]); (11557, [4293]); (11559, [4295]); (11565, [4301]);
   (42561, [42560]); (42563, [42562]); (42565, [42564]); (42567, [42566]);
   (42569, [42568]); (42571, [42570]); (42573, [42572]); (42575, [42574]);
   (42577, [42576]); (42579, [42578]); (42581, [42580]); (42583, [42582]);
   (42585, [42584]); (42587, [42586]); (42589, [42588]); (42591, [42590]);
   (42593, [42592]); (42595, [42594]); (42597, [42596]); (42599, [42598]);
   (42601, [42600]); (42603, [42602]); (42605, [42604]); (42625, [42624]);
   (42627, [42626]); (42629, [42628]); (42631, [42630]); (42633, [42632]);
   (42635, [42634]); (42637, [42636]); (42639, [42638]); (42641, [42640]);
   (42643, [42642]); (42645, [42644]); (42647, [42646]); (42649, [42648]);
   (42651, [42650]); (42787, [42786]); (42789, [42788]); (42791, [42790]);
   (42793, [42792]); (42795, [42794]); (42797, [42796]); (42799, [42798]);
   (42803, [42802]); (42805, [42804]); (42807, [42806]); (42809, [42808]);
   (42811, [42810]); (42813, [42812]); (42815, [42814]); (42817, [42816]);
   (42819, [42818]); (42821, [42820]); (42823, [42822]); (42825, [42824]);
   (42827, [42826]); (42829, [42828]); (42831, [42830]); (42833, [42832]);
   (42835, [42834]); (42837, [42836]); (42839, [42838]); (42841, [42840]);
   (42843, [42842]); (42845, [42844]); (42847, [42846]); (42849, [42848]);
   (42851, [42850]); (42853, [42852]); (42855, [42854]); (42857, [42856]);
   (42859, [42858]); (42861, [42860]); (42863, [42862]); (42874, [42873]);
   (42876, [42875]); (42879, [42878]); (42881, [42880]); (42883, [42882]);
   (42885, [42884]); (42887, [42886]); (42892, [42891]); (42897, [42896]);
   (42899, [42898]); (42900, [42948]); (42903, [42902]); (42905, [42904]);
   (42907, [42906]); (42909, [42908]); (42911, [42910]); (42913, [42912]);
   (42915, [42914]); (42917, [42916]); (42919, [42918]); (42921, [42920]);
   (42933, [42932]); (42935, [42934]); (42937, [42936]); (42939, [42938]);
   (42941, [42940]); (42943, [42942]); (42945, [42944]); (42947, [42946]);
   (42952, [42951]); (42954, [42953]); (42961, [42960]); (42967, [42966]);
   (42969, [42968]); (42998, [42997]); (43859, [42931]); (43888, [5024]);
   (43889, [5025]); (43890, [5026]); (43891, [5027]); (43892, [5028]);
   (43893, [5029]); (43894, [5030]); (43895, [5031]); (43896, [5032]);
   (43897, [5033]); (43898, [5034]); (43899, [5035]); (43900, [5036]);
   (43901, [5037]); (43902, [5038]); (43903, [5039]); (43904, [5040]);
   (43905, [5041]); (43906, [5042]); (43907, [5043]); (43908, [5044]);
   (43909, [5045]); (43910, [5046]); (43911, [5047]); (43912, [5048]);
   (43913, [5049]); (43914, [5050]); (43915, [5051]); (43916, [5052]);
   (43917, [5053]); (43918, [5054]); (43919, [5055]); (43920, [5056]);
   (43921, [5057]); (43922, [5058]); (43923, [5059]); (43924, [5060]);
   (43925, [5061]); (43926, [5062]); (43927, [5063]); (43928, [5064]);
   (43929, [5065]); (43930, [5066]); (43931, [5067]); (43932, [5068]);
   (43933, [5069]); (43934, [5070]); (43935, [5071]); (43936, [5072]);
   (43937, [5073]); (43938, [5074]); (43939, [5075]); (43940, [5076]);
   (43941, [5077]); (43942, [5078]); (43943, [5079]); (43944, [5080]);
   (43945, [5081]); (43946, [5082]); (43947, [5083]); (43948, [5084]);
   (43949, [5085]); (43950, [5086]); (43951, [5087]); (43952, [5088]);
   (43953, [5089]); (43954, [5090]); (43955, [5091]); (43956, [5092]);
   (43957, [5093]); (43958, [5094]); (43959, [5095]); (43960, [5096]);
   (43961, [5097]); (43962, [5098]); (43963, [5099]); (43964, [5100]);
   (43965, [5101]); (43966, [5102]); (43967, [5103]); (64256, [70; 70]);
   (64257, [70; 73]); (64258, [70; 76]); (64259, [70; 70; 73]);
   (64260, [70; 70; 76]); (64261, [83; 84]); (64262, [83; 84]);
   (64275, [1348; 1350]); (64276, [1348; 1333]); (64277, [1348; 1339]);
   (64278, [1358; 1350]); (64279, [1348; 1341]); (65345, [65313]);
   (65346, [65314]); (65347, [65315]); (65348, [65316]); (65349, [65317]);
   (65350, [65318]); (65351, [65319]); (65352, [65320]); (65353, [65321]);
   (65354, [65322]); (65355, [65323]); (65356, [65324]); (65357, [65325]);
   (65358, [65326]); (65359, [65327]); (65360, [65328]); (65361, [65329]);
   (65362, [65330]); (65363, [65331]); (65364, [65332]); (65365, [65333]);
   (65366, [65334]); (65367, [65335]); (65368, [65336]); (65369, [65337]);
   (65370, [65338]); (66600, [66560]); (66601, [66561]); (66602, [66562]);
   (66603, [66563]); (66604, [66564]); (66605, [66565]); (66606, [66566]);
   (66607, [66567]); (66608, [66568]); (66609, [66569]); (66610, [66570]);
   (66611, [66571]); (66612, [66572]); (66613, [66573]); (66614, [66574]);
   (66615, [66575]); (66616, [66576]); (66617, [66577]); (66618, [66578]);
   (66619, [66579]); (66620, [66580]); (66621, [66581]); (66622, [66582]);
   (66623, [66583]); (66624, [66584]); (66625, [66585]); (66626, [66586]);
   (66627, [66587]); (66628, [66588]); (66629, [66589]); (66630, [66590]);
   (66631, [66591]); (66632, [66592]); (66633, [66593]); (66634, [66594]);
   (66635, [66595]); (66636, [66596]); (66637, [66597]); (66638, [66598]);
   (66639, [66599]); (66776, [66736]); (66777, [66737]); (66778, [66738]);
   (66779, [66739]); (66780, [66740]); (66781, [66741]); (66782, [66742]);
   (66783, [66743]); (66784, [66744]); (66785, [66745]); (66786, [66746]);
   (66787, [66747]); (66788, [66748]); (66789, [66749]); (66790, [66750]);
   (66791, [66751]); (66792, [66752]); (66793, [66753]); (66794, [66754]);
   (66795, [66755]); (66796, [66756]); (66797, [66757]); (66798, [66758]);
   (66799, [66759]); (66800, [66760]); (66801, [66761]); (66802, [66762]);
   (66803, [66763]); (66804, [66764]); (66805, [66765]); (66806, [66766]);
   (66807, [66767]); (66808, [66768]); (66809, [66769]); (66810, [66770]);
   (66811, [66771]); (66967, [66928]); (66968, [66929]); (66969, [66930]);
   (66970, [66931]); (66971, [66932]); (66972, [66933]); (66973, [66934]);
   (66974, [66935]); (66975, [66936]); (66976, [66937]); (66977, [66938]);
   (66979, [66940]); (66980, [66941]); (66981, [66942]); (66982, [66943]);
   (66983, [66944]); (66984, [66945]); (66985, [66946]); (66986, [66947]);
   (66987, [66948]); (66988, [66949]); (66989, [66950]); (66990, [66951]);
   (66991, [66952]); (66992, [66953]); (66993, [66954]); (66995, [66956]);
   (66996, [66957]); (66997, [66958]); (66998, [66959]); (66999, [66960]);
   (67000, [66961]); (67001, [66962]); (67003, [66964]); (67004, [66965]);
   (68800, [68736]); (68801, [68737]); (68802, [68738]); (68803, [68739]);
   (68804, [68740]); (68805, [68741]); (68806, [68742]); (68807, [68743]);
   (68808, [68744]); (68809, [68745]); (68810, [68746]); (68811, [68747]);
   (68812, [68748]); (68813, [68749]); (68814, [68750]); (68815, [68751]);
   (68816, [68752]); (68817, [68753]); (68818, [68754]); (68819, [68755]);
   (68820, [68756]); (68821, [68757]); (68822, [68758]); (68823, [68759]);
   (68824, [68760]); (68825, [68761]); (68826, [68762]); (68827, [68763]);
   (68828, [68764]); (68829, [68765]); (68830, [68766]); (68831, [68767]);
   (68832, [68768]); (68833, [68769]); (68834, [68770]); (68835, [68771]);
   (68836, [68772]); (68837, [68773]); (68838, [68774]); (68839, [68775]);
   (68840, [68776]); (68841, [68777]); (68842, [68778]); (68843, [68779]);
   (68844, [68780]); (68845, [68781]); (68846, [68782]); (68847, [68783]);
   (68848, [68784]); (68849, [68785]); (68850, [68786]); (71872, [71840]);
   (71873, [71841]); (71874, [71842]); (71875, [71843]); (71876, [71844]);
   (71877, [71845]); (71878, [71846]); (71879, [71847]); (71880, [71848]);
   (71881, [71849]); (71882, [71850]); (71883, [71851]); (71884, [71852]);
   (71885, [71853]); (71886, [71854]); (71887, [71855]); (71888, [71856]);
   (71889, [71857]); (71890, [71858]); (71891, [71859]); (71892, [71860]);
   (71893, [71861]); (71894, [71862]); (71895, [71863]); (71896, [71864]);
   (71897, [71865]); (71898, [71866]); (71899, [71867]); (71900, [71868]);
   (71901, [71869]); (71902, [71870]); (71903, [71871]); (93792, [93760]);
   (93793, [93761]); (93794, [93762]); (93795, [93763]); (93796, [93764]);
   (93797, [93765]); (93798, [93766]); (93799, [93767]); (93800, [93768]);
   (93801, [93769]); (93802, [93770]); (93803, [93771]); (93804, [93772]);
   (93805, [93773]); (93806, [93774]); (93807, [93775]); (93808, [93776]);
   (93809, [93777]); (93810, [93778]); (93811, [93779]); (93812, [93780]);
   (93813, [93781]); (93814, [93782]); (93815, [93783]); (93816, [93784]);
   (93817, [93785]); (93818, [93786]); (93819, [93787]); (93820, [93788]);
   (93821, [93789]); (93822, [93790]); (93823, [93791]); (125218, [125184]);
   (125219, [125185]); (125220, [125186]); (125221, [125187]);
   (125222, [125188]); (125223, [125189]); (125224, [125190]);
   (125225, [125191]); (125226, [125192]); (125227, [125193]);
   (125228, [125194]); (125229, [125195]); (125230, [125196]);
   (125231, [125197]); (125232, [125198]); (125233, [125199]);
   (125234, [125200]); (125235, [125201]); (125236, [125202]);
   (125237, [125203]); (125238, [125204]); (125239, [125205]);
   (125240, [125206]); (125241, [125207]); (125242, [125208]);
   (125243, [125209]); (125244, [125210]); (125245, [125211]);
   (125246, [125212]); (125247, [125213]); (125248, [125214]);
   (125249, [125215]); (125250, [125216]); (125251, [125217])]%N.

Definition lower_case_mappings : list (N * list N) :=
  [(65, [97]); (66, [98]); (67, [99]); (68, [100]); (69, [101]); (70, [102]);
   (71, [103]); (72, [104]); (73, [105]); (74, [106]); (75, [107]);
   (76, [108]); (77, [109]); (78, [110]); (79, [111]); (80, [112]);
   (81, [113]); (82, [114]); (83, [115]); (84, [116]); (85, [117]);
   (86, [118]); (87, [119]); (88, [120]); (89, [121]); (90, [122]);
   (192, [224]); (193, [225]); (194, [226]); (195, [227]); (196, [228]);
   (197, [229]); (198, [230]); (199, [231]); (200, [232]); (201, [233]);
   (202, [234]); (203, [235]); (204, [236]); (205, [237]); (206, [238]);
   (207, [239]); (208, [240]); (209, [241]); (210, [242]); (211, [243]);
   (212, [244]); (213, [245]); (214, [246]); (216, [248]); (217, [249]);
   (218, [250]); (219, [251]); (220, [252]); (221, [253]); (222, [254]);
   (256, [257]); (258, [259]); (260, [261]); (262, [263]); (264, [265]);
   (266, [267]); (268, [269]); (270, [271]); (272, [273]); (274, [275]);
   (276, [277]); (278, [279]); (280, [281]); (282, [283]); (284, [285]);
   (286, [287]); (288, [289]); (290, [291]); (292, [293]); (294, [295]);
   (296, [297]); (298, [299]); (300, [301]); (302, [303]); (304, [105; 775]);
   (306, [307]); (308, [309]); (310, [311]); (313, [314]); (315, [316]);
   (317, [318]); (319, [320]); (321, [322]); (323, [324]); (325, [326]);
   (327, [328]); (330, [331]); (332, [333]); (334, [335]); (336, [337]);
   (338, [339]); (340, [341]); (342, [343]); (344, [345]); (346, [347]);
   (348, [349]); (350, [351]); (352, [353]); (354, [355]); (356, [357]);
   (358, [359]); (360, [361]); (362, [363]); (364, [365]); (366, [367]);
   (368, [369]); (370, [371]); (372, [373]); (374, [375]); (376, [255]);
   (377, [378]); (379, [380]); (381, [382]); (385, [595]); (386, [387]);
   (388, [389]); (390, [596]); (391, [392]); (393, [598]); (394, [599]);
   (395, [396]); (398, [477]); (399, [601]); (400, [603]); (401, [402]);
   (403, [608]); (404, [611]); (406, [617]); (407, [616]); (408, [409]);
   (412, [623]); (413, [626]); (415, [629]); (416, [417]); (418, [419]);
   (420, [421]); (422, [640]); (423, [424]); (425, [643]); (428, [429]);
   (430, [648]); (431, [432]); (433, [650]); (434, [651]); (435, [436]);
   (437, [438]); (439, [658]); (440, [441]); (444, [445]); (452, [454]);
   (453, [454]); (455, [457]); (456, [457]); (458, [460]); (459, [460]);
   (461, [462]); (463, [464]); (465, [466]); (467, [468]); (469, [470]);
   (471, [472]); (473, [474]); (475, [476]); (478, [479]); (480, [481]);
   (482, [483]); (484, [485]); (486, [487]); (488, [489]); (490, [491]);
   (492, [493]); (494, [495]); (497, [499]); (498, [499]); (500, [501]);
   (502, [405]); (503, [447]); (504, [505]); (506, [507]); (508, [509]);
   (510, [511]); (512, [513]); (514, [515]); (516, [517]); (518, [519]);
   (520, [521]); (522, [523]); (524, [525]); (526, [527]); (528, [529]);
   (530, [531]); (532, [533]); (534, [535]); (536, [537]); (538, [539]);
   (540, [541]); (542, [543]); (544, [414]); (546, [547]); (548, [549]);
   (550, [551]); (552, [553]); (554, [555]); (556, [557]); (558, [559]);
   (560, [561]); (562, [563]); (570, [11365]); (571, [572]); (573, [410]);
   (574, [11366]); (577, [578]); (579, [384]); (580, [649]); (581, [652]);
   (582, [583]); (584, [585]); (586, [587]); (588, [589]); (590, [591]);
   (880, [881]); (882, [883]); (886, [887]); (895, [1011]); (902, [940]);
   (904, [941]); (905, [942]); (906, [943]); (908, [972]); (910, [973]);
   (911, [974]); (913, [945]); (914, [946]); (915, [947]); (916, [948]);
   (917, [949]); (918, [950]); (919, [951]); (920, [952]); (921, [953]);
   (922, [954]); (923, [955]); (924, [956]); (925, [957]); (926, [958]);
   (927, [959]); (928, [960]); (929, [961]); (931, [963]); (932, [964]);
   (933, [965]); (934, [966]); (935, [967]); (936, [968]); (937, [969]);
   (938, [970]); (939, [971]); (975, [983]); (984, [985]); (986, [987]);
   (988, [989]); (990, [991]); (992, [993]); (994, [995]); (996, [997]);
   (998, [999]); (1000, [1001]); (1002, [1003]); (1004, [1005]);
   (1006, [1007]); (1012, [952]); (1015, [1016]); (1017, [1010]);
   (1018, [1019]); (1021, [891]); (1022, [892]); (1023, [893]);
   (1024, [1104]); (1025, [1105]); (1026, [1106]); (1027, [1107]);
   (1028, [1108]); (1029, [1109]); (1030, [1110]); (1031, [1111]);
   (1032, [1112]); (1033, [1113]); (1034, [1114]); (1035, [1115]);
   (1036, [1116]); (1037, [1117]); (1038, [1118]); (1039, [1119]);
   (1040, [1072]); (1041, [1073]); (1042, [1074]); (1043, [1075]);
   (1044, [1076]); (1045, [1077]); (1046, [1078]); (1047, [1079]);
   (1048, [1080]); (1049, [1081]); (1050, [1082]); (1051, [1083]);
   (1052, [1084]); (1053, [1085]); (1054, [1086]); (1055, [1087]);
   (1056, [1088]); (1057, [1089]); (1058, [1090]); (1059, [1091]);
   (1060, [1092]); (1061, [1093]); (1062, [1094]); (1063, [1095]);
   (1064, [1096]); (1065, [1097]); (1066, [1098]); (1067, [1099]);
   (1068, [1100]); (1069, [1101]); (1070, [1102]); (1071, [1103]);
   (1120, [1121]); (1122, [1123]); (1124, [1125]); (1126, [1127]);
   (1128, [1129]); (1130, [1131]); (1132, [1133]); (1134, [1135]);
   (1136, [1137]); (1138, [1139]); (1140, [1141]); (1142, [1143]);
   (1144, [1145]); (1146, [1147]); (1148, [1149]); (1150, [1151]);
   (1152, [1153]); (1162, [1163]); (1164, [1165]); (1166, [1167]);
   (1168, [1169]); (1170, [1171]); (1172, [1173]); (1174, [1175]);
   (1176, [1177]); (1178, [1179]); (1180, [1181]); (1182, [1183]);
   (1184, [1185]); (1186, [1187]); (1188, [1189]); (1190, [1191]);
   (1192, [1193]); (1194, [1195]); (1196, [1197]); (1198, [1199]);
   (1200, [1201]); (1202, [1203]); (1204, [1205]); (1206, [1207]);
   (1208, [1209]); (1210, [1211]); (1212, [1213]); (1214, [1215]);
   (1216, [1231]); (1217, [1218]); (1219, [1220]); (1221, [1222]);
   (1223, [1224]); (1225, [1226]); (1227, [1228]); (1229, [1230]);
   (1232, [1233]); (1234, [1235]); (1236, [1237]); (1238, [1239]);
   (1240, [1241]); (1242, [1243]); (1244, [1245]); (1246, [1247]);
   (1248, [1249]); (1250, [1251]); (1252, [1253]); (1254, [1255]);
   (1256, [1257]); (1258, [1259]); (1260, [1261]); (1262, [1263]);
   (1264, [1265]); (1266, [1267]); (1268, [1269]); (1270, [1271]);
   (1272, [1273]); (1274, [1275]); (1276, [1277]); (1278, [1279]);
   (1280, [1281]); (1282, [1283]); (1284, [1285]); (1286, [1287]);
   (1288, [1289]); (1290, [1291]); (1292, [1293]); (1294, [1295]);
   (1296, [1297]); (1298, [1299]); (1300, [1301]); (1302, [1303]);
   (1304, [1305]); (1306, [1307]); (1308, [1309]); (1310, [1311]);
   (1312, [1313]); (1314, [1315]); (1316, [1317]); (1318, [1319]);
   (1320, [1321]); (1322, [1323]); (1324, [1325]); (1326, [1327]);
   (1329, [1377]); (1330, [1378]); (1331, [1379]); (1332, [1380]);
   (1333, [1381]); (1334, [1382]); (1335, [1383]); (1336, [1384]);
   (1337, [1385]); (1338, [1386]); (1339, [1387]); (1340, [1388]);
   (1341, [1389]); (1342, [1390]); (1343, [1391]); (1344, [1392]);
   (1345, [1393]); (1346, [1394]); (1347, [1395]); (1348, [1396]);
   (1349, [1397]); (1350, [1398]); (1351, [1399]); (1352, [1400]);
   (1353, [1401]); (1354, [1402]); (1355, [1403]); (1356, [1404]);
   (1357, [1405]); (1358, [1406]); (1359, [1407]); (1360, [1408]);
   (1361, [1409]); (1362, [1410]); (1363, [1411]); (1364, [1412]);
   (1365, [1413]); (1366, [1414]); (4256, [11520]); (4257, [11521]);
   (4258, [11522]); (4259, [11523]); (4260, [11524]); (4261, [11525]);
   (4262, [11526]); (4263, [11527]); (4264, [11528]); (4265, [11529]);
   (4266, [11530]); (4267, [11531]); (4268, [11532]); (4269, [11533]);
   (4270, [11534]); (4271, [11535]); (4272, [11536]); (4273, [11537]);
   (4274, [11538]); (4275, [11539]); (4276, [11540]); (4277, [11541]);
   (4278, [11542]); (4279, [11543]); (4280, [11544]); (4281, [11545]);
   (4282, [11546]); (4283, [11547]); (4284, [11548]); (4285, [11549]);
   (4286, [11550]); (4287, [11551]); (4288, [11552]); (4289, [11553]);
   (4290, [11554]); (4291, [11555]); (4292, [11556]); (4293, [11557]);
   (4295, [11559]); (4301, [11565]); (5024, [43888]); (5025, [43889]);
   (5026, [43890]); (5027, [43891]); (5028, [43892]); (5029, [43893]);
   (5030, [43894]); (5031, [43895]); (5032, [43896]); (5033, [43897]);
   (5034, [43898]); (5035, [43899]); (5036, [43900]); (5037, [43901]);
   (5038, [43902]); (5039, [43903]); (5040, [43904]); (5041, [43905]);
   (5042, [43906]); (5043, [43907]); (5044, [43908]); (5045, [43909]);
   (5046, [43910]); (5047, [43911]); (5048, [43912]); (5049, [43913]);
   (5050, [43914]); (5051, [43915]); (5052, [43916]); (5053, [43917]);
   (5054, [43918]); (5055, [43919]); (5056, [43920]); (5057, [43921]);
   (5058, [43922]); (5059, [43923]); (5060, [43924]); (5061, [43925]);
   (5062, [43926]); (5063, [43927]); (5064, [43928]); (5065, [43929]);
   (5066, [43930]); (5067, [43931]); (5068, [43932]); (5069, [43933]);
   (5070, [43934]); (5071, [43935]); (5072, [43936]); (5073, [43937]);
   (5074, [43938]); (5075, [43939]); (5076, [43940]); (5077, [43941]);
   (5078, [43942]); (5079, [43943]); (5080, [43944]); (5081, [43945]);
   (5082, [43946]); (5083, [43947]); (5084, [43948]); (5085, [43949]);
   (5086, [43950]); (5087, [43951]); (5088, [43952]); (5089, [43953]);
   (5090, [43954]); (5091, [43955]); (5092, [43956]); (5093, [43957]);
   (5094, [43958]); (5095, [43959]); (5096, [43960]); (5097, [43961]);
   (5098, [43962]); (5099, [43963]); (5100, [43964]); (5101, [43965]);
   (5102, [43966]); (5103, [43967]); (5104, [5112]); (5105, [5113]);
   (5106, [5114]); (5107, [5115]); (5108, [5116]); (5109, [5117]);
   (7312, [4304]); (7313, [4305]); (7314, [4306]); (7315, [4307]);
   (7316, [4308]); (7317, [4309]); (7318, [4310]); (7319, [4311]);
   (7320, [4312]); (7321, [4313]); (7322, [4314]); (7323, [4315]);
   (7324, [4316]); (7325, [4317]); (7326, [4318]); (7327, [4319]);
   (7328, [4320]); (7329, [4321]); (7330, [4322]); (7331, [4323]);
   (7332, [4324]); (7333, [4325]); (7334, [4326]); (7335, [4327]);
   (7336, [4328]); (7337, [4329]); (7338, [4330]); (7339, [4331]);
   (7340, [4332]); (7341, [4333]); (7342, [4334]); (7343, [4335]);
   (7344, [4336]); (7345, [4337]); (7346, [4338]); (7347, [4339]);
   (7348, [4340]); (7349, [4341]); (7350, [4342]); (7351, [4343]);
   (7352, [4344]); (7353, [4345]); (7354, [4346]); (7357, [4349]);
   (7358, [4350]); (7359, [4351]); (7680, [7681]); (7682, [7683]);
   (7684, [7685]); (7686, [7687]); (7688, [7689]); (7690, [7691]);
   (7692, [7693]); (7694, [7695]); (7696, [7697]); (7698, [7699]);
   (7700, [7701]); (7702, [7703]); (7704, [7705]); (7706, [7707]);
   (7708, [7709]); (7710, [7711]); (7712, [7713]); (7714, [7715]);
   (7716, [7717]); (7718, [7719]); (7720, [7721]); (7722, [7723]);
   (7724, [7725]); (7726, [7727]); (7728, [7729]); (7730, [7731]);
   (7732, [7733]); (7734, [7735]); (7736, [7737]); (7738, [7739]);
   (7740, [7741]); (7742, [7743]); (7744, [7745]); (7746, [7747]);
   (7748, [7749]); (7750, [7751]); (7752, [7753]); (7754, [7755]);
   (7756, [7757]); (7758, [7759]); (7760, [7761]); (7762, [7763]);
   (7764, [7765]); (7766, [7767]); (7768, [7769]); (7770, [7771]);
   (7772, [7773]); (7774, [7775]); (7776, [7777]); (7778, [7779]);
   (7780, [7781]); (7782, [7783]); (7784, [7785]); (7786, [7787]);
   (7788, [7789]); (7790, [7791]); (7792, [7793]); (7794, [7795]);
   (7796, [7797]); (7798, [7799]); (7800, [7801]); (7802, [7803]);
   (7804, [7805]); (7806, [7807]); (7808, [7809]); (7810, [7811]);
   (7812, [7813]); (7814, [7815]); (7816, [7817]); (7818, [7819]);
   (7820, [7821]); (7822, [7823]); (7824, [7825]); (7826, [7827]);
   (7828, [7829]); (7838, [223]); (7840, [7841]); (7842, [7843]);
   (7844, [7845]); (7846, [7847]); (7848, [7849]); (7850, [7851]);
   (7852, [7853]); (7854, [7855]); (7856, [7857]); (7858, [7859]);
   (7860, [7861]); (7862, [7863]); (7864, [7865]); (7866, [7867]);
   (7868, [7869]); (7870, [7871]); (7872, [7873]); (7874, [7875]);
   (7876, [7877]); (7878, [7879]); (7880, [7881]); (7882, [7883]);
   (7884, [7885]); (7886, [7887]); (7888, [7889]); (7890, [7891]);
   (7892, [7893]); (7894, [7895]); (7896, [7897]); (7898, [7899]);
   (7900, [7901]); (7902, [7903]); (7904, [7905]); (7906, [7907]);
   (7908, [7909]); (7910, [7911]); (7912, [7913]); (7914, [7915]);
   (7916, [7917]); (7918, [7919]); (7920, [7921]); (7922, [7923]);
   (7924, [7925]); (7926, [7927]); (7928, [7929]); (7930, [7931]);
   (7932, [7933]); (7934, [7935]); (7944, [7936]); (7945, [7937]);
   (7946, [7938]); (7947, [7939]); (7948, [7940]); (7949, [7941]);
   (7950, [7942]); (7951, [7943]); (7960, [7952]); (7961, [7953]);
   (7962, [7954]); (7963, [7955]); (7964, [7956]); (7965, [7957]);
   (7976, [7968]); (7977, [7969]); (7978, [7970]); (7979, [7971]);
   (7980, [7972]); (7981, [7973]); (7982, [7974]); (7983, [7975]);
   (7992, [7984]); (7993, [7985]); (7994, [7986]); (7995, [7987]);
   (7996, [7988]); (7997, [7989]); (7998, [7990]); (7999, [7991]);
   (8008, [8000]); (8009, [8001]); (8010, [8002]); (8011, [8003]);
   (8012, [8004]); (8013, [8005]); (8025, [8017]); (8027, [8019]);
   (8029, [8021]); (8031, [8023]); (8040, [8032]); (8041, [8033]);
   (8042, [8034]); (8043, [8035]); (8044, [8036]); (8045, [8037]);
   (8046, [8038]); (8047, [8039]); (8072, [8064]); (8073, [8065]);
   (8074, [8066]); (8075, [8067]); (8076, [8068]); (8077, [8069]);
   (8078, [8070]); (8079, [8071]); (8088, [8080]); (8089, [8081]);
   (8090, [8082]); (8091, [8083]); (8092, [8084]); (8093, [8085]);
   (8094, [8086]); (8095, [8087]); (8104, [8096]); (8105, [8097]);
   (8106, [8098]); (8107, [8099]); (8108, [8100]); (8109, [8101]);
   (8110, [8102]); (8111, [8103]); (8120, [8112]); (8121, [8113]);
   (8122, [8048]); (8123, [8049]); (8124, [8115]); (8136, [8050]);
   (8137, [8051]); (8138, [8052]); (8139, [8053]); (8140, [8131]);
   (8152, [8144]); (8153, [8145]); (8154, [8054]); (8155, [8055]);
   (8168, [8160]); (8169, [8161]); (8170, [8058]); (8171, [8059]);
   (8172, [8165]); (8184, [8056]); (8185, [8057]); (8186, [8060]);
   (8187, [8061]); (8188, [8179]); (8486, [969]); (8490, [107]);
   (8491, [229]); (8498, [8526]); (8544, [8560]); (8545, [8561]);
   (8546, [8562]); (8547, [8563]); (8548, [8564]); (8549, [8565]);
   (8550, [8566]); (8551, [8567]); (8552, [8568]); (8553, [8569]);
   (8554, [8570]); (8555, [8571]); (8556, [8572]); (8557, [8573]);
   (8558, [8574]); (8559, [8575]); (8579, [8580]); (9398, [9424]);
   (9399, [9425]); (9400, [9426]); (9401, [9427]); (9402, [9428]);
   (9403, [9429]); (9404, [9430]); (9405, [9431]); (9406, [9432]);
   (9407, [9433]); (9408, [9434]); (9409, [9435]); (9410, [9436]);
   (9411, [9437]); (9412, [9438]); (9413, [9439]); (9414, [9440]);
   (9415, [9441]); (9416, [9442]); (9417, [9443]); (9418, [9444]);
   (9419, [9445]); (9420, [9446]); (9421, [9447]); (9422, [9448]);
   (9423, [9449]); (11264, [11312]); (11265, [11313]); (11266, [11314]);
   (11267, [11315]); (11268, [11316]); (11269, [11317]); (11270, [11318]);
   (11271, [11319]); (11272, [11320]); (11273, [11321]); (11274, [11322]);
   (11275, [11323]); (11276, [11324]); (11277, [11325]); (11278, [11326]);
   (11279, [11327]); (11280, [11328]); (11281, [11329]); (11282, [11330]);
   (11283, [11331]); (11284, [11332]); (11285, [11333]); (11286, [11334]);
   (11287, [11335]); (11288, [11336]); (11289, [11337]); (11290, [11338]);
   (11291, [11339]); (11292, [11340]); (11293, [11341]); (11294, [11342]);
   (11295, [11343]); (11296, [11344]); (11297, [11345]); (11298, [11346]);
   (11299, [11347]); (11300, [11348]); (11301, [11349]); (11302, [11350]);
   (11303, [11351]); (11304, [11352]); (11305, [11353]); (11306, [11354]);
   (11307, [11355]); (11308, [11356]); (11309, [11357]); (11310, [11358]);
   (11311, [11359]); (11360, [11361]); (11362, [619]); (11363, [7549]);
   (11364, [637]); (11367, [11368]); (11369, [11370]); (11371, [11372]);
   (11373, [593]); (11374, [625]); (11375, [592]); (11376, [594]);
   (11378, [11379]); (11381, [11382]); (11390, [575]); (11391, [576]);
   (11392, [11393]); (11394, [11395]); (11396, [11397]); (11398, [11399]);
   (11400, [11401]); (11402, [11403]); (11404, [11405]); (11406, [11407]);
   (11408, [11409]); (11410, [11411]); (11412, [11413]); (11414, [11415]);
   (11416, [11417]); (11418, [11419]); (11420, [11421]); (11422, [11423]);
   (11424, [11425]); (11426, [11427]); (11428, [11429]); (11430, [11431]);
   (11432, [11433]); (11434, [11435]); (11436, [11437]); (11438, [11439]);
   (11440, [11441]); (11442, [11443]); (11444, [11445]); (11446, [11447]);
   (11448, [11449]); (11450, [11451]); (11452, [11453]); (11454, [11455]);
   (11456, [11457]); (11458, [11459]); (11460, [11461]); (11462, [11463]);
   (11464, [11465]); (11466, [11467]); (11468, [11469]); (11470, [11471]);
   (11472, [11473]); (11474, [11475]); (11476, [11477]); (11478, [11479]);
   (11480, [11481]); (11482, [11483]); (11484, [11485]); (11486, [11487]);
   (11488, [11489]); (11490, [11491]); (11499, [11500]); (11501, [11502]);
   (11506, [11507]); (42560, [42561]); (42562, [42563]); (42564, [42565]);
   (42566, [42567]); (42568, [42569]); (42570, [42571]); (42572, [42573]);
   (42574, [42575]); (42576, [42577]); (42578, [42579]); (42580, [42581]);
   (42582, [42583]); (42584, [42585]); (42586, [42587]); (42588, [42589]);
   (42590, [42591]); (42592, [42593]); (42594, [42595]); (42596, [42597]);
   (42598, [42599]); (42600, [42601]); (42602, [42603]); (42604, [42605]);
   (42624, [42625]); (42626, [42627]); (42628, [42629]); (42630, [42631]);
   (42632, [42633]); (42634, [42635]); (42636, [42637]); (42638, [42639]);
   (42640, [42641]); (42642, [42643]); (42644, [42645]); (42646, [42647]);
   (42648, [42649]); (42650, [42651]); (42786, [42787]); (42788, [42789]);
   (42790, [42791]); (42792, [42793]); (42794, [42795]); (42796, [42797]);
   (42798, [42799]); (42802, [42803]); (42804, [42805]); (42806, [42807]);
   (42808, [42809]); (42810, [42811]); (42812, [42813]); (42814, [42815]);
   (42816, [42817]); (42818, [42819]); (42820, [42821]); (42822, [42823]);
   (42824, [42825]); (42826, [42827]); (42828, [42829]); (42830, [42831]);
   (42832, [42833]); (42834, [42835]); (42836, [42837]); (42838, [42839]);
   (42840, [42841]); (42842, [42843]); (42844, [42845]); (42846, [42847]);
   (42848, [42849]); (42850, [42851]); (42852, [42853]); (42854, [42855]);
   (42856, [42857]); (42858, [42859]); (42860, [42861]); (42862, [42863]);
   (42873, [42874]); (42875, [42876]); (42877, [7545]); (42878, [42879]);
   (42880, [42881]); (42882, [42883]); (42884, [42885]); (42886, [42887]);
   (42891, [42892]); (42893, [613]); (42896, [42897]); (42898, [42899]);
   (42902, [42903]); (42904, [42905]); (42906, [42907]); (42908, [42909]);
   (42910, [42911]); (42912, [42913]); (42914, [42915]); (42916, [42917]);
   (42918, [42919]); (42920, [42921]); (42922, [614]); (42923, [604]);
   (42924, [609]); (42925, [620]); (42926, [618]); (42928, [670]);
   (42929, [647]); (42930, [669]); (42931, [43859]); (42932, [42933]);
   (42934, [42935]); (42936, [42937]); (42938, [42939]); (42940, [42941]);
   (42942, [42943]); (42944, [42945]); (42946, [42947]); (42948, [42900]);
   (42949, [642]); (42950, [7566]); (42951, [42952]); (42953, [42954]);
   (42960, [42961]); (42966, [42967]); (42968, [42969]); (42997, [42998]);
   (65313, [65345]); (65314, [65346]); (65315, [65347]); (65316, [65348]);
   (65317, [65349]); (65318, [65350]); (65319, [65351]); (65320, [65352]);
   (65321, [65353]); (65322, [65354]); (65323, [65355]); (65324, [65356]);
   (65325, [65357]); (65326, [65358]); (65327, [65359]); (65328, [65360]);
   (65329, [65361]); (65330, [65362]); (65331, [65363]); (65332, [65364]);
   (65333, [65365]); (65334, [65366]); (65335, [65367]); (65336, [65368]);
   (65337, [65369]); (65338, [65370]); (66560, [66600]); (66561, [66601]);
   (66562, [66602]); (66563, [66603]); (66564, [66604]); (66565, [66605]);
   (66566, [66606]); (66567, [66607]); (66568, [66608]); (66569, [66609]);
   (66570, [66610]); (66571, [66611]); (66572, [66612]); (66573, [66613]);
   (66574, [66614]); (66575, [66615]); (66576, [66616]); (66577, [66617]);
   (66578, [66618]); (66579, [66619]); (66580, [66620]); (66581, [66621]);
   (66582, [66622]); (66583, [66623]); (66584, [66624]); (66585, [66625]);
   (66586, [66626]); (66587, [66627]); (66588, [66628]); (66589, [66629]);
   (66590, [66630]); (66591, [66631]); (66592, [66632]); (66593, [66633]);
   (66594, [66634]); (66595, [66635]); (66596, [66636]); (66597, [66637]);
   (66598, [66638]); (66599, [66639]); (66736, [66776]); (66737, [66777]);
   (66738, [66778]); (66739, [66779]); (66740, [66780]); (66741, [66781]);
   (66742, [66782]); (66743, [66783]); (66744, [66784]); (66745, [66785]);
   (66746, [66786]); (66747, [66787]); (66748, [66788]); (66749, [66789]);
   (66750, [66790]); (66751, [66791]); (66752, [66792]); (66753, [66793]);
   (66754, [66794]); (66755, [66795]); (66756, [66796]); (66757, [66797]);
   (66758, [66798]); (66759, [66799]); (66760, [66800]); (66761, [66801]);
   (66762, [66802]); (66763, [66803]); (66764, [66804]); (66765, [66805]);
   (66766, [66806]); (66767, [66807]); (66768, [66808]); (66769, [66809]);
   (66770, [66810]); (66771, [66811]); (66928, [66967]); (66929, [66968]);
   (66930, [66969]); (66931, [66970]); (66932, [66971]); (66933, [66972]);
   (66934, [66973]); (66935, [66974]); (66936, [66975]); (66937, [66976]);
   (66938, [66977]); (66940, [66979]); (66941, [66980]); (66942, [66981]);
   (66943, [66982]); (66944, [66983]); (66945, [66984]); (66946, [66985]);
   (66947, [66986]); (66948, [66987]); (66949, [66988]); (66950, [66989]);
   (66951, [66990]); (66952, [66991]); (66953, [66992]); (66954, [66993]);
   (66956, [66995]); (66957, [66996]); (66958, [66997]); (66959, [66998]);
   (66960, [66999]); (66961, [67000]); (66962, [67001]); (66964, [67003]);
   (66965, [67004]); (68736, [68800]); (68737, [68801]); (68738, [68802]);
   (68739, [68803]); (68740, [68804]); (68741, [68805]); (68742, [68806]);
   (68743, [68807]); (68744, [68808]); (68745, [68809]); (68746, [68810]);
   (68747, [68811]); (68748, [68812]); (68749, [68813]); (68750, [68814]);
   (68751, [68815]); (68752, [68816]); (68753, [68817]); (68754, [68818]);
   (68755, [68819]); (68756, [68820]); (68757, [68821]); (68758, [68822]);
   (68759, [68823]); (68760, [68824]); (68761, [68825]); (68762, [68826]);
   (68763, [68827]); (68764, [68828]); (68765, [68829]); (68766, [68830]);
   (68767, [68831]); (68768, [68832]); (68769, [68833]); (68770, [68834]);
   (68771, [68835]); (68772, [68836]); (68773, [68837]); (68774, [68838]);
   (68775, [68839]); (68776, [68840]); (68777, [68841]); (68778, [68842]);
   (68779, [68843]); (68780, [68844]); (68781, [68845]); (68782, [68846]);
   (68783, [68847]); (68784, [68848]); (68785, [68849]); (68786, [68850]);
   (71840, [71872]); (71841, [71873]); (71842, [71874]); (71843, [71875]);
   (71844, [71876]); (71845, [71877]); (71846, [71878]); (71847, [71879]);
   (71848, [71880]); (71849, [71881]); (71850, [71882]); (71851, [71883]);
   (71852, [71884]); (71853, [71885]); (71854, [71886]); (71855, [71887]);
   (71856, [71888]); (71857, [71889]); (71858, [71890]); (71859, [71891]);
   (71860, [71892]); (71861, [71893]); (71862, [71894]); (71863, [71895]);
   (71864, [71896]); (71865, [71897]); (71866, [71898]); (71867, [71899]);
   (71868, [71900]); (71869, [71901]); (71870, [71902]); (71871, [71903]);
   (93760, [93792]); (93761, [93793]); (93762, [93794]); (93763, [93795]);
   (93764, [93796]); (93765, [93797]); (93766, [93798]); (93767, [93799]);
   (93768, [93800]); (93769, [93801]); (93770, [93802]); (93771, [93803]);
   (93772, [93804]); (93773, [93805]); (93774, [93806]); (93775, [93807]);
   (93776, [93808]); (93777, [93809]); (93778, [93810]); (93779, [93811]);
   (93780, [93812]); (93781, [93813]); (93782, [93814]); (93783, [93815]);
   (93784, [93816]); (93785, [93817]); (93786, [93818]); (93787, [93819]);
   (93788, [93820]); (93789, [93821]); (93790, [93822]); (93791, [93823]);
   (125184, [125218]); (125185, [125219]); (125186, [125220]);
   (125187, [125221]); (125188, [125222]); (125189, [125223]);
   (125190, [125224]); (125191, [125225]); (125192, [125226]);
   (125193, [125227]); (125194, [125228]); (125195, [125229]);
   (125196, [125230]); (125197, [125231]); (125198, [125232]);
   (125199, [125233]); (125200, [125234]); (125201, [125235]);
   (125202, [125236]); (125203, [125237]); (125204, [125238]);
   (125205, [125239]); (125206, [125240]); (125207, [125241]);
   (125208, [125242]); (125209, [125243]); (125210, [125244]);
   (125211, [125245]); (125212, [125246]); (125213, [125247]);
   (125214, [125248]); (125215, [125249]); (125216, [125250]);
   (125217, [125251])]%N.

End CaseTables.

(** ** Strings *)

Module Text.

(** A string: its UTF-16 code units. *)
Definition text : Type := list N.

(** The code units of an ASCII literal. *)
Definition txt (s : string) : text :=
  map N_of_ascii (list_ascii_of_string s).

(** The same, with every apostrophe of the literal standing for a
    quotation mark (code unit 34): a JSON text is written
    [jtxt "{'city':'Paris'}"]. *)
Definition jtxt (s : string) : text :=
  map (fun c => if (c =? 39)%N then 34%N else c) (txt s).

Fixpoint starts_with (p t : text) : bool :=
  match p, t with
  | [], _ => true
  | _ :: _, [] => false
  | a :: p', b :: t' => (a =? b)%N && starts_with p' t'
  end.

(** UTF-16: a code unit in the range of the high or of the low
    surrogates. *)
Definition is_high_surrogate (c : N) : bool := ((55296 <=? c) && (c <=? 56319))%N.
Definition is_low_surrogate (c : N) : bool := ((56320 <=? c) && (c <=? 57343))%N.

(** The code points of a string, each as the string of its code units: a
    high surrogate with the low surrogate after it is one code point, every
    other code unit is one by itself.  These are the strings a [for...of]
    over a string yields. *)
Fixpoint code_points (s : text) : list text :=
  match s with
  | [] => []
  | c :: r =>
      match r with
      | l :: r' =>
          if is_high_surrogate c && is_low_surrogate l
          then [c; l] :: code_points r'
          else [c] :: code_points r
      | [] => [[c]]
      end
  end.

(** The number of a code point, to look it up in a table; 0 for what is
    not the string of one code point. *)
Definition point_of (p : text) : N :=
  match p with
  | [c] => if (c <? 65536)%N then c else 0%N
  | [h; l] =>
      if is_high_surrogate h && is_low_surrogate l
      then (65536 + (h - 55296) * 1024 + (l - 56320))%N
      else 0%N
  | _ => 0%N
  end.

(** The code units of the code point with a number. *)
Definition units_of (n : N) : text :=
  if (n <? 65536)%N then [n]
  else [(55296 + (n - 65536) / 1024)%N; (56320 + (n - 65536) mod 1024)%N].

(** A table as a map from the number of a code point to the code units of
    its mapping. *)
Definition index (mappings : list (N * list N)) : PositiveMap.t text :=
  fold_right (fun '(n, v) m =>
                match n with
                | Npos i => PositiveMap.add i (concat (map units_of v)) m
                | N0 => m
                end)
             (PositiveMap.empty text) mappings.

Definition upper_index : PositiveMap.t text :=
  Eval vm_compute in index CaseTables.upper_case_mappings.

Definition lower_index : PositiveMap.t text :=
  Eval vm_compute in index CaseTables.lower_case_mappings.

(** The mapping of one code point: what the table has for it, or the code
    point itself. *)
Definition mapped (m : PositiveMap.t text) (p : text) : text :=
  match point_of p with
  | Npos i => default p (PositiveMap.find i m)
  | N0 => p
  end.

Definition upper_point : text -> text := mapped upper_index.
Definition lower_point : text -> text := mapped lower_index.

(** [String.prototype.toUpperCase]: every code point of the string goes to
    its upper-case mapping; a surrogate that stands alone is kept. *)
Definition toUpperCase (s : text) : text :=
  concat (map upper_point (code_points s)).

(** The code units [String.prototype.trim] removes: WhiteSpace and
    LineTerminator of ECMAScript. *)
Definition is_js_space (c : N) : bool :=
  ((c =? 9) || (c =? 10) || (c =? 11) || (c =? 12) || (c =? 13) ||
   (c =? 32) || (c =? 160) || (c =? 5760) ||
   ((8192 <=? c) && (c <=? 8202)) ||
   (c =? 8232) || (c =? 8233) || (c =? 8239) || (c =? 8287) ||
   (c =? 12288) || (c =? 65279))%N.

Fixpoint trim_start (t : text) : text :=
  match t with
  | c :: t' => if is_js_space c then trim_start t' else t
  | [] => []
  end.

Definition trim_end (t : text) : text := rev (trim_start (rev t)).

Definition trim (t : text) : text := trim_end (trim_start t).

End Text.
Export Text.

(** ** Values *)

(** The exact value of a JSON number literal:
    [(-1)^negative * coefficient * 10^exponent]. *)
Record decimal : Type := Decimal {
  negative : bool;
  coefficient : N;
  exponent : Z
}.

Inductive jsval : Type :=
| JUndefined
| JNull
| JBool (b : bool)
| JNum (d : decimal)
| JStr (s : text)
| JArr (elements : list jsval)
| JObj (members : list (text * jsval)).

(** The Number a literal denotes is zero when its coefficient is zero, or
    when its value is at most [2^-1075], half of the smallest positive
    double (rounding is to nearest, ties to even). *)
Definition denotes_zero (d : decimal) : bool :=
  ((coefficient d =? 0)%N ||
   ((exponent d <? 0) &&
    (Z.of_N (coefficient d) * 2 ^ 1075 <=? 10 ^ (- exponent d))))%Z.

(** ToBoolean, as used by [!numberOfDays], [!departureAirport], [!keyword]. *)
Definition truthy (v : jsval) : bool :=
  match v with
  | JUndefined | JNull => false
  | JBool b => b
  | JNum d => negb (denotes_zero d)
  | JStr s => match s with [] => false | _ => true end
  | JArr _ | JObj _ => true
  end.

Definition text_eqb (a b : text) : bool := bool_decide (a = b).

(** The own member [name] of an object made by [JSON.parse]: the last of the
    members with that name. *)
Fixpoint own_member (name : text) (ms : list (text * jsval)) : option jsval :=
  match ms with
  | [] => None
  | (k, v) :: ms' =>
      match own_member name ms' with
      | Some w => Some w
      | None => if text_eqb k name then Some v else None
      end
  end.

(** [v.name] for a name that no prototype defines ([city], [iataCode]).
    [None] is the TypeError of reading a member of [undefined] or [null]. *)
Definition get_member (v : jsval) (name : text) : option jsval :=
  match v with
  | JUndefined | JNull => None
  | JObj ms => Some (default JUndefined (own_member name ms))
  | _ => Some JUndefined
  end.

(** Whether ToString throws on a value, as in a template literal
    [`${v}`].  An object made by [JSON.parse] that has an own member named
    [toString] has no callable [toString], and [valueOf] of
    [Object.prototype] gives back the object: the conversion is a TypeError.
    An array is joined, its [null] and [undefined] elements as empty
    strings. *)
Fixpoint toString_throws (v : jsval) : bool :=
  match v with
  | JObj ms => existsb (fun kv => text_eqb (fst kv) (txt "toString")) ms
  | JArr l => existsb toString_throws l
  | _ => false
  end.

(** ** JSON.parse *)

Module Json.

(** JSON white space: tab, line feed, carriage return, space. *)
Definition is_json_space (c : N) : bool :=
  ((c =? 9) || (c =? 10) || (c =? 13) || (c =? 32))%N.

Fixpoint skip_ws (t : text) : text :=
  match t with
  | c :: t' => if is_json_space c then skip_ws t' else t
  | [] => []
  end.

Definition is_digit (c : N) : bool := ((48 <=? c) && (c <=? 57))%N.

Definition hex_value (c : N) : option N :=
  if ((48 <=? c) && (c <=? 57))%N then Some (c - 48)%N
  else if ((65 <=? c) && (c <=? 70))%N then Some (c - 55)%N
  else if ((97 <=? c) && (c <=? 102))%N then Some (c - 87)%N
  else None.

Definition hex4 (a b c d : N) : option N :=
  match hex_value a, hex_value b, hex_value c, hex_value d with
  | Some x, Some y, Some z, Some w =>
      Some (((x * 16 + y) * 16 + z) * 16 + w)%N
  | _, _, _, _ => None
  end.

(** What the character after a backslash stands for, the four hex digits
    of [\u] apart: the quotation mark, the backslash and the solidus for
    themselves, then b, f, n, r and t. *)
Definition simple_escape (e : N) : option N :=
  if (e =? 34)%N then Some 34%N
  else if (e =? 92)%N then Some 92%N
  else if (e =? 47)%N then Some 47%N
  else if (e =? 98)%N then Some 8%N
  else if (e =? 102)%N then Some 12%N
  else if (e =? 110)%N then Some 10%N
  else if (e =? 114)%N then Some 13%N
  else if (e =? 116)%N then Some 9%N
  else None.

Definition cons_char (c : N) (p : option (text * text)) : option (text * text) :=
  match p with
  | Some (s, r) => Some (c :: s, r)
  | None => None
  end.

(** The characters of a string after its opening quotation mark, up to
    the closing one.  34 is the quotation mark, 92 the backslash, 117 the
    letter u; a code unit below 32 may not appear unescaped. *)
Fixpoint parse_string (t : text) : option (text * text) :=
  match t with
  | [] => None
  | c :: r =>
      if (c =? 34)%N then Some ([], r)
      else if (c =? 92)%N then
        match r with
        | [] => None
        | e :: r1 =>
            if (e =? 117)%N then
              match r1 with
              | a :: b :: c' :: d :: r4 =>
                  match hex4 a b c' d with
                  | Some u => cons_char u (parse_string r4)
                  | None => None
                  end
              | _ => None
              end
            else
              match simple_escape e with
              | Some u => cons_char u (parse_string r1)
              | None => None
              end
        end
      else if (c <? 32)%N then None
      else cons_char c (parse_string r)
  end.

(** A maximal run of digits and what follows it. *)
Fixpoint digits (t : text) : list N * text :=
  match t with
  | c :: r =>
      if is_digit c then let (ds, r') := digits r in (c :: ds, r')
      else ([], t)
  | [] => ([], [])
  end.

Definition digits_value (ds : list N) : N :=
  fold_left (fun acc c => acc * 10 + (c - 48))%N ds 0%N.

(** The integer part: a single 0, or a run of digits that starts with
    1 to 9. *)
Definition parse_int (t : text) : option (list N * text) :=
  match t with
  | c :: r =>
      if (c =? 48)%N then Some ([c], r)
      else if is_digit c then Some (digits t)
      else None
  | [] => None
  end.

(** The fraction: nothing, or a point (46) and at least one digit. *)
Definition parse_frac (t : text) : option (list N * text) :=
  match t with
  | c :: r =>
      if (c =? 46)%N then
        match digits r with
        | ([], _) => None
        | (ds, r') => Some (ds, r')
        end
      else Some ([], t)
  | [] => Some ([], [])
  end.

(** The exponent: nothing, or e or E (101, 69), an optional sign (43, 45)
    and at least one digit. *)
Definition parse_exp (t : text) : option (Z * text) :=
  match t with
  | c :: r =>
      if ((c =? 101) || (c =? 69))%N then
        let (minus, r1) :=
          match r with
          | s :: r' =>
              if (s =? 45)%N then (true, r')
              else if (s =? 43)%N then (false, r')
              else (false, r)
          | [] => (false, r)
          end in
        match digits r1 with
        | ([], _) => None
        | (ds, r2) =>
            let e := Z.of_N (digits_value ds) in
            Some (if minus then (- e)%Z else e, r2)
        end
      else Some (0%Z, t)
  | [] => Some (0%Z, [])
  end.

Definition parse_number (t : text) : option (decimal * text) :=
  let (neg, t1) :=
    match t with
    | c :: r => if (c =? 45)%N then (true, r) else (false, t)
    | [] => (false, t)
    end in
  match parse_int t1 with
  | None => None
  | Some (ip, t2) =>
      match parse_frac t2 with
      | None => None
      | Some (fp, t3) =>
          match parse_exp t3 with
          | None => None
          | Some (e, t4) =>
              Some (Decimal neg (digits_value (ip ++ fp))
                      (e - Z.of_nat (length fp)), t4)
          end
      end
  end.

(** A literal name ([true], [false], [null]) at the head of the text. *)
Definition parse_literal (name : string) (v : jsval) (t : text)
  : option (jsval * text) :=
  if starts_with (txt name) t
  then Some (v, drop (length (txt name)) t)
  else None.

Section value.
(** The parser of a value one nesting level down. *)
Variable parse_inner : text -> option (jsval * text).

(** The elements of an array after the first bracket, when the array is
    not empty: values separated by commas (44), up to the bracket 93.
    [n] bounds the number of elements. *)
Fixpoint parse_elements (n : nat) (t : text) : option (list jsval * text) :=
  match n with
  | O => None
  | S n' =>
      match parse_inner t with
      | None => None
      | Some (v, r) =>
          match skip_ws r with
          | c :: r' =>
              if (c =? 44)%N then
                match parse_elements n' r' with
                | Some (vs, r'') => Some (v :: vs, r'')
                | None => None
                end
              else if (c =? 93)%N then Some ([v], r')
              else None
          | [] => None
          end
      end
  end.

(** The members of an object that is not empty: a string, a colon (58)
    and a value, separated by commas, up to the brace 125. *)
Fixpoint parse_members (n : nat) (t : text)
  : option (list (text * jsval) * text) :=
  match n with
  | O => None
  | S n' =>
      match skip_ws t with
      | q :: r0 =>
          if (q =? 34)%N then
            match parse_string r0 with
            | None => None
            | Some (k, r1) =>
                match skip_ws r1 with
                | c :: r2 =>
                    if (c =? 58)%N then
                      match parse_inner r2 with
                      | None => None
                      | Some (v, r3) =>
                          match skip_ws r3 with
                          | c' :: r4 =>
                              if (c' =? 44)%N then
                                match parse_members n' r4 with
                                | Some (ms, r5) => Some ((k, v) :: ms, r5)
                                | None => None
                                end
                              else if (c' =? 125)%N then Some ([(k, v)], r4)
                              else None
                          | [] => None
                          end
                      end
                    else None
                | [] => None
                end
            end
          else None
      | [] => None
      end
  end.
End value.

(** A value, after optional white space.  91 and 93 are the brackets, 123
    and 125 the braces.  [fuel] bounds the nesting depth. *)
Fixpoint parse_value (fuel : nat) (t : text) : option (jsval * text) :=
  match fuel with
  | O => None
  | S fuel' =>
      match skip_ws t with
      | [] => None
      | c :: r =>
          if (c =? 91)%N then
            match skip_ws r with
            | c' :: r' =>
                if (c' =? 93)%N then Some (JArr [], r')
                else
                  match parse_elements (parse_value fuel') (length r) r with
                  | Some (vs, r'') => Some (JArr vs, r'')
                  | None => None
                  end
            | [] => None
            end
          else if (c =? 123)%N then
            match skip_ws r with
            | c' :: r' =>
                if (c' =? 125)%N then Some (JObj [], r')
                else
                  match parse_members (parse_value fuel') (length r) r with
                  | Some (ms, r'') => Some (JObj ms, r'')
                  | None => None
                  end
            | [] => None
            end
          else if (c =? 34)%N then
            match parse_string r with
            | Some (s, r') => Some (JStr s, r')
            | None => None
            end
          else if (c =? 116)%N then parse_literal "true" (JBool true) (c :: r)
          else if (c =? 102)%N then parse_literal "false" (JBool false) (c :: r)
          else if (c =? 110)%N then parse_literal "null" JNull (c :: r)
          else
            match parse_number (c :: r) with
            | Some (d, r') => Some (JNum d, r')
            | None => None
            end
      end
  end.

(** [JSON.parse(t)]: one value, white space around it, nothing else.
    [None] is the SyntaxError. *)
Definition JSON_parse (t : text) : option jsval :=
  match parse_value (S (length t)) t with
  | Some (v, r) => match skip_ws r with [] => Some v | _ => None end
  | None => None
  end.

End Json.
Export Json.

(** ** POST /api/search-flights *)

Module Flights.

(** *** The upstream services, as the handler sees them *)

(** The argument of [amadeus.shopping.flightOffersSearch.get]; [adults] is
    always ['1'] and [max] always 1. *)
Record fare_request : Type := FareRequest {
  originLocationCode : jsval;
  destinationLocationCode : jsval;
  departureDate : text
}.

(** An offer of the pricing service; the handler reads [price.total]. *)
Record offer : Type := Offer { price_total : text }.

(** What the [await] of a fare lookup gives: the promise rejects, or it
    resolves to a response whose [data] is a list of offers. *)
Inductive fare_outcome : Type :=
| FareRejected
| FareResolved (data : list offer).

(** The pricing service: its answer to the [n]-th lookup of a request
    (counted from 0). *)
Definition FareSource : Type := nat -> fare_request -> fare_outcome.

(** What the three [await]s on the suggestion service give: one of them
    throws, or the text of the answer. *)
Inductive suggest_outcome : Type :=
| SuggestRejected
| SuggestText (geminiText : text).

(** The Number [parseFloat] makes of a text, kept as that text. *)
Inductive number : Type := parseFloat (total : text).

Record FlightResult : Type := Flight {
  destination : jsval;
  price : number
}.

(** *** Responses *)

Inductive body : Type :=
| ErrorBody (error : string)
| FlightsBody (flights : list FlightResult)
| DataBody (data : jsval)
| LookupErrorBody (error : string) (amadeusError : jsval).

Record response : Type := Response { status : Z; json : body }.

Definition invalid_input : response :=
  Response 400 (ErrorBody "Number of days and departure airport are required").

Definition recommendation_failed : response :=
  Response 500
    (ErrorBody "Failed to fetch flight recommendations. Please check server logs.").

(** The calls the handler makes to the two services, in order. *)
Inductive upstream_call : Type :=
| SuggestCall (numberOfDays departureAirport : jsval)
| FareCall (request : fare_request).

(** *** The suggestion text *)

(** The code fence: three grave accents (96), and the same followed by
    [json]. *)
Definition fence : text := [96; 96; 96]%N.
Definition fence_json : text := fence ++ txt "json".

(** [t.replace(/```json|```/g, '')]: the text is scanned from the left; at
    a position where [```json] matches it is removed, else where [```]
    matches it is removed, else the character is kept.  [skip] counts the
    characters of a match still to be dropped. *)
Fixpoint strip_from (skip : nat) (t : text) : text :=
  match t with
  | [] => []
  | c :: r =>
      match skip with
      | S k => strip_from k r
      | O =>
          if starts_with fence_json t then strip_from 6 r
          else if starts_with fence t then strip_from 2 r
          else c :: strip_from 0 r
      end
  end.

Definition strip_fences (t : text) : text := strip_from 0 t.

(** [JSON.parse(geminiText.replace(/```json|```/g, '').trim())] *)
Definition parse_suggestions (geminiText : text) : option jsval :=
  JSON_parse (trim (strip_fences geminiText)).

(** *** The loop over the destinations *)

(** What [for (const destination of destinations)] iterates over.  [None]
    is the TypeError of a value that is not iterable. *)
Definition iterate (destinations : jsval) : option (list jsval) :=
  match destinations with
  | JArr l => Some l
  | JStr s => Some (map JStr (code_points s))
  | _ => None
  end.

(** How one turn of the loop ends. *)
Inductive turn : Type :=
| Pushed (r : FlightResult)   (* a result was pushed *)
| Skipped                     (* nothing was pushed, the loop goes on *)
| Thrown.                     (* the catch block itself threw *)

(** The [catch (amadeusError)] block of a turn: the message is built from
    [destination.iataCode], which throws when [destination] is [null] or
    [undefined] or when the code cannot be made a string. *)
Definition catch_block (destination : jsval) : turn :=
  match get_member destination (txt "iataCode") with
  | None => Thrown
  | Some code => if toString_throws code then Thrown else Skipped
  end.

(** One turn: the result, and the lookup made if one was made.  The
    argument of the lookup is built first; reading [destination.iataCode]
    throws into the catch block before any lookup. *)
Definition loop_turn (fare : FareSource) (n : nat)
    (departureAirport : jsval) (date : text) (destination : jsval)
  : turn * list fare_request :=
  match get_member destination (txt "iataCode") with
  | None => (catch_block destination, [])
  | Some code =>
      let request := FareRequest departureAirport code date in
      match fare n request with
      | FareRejected => (catch_block destination, [request])
      | FareResolved [] => (Skipped, [request])
      | FareResolved (first :: _) =>
          (Pushed (Flight (default JUndefined (get_member destination (txt "city")))
                          (parseFloat (price_total first))),
           [request])
      end
  end.

(** The loop.  [n] is the number of lookups made so far.  It gives the
    results pushed ([None] when a catch block threw, which leaves the
    loop) and the lookups made. *)
Fixpoint fare_loop (fare : FareSource) (n : nat)
    (departureAirport : jsval) (date : text) (destinations : list jsval)
  : option (list FlightResult) * list fare_request :=
  match destinations with
  | [] => (Some [], [])
  | d :: ds =>
      let (t, made) := loop_turn fare n departureAirport date d in
      match t with
      | Thrown => (None, made)
      | _ =>
          let (rest, made') :=
            fare_loop fare (n + length made) departureAirport date ds in
          (match t, rest with
           | Pushed r, Some rs => Some (r :: rs)
           | _, _ => rest
           end, made ++ made')
      end
  end.

(** *** The handler *)

(** The handler: its response and the upstream calls it made.  [date] is
    the departure date computed from the clock (three months ahead) that
    all lookups share. *)
Definition search_flights (suggest : suggest_outcome) (fare : FareSource)
    (date : text) (numberOfDays departureAirport : jsval)
  : response * list upstream_call :=
  if negb (truthy numberOfDays) || negb (truthy departureAirport)
  then (invalid_input, [])
  else
    (* the prompt is a template literal over the two inputs *)
    if toString_throws numberOfDays || toString_throws departureAirport
    then (recommendation_failed, [])
    else
      let asked := [SuggestCall numberOfDays departureAirport] in
      match suggest with
      | SuggestRejected => (recommendation_failed, asked)
      | SuggestText geminiText =>
          match parse_suggestions geminiText with
          | None => (recommendation_failed, asked)
          | Some destinations =>
              match iterate destinations with
              | None => (recommendation_failed, asked)
              | Some ds =>
                  let (results, made) :=
                    fare_loop fare 0 departureAirport date ds in
                  (match results with
                   | Some flightResults =>
                       Response 200 (FlightsBody flightResults)
                   | None => recommendation_failed
                   end, asked ++ map FareCall made)
              end
          end
      end.

Definition fare_calls (calls : list upstream_call) : list fare_request :=
  omap (fun c => match c with FareCall r => Some r | _ => None end) calls.

End Flights.
Export Flights.

(** ** GET /api/search-airports *)

Module Airports.

Definition CACHE_TTL_MS : Z := 24 * 60 * 60 * 1000.

(** A pending [setTimeout]: the time from which its callback may run and
    the [cacheKey] its closure holds. *)
Record timer : Type := Timer { due : Z; key : text }.

(** The process: the [airportCache] map, the pending timers, the [cacheKey]
    of every handler suspended at its [await] of the upstream lookup, the
    clock in milliseconds, and the keywords sent upstream so far. *)
Record server : Type := Server {
  airportCache : gmap text jsval;
  timers : list timer;
  awaiting : list text;
  clock : Z;
  upstream_calls : list text
}.

Definition start : server := Server ∅ [] [] 0 [].

(** What the [await] of [amadeus.referenceData.locations.get] gives: the
    promise rejects with an error that has a [description], or it resolves
    to a response with its [data]. *)
Inductive locations_outcome : Type :=
| LocationsRejected (description : jsval)
| LocationsResolved (data : jsval).

Definition keyword_required : response :=
  Response 400 (ErrorBody "Keyword is required").

Definition lookup_failed (description : jsval) : response :=
  Response 500 (LookupErrorBody "Failed to fetch airport data" description).

(** [const cacheKey = keyword.toUpperCase()] *)
Definition cacheKey (keyword : text) : text := toUpperCase keyword.

(** The cache store of the handler: [airportCache.set(cacheKey,
    responseData)] and the [setTimeout] of [CACHE_TTL_MS]. *)
Definition store (K : text) (responseData : jsval) (s : server) : server :=
  Server (<[K := responseData]> (airportCache s))
         (timers s ++ [Timer (clock s + CACHE_TTL_MS) K])
         (awaiting s) (clock s) (upstream_calls s).

(** The timer callback: [airportCache.delete(cacheKey)]. *)
Definition expire (K : text) (s : server) : server :=
  Server (delete K (airportCache s))
         (timers s) (awaiting s) (clock s) (upstream_calls s).

(** The handler up to its [await], on the [keyword] of the query: absent,
    or a string (a keyword given twice or with brackets, which the query
    parser turns into an array or an object, is not covered).  It answers at
    once (a missing or empty keyword, a cache
    hit), or it sends the lookup upstream and waits. *)
Definition search_airports (keyword : option text) (s : server)
  : server * option response :=
  match keyword with
  | None | Some [] => (s, Some keyword_required)
  | Some kw =>
      let K := cacheKey kw in
      match airportCache s !! K with
      | Some cached => (s, Some (Response 200 (DataBody cached)))
      | None =>
          (Server (airportCache s) (timers s) (awaiting s ++ [K])
                  (clock s) (upstream_calls s ++ [K]), None)
      end
  end.

(** The handler from its [await] on. *)
Definition search_airports_resume (K : text) (o : locations_outcome)
    (s : server) : server * response :=
  match o with
  | LocationsResolved responseData =>
      (store K responseData s, Response 200 (DataBody responseData))
  | LocationsRejected description => (s, lookup_failed description)
  end.

(** The cache as the handler uses it: a read and a write under the folded
    keyword. *)
Definition cache_get (keyword : text) (s : server) : option jsval :=
  airportCache s !! cacheKey keyword.

Definition cache_put (keyword : text) (value : jsval) (s : server) : server :=
  store (cacheKey keyword) value s.

(** *** The event loop *)

Inductive event : Type :=
| Tick (d : Z)                               (* [d] milliseconds pass *)
| Request (keyword : option text)            (* a request arrives *)
| Reply (i : nat) (o : locations_outcome)    (* the upstream answers the
                                                [i]-th waiting handler *)
| Fire (i : nat).                            (* the [i]-th pending timer runs *)

Definition set_clock (t : Z) (s : server) : server :=
  Server (airportCache s) (timers s) (awaiting s) t (upstream_calls s).

Definition set_timers (ts : list timer) (s : server) : server :=
  Server (airportCache s) ts (awaiting s) (clock s) (upstream_calls s).

Definition set_awaiting (ws : list text) (s : server) : server :=
  Server (airportCache s) (timers s) ws (clock s) (upstream_calls s).

(** One event.  [None]: the event cannot happen in this state (time does
    not go back, a timer does not run before it is due, nothing answers a
    handler that is not waiting). *)
Definition step (e : event) (s : server) : option (server * option response) :=
  match e with
  | Tick d =>
      if (0 <=? d)%Z then Some (set_clock (clock s + d) s, None) else None
  | Request keyword => Some (search_airports keyword s)
  | Reply i o =>
      match awaiting s !! i with
      | Some K =>
          let (s', r) :=
            search_airports_resume K o (set_awaiting (delete i (awaiting s)) s) in
          Some (s', Some r)
      | None => None
      end
  | Fire i =>
      match timers s !! i with
      | Some t =>
          if (due t <=? clock s)%Z
          then Some (expire (key t) (set_timers (delete i (timers s)) s), None)
          else None
      | None => None
      end
  end.

(** A run of events: the final state and the responses sent, in order. *)
Fixpoint run (es : list event) (s : server) : option (server * list response) :=
  match es with
  | [] => Some (s, [])
  | e :: es' =>
      match step e s with
      | None => None
      | Some (s', r) =>
          match run es' s' with
          | None => None
          | Some (s'', rs) => Some (s'', from_option (fun x => [x]) [] r ++ rs)
          end
      end
  end.

End Airports.
Export Airports.

(** ** Notions the properties are stated with *)

Module Notions.

(** A destination candidate as the suggestion service is asked to give it:
    an object with a string [city] and a string [iataCode]. *)
Record candidate : Type := Candidate { city : text; iataCode : text }.

Definition to_js (c : candidate) : jsval :=
  JObj [(txt "city", JStr (city c)); (txt "iataCode", JStr (iataCode c))].

(** The hex digit of a number below 16, in lower case. *)
Definition hex_digit (n : N) : N := if (n <? 10)%N then (48 + n)%N else (87 + n)%N.

(** [\u] and the four hex digits of a code unit. *)
Definition unicode_escape (c : N) : text :=
  [92; 117; hex_digit (c / 4096); hex_digit ((c / 256) mod 16);
   hex_digit ((c / 16) mod 16); hex_digit (c mod 16)]%N.

(** [JSON.stringify] on a list of candidates (the function the page uses
    for its request body), after QuoteJSONString and SerializeJSONArray of
    ECMAScript.  A code unit is written as it is, but for the quotation mark,
    the backslash and the control characters, which are escaped, and for a
    surrogate that has no partner, which is written with [\u] and four hex
    digits. *)
Definition quote_unit (c : N) : text :=
  if (c =? 8)%N then [92; 98]%N
  else if (c =? 9)%N then [92; 116]%N
  else if (c =? 10)%N then [92; 110]%N
  else if (c =? 12)%N then [92; 102]%N
  else if (c =? 13)%N then [92; 114]%N
  else if (c =? 34)%N then [92; 34]%N
  else if (c =? 92)%N then [92; 92]%N
  else if (c <? 32)%N || is_high_surrogate c || is_low_surrogate c
       then unicode_escape c
  else [c].

Fixpoint quote_units (s : text) : text :=
  match s with
  | [] => []
  | c :: r =>
      match r with
      | l :: r' =>
          if is_high_surrogate c && is_low_surrogate l
          then c :: l :: quote_units r'
          else quote_unit c ++ quote_units r
      | [] => quote_unit c
      end
  end.

(** A string between quotation marks. *)
Definition QuoteJSONString (s : text) : text := 34%N :: quote_units s ++ [34%N].

(** An object with its two members, [city] first; 123 and 125 are the
    braces, 58 the colon, 44 the comma. *)
Definition stringify_candidate (c : candidate) : text :=
  [123%N] ++ QuoteJSONString (txt "city") ++ [58%N]
  ++ QuoteJSONString (city c) ++ [44%N]
  ++ QuoteJSONString (txt "iataCode") ++ [58%N]
  ++ QuoteJSONString (iataCode c) ++ [125%N].

Fixpoint join_candidates (cs : list candidate) : text :=
  match cs with
  | [] => []
  | c :: cs' =>
      match cs' with
      | [] => stringify_candidate c
      | _ :: _ => stringify_candidate c ++ [44%N] ++ join_candidates cs'
      end
  end.

Definition JSON_stringify (cs : list candidate) : text :=
  [91%N] ++ join_candidates cs ++ [93%N].

(** The lookup the handler makes for a candidate. *)
Definition request_for (departureAirport : jsval) (date : text) (c : candidate)
  : fare_request :=
  FareRequest departureAirport (JStr (iataCode c)) date.

(** The result a lookup outcome gives for a candidate, if any: the first
    offer's price under the candidate's city. *)
Definition quote (o : fare_outcome) (c : candidate) : option FlightResult :=
  match o with
  | FareResolved (first :: _) =>
      Some (Flight (JStr (city c)) (parseFloat (price_total first)))
  | _ => None
  end.

(** The quotes of a list of candidates, in candidate order; the lookup of
    the first one is the [n]-th of the request. *)
Fixpoint quotes (fare : FareSource) (departureAirport : jsval) (date : text)
    (n : nat) (cs : list candidate) : list FlightResult :=
  match cs with
  | [] => []
  | c :: cs' =>
      match quote (fare n (request_for departureAirport date c)) c with
      | Some r => r :: quotes fare departureAirport date (S n) cs'
      | None => quotes fare departureAirport date (S n) cs'
      end
  end.

(** A lookup that fails or finds no offer. *)
Definition no_quote (o : fare_outcome) : Prop :=
  o = FareRejected \/ o = FareResolved [].

(** Whether a parsed value has the candidate shape: a list whose every
    element is an object with a string [city] and a string [iataCode]. *)
Definition is_string (v : option jsval) : bool :=
  match v with Some (JStr _) => true | _ => false end.

Definition element_shaped (v : jsval) : bool :=
  match v with
  | JObj ms => is_string (own_member (txt "city") ms)
               && is_string (own_member (txt "iataCode") ms)
  | _ => false
  end.

Definition candidate_shaped (v : jsval) : bool :=
  match v with
  | JArr l => forallb element_shaped l
  | _ => false
  end.

(** Whether a text has three grave accents in a row somewhere. *)
Fixpoint has_fence (t : text) : bool :=
  match t with
  | [] => false
  | _ :: r => starts_with fence t || has_fence r
  end.

(** A payload inside a fenced block: the opening fence with its [json]
    tag, a line feed, the payload, a line feed, the closing fence. *)
Definition fenced (payload : text) : text :=
  fence_json ++ [10%N] ++ payload ++ [10%N] ++ fence.

(** *** Case variants *)

(** A code point with its case changed, or kept: [q] is [p], its upper
    case or its lower case. *)
Definition recased (p q : text) : Prop :=
  q = p \/ q = upper_point p \/ q = lower_point p.

(** A case variant of a keyword: the keyword with the case of some of its
    characters changed. *)
Definition case_variant (k k' : text) : Prop :=
  exists qs, Forall2 recased (code_points k) qs /\ k' = concat qs.

(** The lower case of a keyword, character by character.  It is what
    [toLowerCase] gives for a keyword without a capital sigma. *)
Definition lower_case (k : text) : text :=
  concat (map lower_point (code_points k)).

(** The six characters whose lower case has another upper case than they
    have: capital I with dot above (U+0130), the capital theta symbol
    (U+03F4), capital sharp s (U+1E9E), and the ohm (U+2126), kelvin
    (U+212A) and angstrom (U+212B) signs. *)
Definition irreversible : list text :=
  [[304]; [1012]; [7838]; [8486]; [8490]; [8491]]%N.

(** The same, with none of the six put in lower case. *)
Definition safely_recased (p q : text) : Prop :=
  q = p \/ q = upper_point p \/ (q = lower_point p /\ p ∉ irreversible).

Definition safe_case_variant (k k' : text) : Prop :=
  exists qs, Forall2 safely_recased (code_points k) qs /\ k' = concat qs.

(** What the properties of the mappings are read from the tables with: a
    text that begins with a low surrogate, one that ends with a high one, a
    text that is not empty and does neither, the string of one code point,
    and the two checks of the tables. *)
Definition starts_low (t : text) : bool :=
  match t with
  | c :: _ => is_low_surrogate c
  | [] => false
  end.

Fixpoint ends_high (t : text) : bool :=
  match t with
  | [] => false
  | [c] => is_high_surrogate c
  | _ :: r => ends_high r
  end.

Definition closed (q : text) : bool :=
  negb (starts_low q) && negb (ends_high q) && negb (bool_decide (q = [])).

Definition piece (p : text) : Prop :=
  (exists c, p = [c])
  \/ (exists h l, p = [h; l] /\ is_high_surrogate h = true
                 /\ is_low_surrogate l = true).

Definition upper_index_sound : bool :=
  forallb (fun '(i, q) => closed q && bool_decide (toUpperCase q = q))
          (PositiveMap.elements upper_index).

Definition lower_index_sound : bool :=
  forallb (fun '(i, q) =>
             closed q
             && (bool_decide (toUpperCase q = upper_point (units_of (Npos i)))
                 || bool_decide (units_of (Npos i) ∈ irreversible)))
          (PositiveMap.elements lower_index).

(** *** The cache in a run *)

(** No pending timer and no waiting handler holds the key. *)
Definition untouched (K : text) (s : server) : Prop :=
  airportCache s !! K = None /\
  Forall (fun t => key t <> K) (timers s) /\
  Forall (fun K' => K' <> K) (awaiting s).


(** The key holds [data], no handler waits to store under it, and no timer
    for it is due before [T]. *)
Definition cached (K : text) (data : jsval) (T : Z) (s : server) : Prop :=
  airportCache s !! K = Some data /\
  Forall (fun t => key t = K -> (T <= due t)%Z) (timers s) /\
  Forall (fun K' => K' <> K) (awaiting s).

(** What an event stores under [K], if it is the answer to a handler that
    waits with this key: the time and the data.  [acc] otherwise. *)
Definition stored_by (K : text) (e : event) (s : server)
    (acc : option (Z * jsval)) : option (Z * jsval) :=
  match e with
  | Reply i (LocationsResolved data) =>
      if bool_decide (awaiting s !! i = Some K) then Some (clock s, data)
      else acc
  | _ => acc
  end.

(** The last store under [K] in a run from [s]: when it was made and what
    it stored.  [acc] is the last one before the run. *)
Fixpoint last_store (K : text) (es : list event) (s : server)
    (acc : option (Z * jsval)) : option (Z * jsval) :=
  match es with
  | [] => acc
  | e :: es' =>
      match step e s with
      | Some (s', _) => last_store K es' s' (stored_by K e s acc)
      | None => acc
      end
  end.

(** Whether an event is the callback of a timer that holds [K], and
    whether a run from [s] has such an event. *)
Definition removes (K : text) (e : event) (s : server) : bool :=
  match e with
  | Fire i => bool_decide (key <$> timers s !! i = Some K)
  | _ => false
  end.

Fixpoint removed (K : text) (es : list event) (s : server) : bool :=
  match es with
  | [] => false
  | e :: es' =>
      removes K e s
      || match step e s with
         | Some (s', _) => removed K es' s'
         | None => false
         end
  end.

(** Every entry of the map is the last store under its key, and the
    removal that this store has set, due 24 hours after it, is pending. *)
Definition own_removal_pending (last : text -> option (Z * jsval))
    (s : server) : Prop :=
  forall K v, airportCache s !! K = Some v ->
    exists T, last K = Some (T, v) /\ (T <= clock s)%Z
              /\ Timer (T + CACHE_TTL_MS) K ∈ timers s.

End Notions.
Export Notions.

(** ** Concrete inputs *)

Module Scenario.

Definition five : jsval := JNum (Decimal false 5 0).
Definition JFK : jsval := JStr (txt "JFK").
Definition in_three_months : text := txt "2027-02-03".

Definition paris : candidate := Candidate (txt "Paris, France") (txt "CDG").
Definition tokyo : candidate := Candidate (txt "Tokyo, Japan") (txt "HND").
Definition lima : candidate := Candidate (txt "Lima, Peru") (txt "LIM").

(** The answer of the suggestion service: three candidates, in a fenced
    block. *)
Definition three_payload : text :=
  jtxt "[{'city': 'Paris, France', 'iataCode': 'CDG'},
 {'city': 'Tokyo, Japan', 'iataCode': 'HND'},
 {'city': 'Lima, Peru', 'iataCode': 'LIM'}]".

Definition three_suggestions : text := fenced three_payload.

(** A pricing service with one offer for CDG, one for LIM and none
    elsewhere. *)
Definition fares : FareSource := fun _ request =>
  match destinationLocationCode request with
  | JStr code =>
      if text_eqb code (txt "CDG") then FareResolved [Offer (txt "450.0")]
      else if text_eqb code (txt "LIM") then FareResolved [Offer (txt "980.5")]
      else FareResolved []
  | _ => FareRejected
  end.

(** A pricing service that is down. *)
Definition no_fares : FareSource := fun _ _ => FareRejected.

(** A suggestion whose only element has no [iataCode]. *)
Definition missing_code : text := jtxt "[{'city': 'Paris, France'}]".

(** An answer of the suggestion service that is prose, not JSON. *)
Definition prose : text := txt "Sorry, I can not help with that.".

(** A trip length that is a string, and not a number. *)
Definition a_week : jsval := JStr (txt "a week").

(** A request body member that is an object with a member named
    [toString]. *)
Definition odd_days : jsval := JObj [(txt "toString", JNum (Decimal false 1 0))].

(** A suggestion whose city holds three grave accents, and the candidate it
    stands for. *)
Definition backticks : text := jtxt "[{'city':'a```b','iataCode':'CDG'}]".
Definition backticks_candidate : candidate := Candidate (txt "a```b") (txt "CDG").

(** Two keywords for one key, two upstream answers. *)
Definition par : text := txt "par".
Definition PAR : text := txt "PAR".
Definition answer_A : jsval := JArr [JObj [(txt "iataCode", JStr (txt "CDG"))]].
Definition answer_B : jsval := JArr [JObj [(txt "iataCode", JStr (txt "ORY"))]].

(** One lookup, answered at once, and a day going by with no timer run. *)
(** A keyword that begins with capital I with dot above, and its lower
    case: i, combining dot above, and the rest. *)
Definition Istanbul : text := 304%N :: txt "stanbul".
Definition istanbul : text := 105%N :: 775%N :: txt "stanbul".

Definition a_day_later : list event :=
  [Request (Some par); Reply 0 (LocationsResolved answer_A); Tick CACHE_TTL_MS].

(** Two requests for the key miss before either is answered.  The first is
    answered after 1 second, the second after 5; then the clock reaches the
    time the first timer is due, 1 second and 24 hours. *)
Definition race : list event :=
  [Request (Some par); Request (Some PAR);
   Tick 1000; Reply 0 (LocationsResolved answer_A);
   Tick 4000; Reply 0 (LocationsResolved answer_B);
   Tick (CACHE_TTL_MS - 4000)].

(** The same race, when the second answer is an empty list. *)
Definition empty_race : list event :=
  [Request (Some par); Request (Some PAR);
   Tick 1000; Reply 0 (LocationsResolved answer_A);
   Tick 4000; Reply 0 (LocationsResolved (JArr []));
   Tick (CACHE_TTL_MS - 4000)].

End Scenario.

(** ** Notions of the further properties *)

Module Further.

(** [destination.city], read where [destination] is neither [null] nor
    [undefined]. *)
Definition city_of (destination : jsval) : jsval :=
  default JUndefined (get_member destination (txt "city")).

(** A grave accent at the head. *)
Definition tick_first (t : text) : bool := starts_with [96%N] t.

Definition is_letter (c : N) : bool :=
  (((65 <=? c) && (c <=? 90)) || ((97 <=? c) && (c <=? 122)))%N.

Definition all_space (w : text) : bool := forallb is_js_space w.

(** Event counts of a run. *)
Definition is_request (e : event) : bool :=
  match e with Request _ => true | _ => false end.
Definition is_reply (e : event) : bool :=
  match e with Reply _ _ => true | _ => false end.
Definition is_store (e : event) : bool :=
  match e with Reply _ (LocationsResolved _) => true | _ => false end.
Definition is_fire (e : event) : bool :=
  match e with Fire _ => true | _ => false end.

Definition count (p : event -> bool) (es : list event) : nat :=
  length (List.filter p es).

(** The data the upstream delivered in a run. *)
Definition delivered (es : list event) : list jsval :=
  omap (fun e => match e with
                 | Reply _ (LocationsResolved data) => Some data
                 | _ => None
                 end) es.

(** A key in upper case. *)
Definition folded (K : text) : Prop := toUpperCase K = K.

Definition keys_folded (s : server) : Prop :=
  (forall K v, airportCache s !! K = Some v -> folded K)
  /\ Forall (fun t => folded (key t)) (timers s)
  /\ Forall folded (awaiting s)
  /\ Forall folded (upstream_calls s).

Definition from_upstream (D : list jsval) (x : response) : Prop :=
  status x = 200%Z -> exists v, json x = DataBody v /\ v ∈ D.

Definition holds_only (D : list jsval) (s : server) : Prop :=
  forall K v, airportCache s !! K = Some v -> v ∈ D.

(** The handler of the first server of [server.js], which has no cache: the
    keyword it sends upstream, if it sends one, and its response to what the
    upstream answers. *)
Definition search_airports_v1 (keyword : option text) (answer : locations_outcome)
  : option text * response :=
  match keyword with
  | None | Some [] => (None, keyword_required)
  | Some kw =>
      (Some (toUpperCase kw),
       match answer with
       | LocationsResolved data => Response 200 (DataBody data)
       | LocationsRejected description => lookup_failed description
       end)
  end.

(** The replies of a run are the answers of [up], an upstream whose answer
    depends on the keyword alone. *)
Fixpoint agrees (up : text -> locations_outcome) (es : list event) (s : server)
  : Prop :=
  match es with
  | [] => True
  | e :: es' =>
      match e with
      | Reply i o => forall K, awaiting s !! i = Some K -> o = up K
      | _ => True
      end
      /\ match step e s with
         | Some (s', _) => agrees up es' s'
         | None => True
         end
  end.

Definition mirrors (up : text -> locations_outcome) (s : server) : Prop :=
  forall K v, airportCache s !! K = Some v -> up K = LocationsResolved v.

End Further.
Export Further.

(** ** The first server: its port *)

Module Startup.

(** A Number, as far as [parseInt] gives one: not a number, an infinity,
    or a finite value with its sign (zero has one too) and, as its
    magnitude, a natural number. *)
Inductive js_number : Type :=
| NaN
| Infinity (negative : bool)
| Finite (negative : bool) (magnitude : N).

(** The Number for a natural number with a sign: the number itself when it
    has at most 53 binary digits; else the nearest multiple of the power of
    two that leaves 53 digits, the even one of two that are equally near;
    an infinity when that is 2^1024 or more. *)
Definition to_number (negative : bool) (m : N) : js_number :=
  if (N.size m <=? 53)%N then Finite negative m
  else
    let e := (N.size m - 53)%N in
    let q := N.shiftr m e in
    let r := N.land m (N.ones e) in
    let half := N.shiftl 1 (e - 1) in
    let q' := if (half <? r)%N || ((r =? half)%N && N.odd q)
              then (q + 1)%N else q in
    let v := N.shiftl q' e in
    if (1024 <? N.size v)%N then Infinity negative else Finite negative v.

(** [parseInt(s, 10)] of a string: white space is skipped, then an optional
    sign, then the longest run of digits is read; what follows is ignored.
    The result is NaN when there is no digit, and else the Number for the
    integer of the digits with the sign. *)
Definition parseInt (s : text) : js_number :=
  let s1 := trim_start s in
  let (minus, s2) :=
    match s1 with
    | c :: r =>
        if (c =? 45)%N then (true, r)
        else if (c =? 43)%N then (false, r)
        else (false, s1)
    | [] => (false, s1)
    end in
  match fst (digits s2) with
  | [] => NaN
  | ds => to_number minus (digits_value ds)
  end.

(** [process.argv.indexOf('--port')]: the first position of the flag. *)
Fixpoint indexOf (flag : text) (argv : list text) : option nat :=
  match argv with
  | [] => None
  | a :: rest =>
      if text_eqb a flag then Some 0
      else match indexOf flag rest with
           | Some i => Some (S i)
           | None => None
           end
  end.

(** The port of the first server of [server.js]: 3000, unless [--port] is
    on the command line with something after it, or else [PORT] is set in
    the environment and not empty. *)
Definition port (argv : list text) (PORT : option text) : js_number :=
  match indexOf (txt "--port") argv with
  | Some portArgIndex =>
      if portArgIndex + 1 <? length argv
      then parseInt (default [] (argv !! (portArgIndex + 1)))
      else match PORT with
           | Some (c :: p) => parseInt (c :: p)
           | _ => Finite false 3000
           end
  | None =>
      match PORT with
      | Some (c :: p) => parseInt (c :: p)
      | _ => Finite false 3000
      end
  end.

Definition port_of_environment (PORT : option text) : js_number :=
  match PORT with
  | Some (c :: p) => parseInt (c :: p)
  | _ => Finite false 3000
  end.

End Startup.
Export Startup.

(** ** The page: public/main.js *)

Module Page.

(** *** The search button *)
(** [JSON.stringify({ numberOfDays, departureAirport })] for the two
    strings the page has: the value of the days field and the [data-iata]
    attribute of the departure field. *)
Definition request_body (numberOfDays departureAirport : text) : text :=
  [123%N] ++ QuoteJSONString (txt "numberOfDays") ++ [58%N]
  ++ QuoteJSONString numberOfDays ++ [44%N]
  ++ QuoteJSONString (txt "departureAirport") ++ [58%N]
  ++ QuoteJSONString departureAirport ++ [125%N].

(** What a click on the search button does: it posts a body, or it asks
    the user to fill the form.  [data_iata] is [None] when the attribute is
    not set. *)
Inductive click_action : Type :=
| Post (body : text)
| AskToSelect.

Definition on_search_click (days : text) (data_iata : option text)
  : click_action :=
  match days, data_iata with
  | _ :: _, Some (c :: code) => Post (request_body days (c :: code))
  | _, _ => AskToSelect
  end.

(** What the [await fetch] and [await response.json()] of the click give:
    one of them throws (no answer, or a body that is not JSON), or the
    parsed body. *)
Inductive search_outcome : Type :=
| SearchThrows
| SearchAnswered (data : body).

(** What the results section shows in the end. *)
Inductive results_view : Type :=
| SomethingWentWrong
| NoFlightsFound
| FlightCards (flights : list FlightResult).

(** [data.flights] for a body of [/api/search-flights]: [None] is
    [undefined], which is what the body of an error gives.  The bodies of the
    other route are not answers to this request. *)
Definition flights_of (data : body) : option (list FlightResult) :=
  match data with
  | FlightsBody flights => Some flights
  | _ => None
  end.

(** [displayFlights(flights)]: a card per flight, or the message when
    there is none.  [None]: it throws, which it does when the [destination]
    of a flight, assigned to [textContent], cannot be converted to a
    string. *)
Definition displayFlights (flights : option (list FlightResult))
  : option results_view :=
  match flights with
  | Some (f :: fs) =>
      if existsb (fun flight => toString_throws (destination flight)) (f :: fs)
      then None
      else Some (FlightCards (f :: fs))
  | _ => Some NoFlightsFound
  end.

(** The click handler after its request: the status of the answer is not
    looked at, and what [displayFlights] throws is caught like a failure of
    the request. *)
Definition after_search (o : search_outcome) : results_view :=
  match o with
  | SearchThrows => SomethingWentWrong
  | SearchAnswered data =>
      default SomethingWentWrong (displayFlights (flights_of data))
  end.

(** *** The suggestions under the departure field *)
(** A piece of a display text: characters, or a value that is not a string
    as ToString prints it. *)
Inductive fragment : Type :=
| Chars (t : text)
| Printed (v : jsval).

Definition show (v : jsval) : fragment :=
  match v with
  | JStr t => Chars t
  | _ => Printed v
  end.

(** A line of the dropdown: its text, and the [iataCode] that a click on it
    puts in the [data-iata] attribute of the departure field. *)
Record entry : Type := Entry { displayText : list fragment; picked : jsval }.

(** [suggestion.iataCode] of a suggestion that is neither [null] nor
    [undefined]. *)
Definition iataCode_of (suggestion : jsval) : jsval :=
  default JUndefined (get_member suggestion (txt "iataCode")).

(** The test of the [if] in the loop: whether the city is shown before the
    name.  [None] is the TypeError of [toUpperCase] on what is not a
    string. *)
Definition city_differs (suggestion : jsval) : option bool :=
  match get_member suggestion (txt "address") with
  | None => None
  | Some address =>
      if truthy address then
        match get_member address (txt "cityName") with
        | None => None
        | Some cityName =>
            if truthy cityName then
              match cityName, get_member suggestion (txt "name") with
              | JStr city, Some (JStr name) =>
                  Some (negb (text_eqb (toUpperCase city) (toUpperCase name)))
              | _, _ => None
              end
            else Some false
        end
      else Some false
  end.

(** One turn of the [forEach]: the line for a suggestion.  [None]: the turn
    throws. *)
Definition suggestion_entry (suggestion : jsval) : option entry :=
  match city_differs suggestion with
  | None => None
  | Some with_city =>
      let name := default JUndefined (get_member suggestion (txt "name")) in
      let code := iataCode_of suggestion in
      if toString_throws name || toString_throws code then None
      else
        let tail := [show name; Chars (txt " ("); show code; Chars (txt ")")] in
        match with_city, get_member suggestion (txt "address") with
        | true, Some address =>
            let cityName :=
              default JUndefined (get_member address (txt "cityName")) in
            Some (Entry (show cityName :: Chars (txt ", ") :: tail) code)
        | _, _ => Some (Entry tail code)
        end
  end.

Inductive dropdown : Type :=
| Hidden
| Shown (entries : list entry).

(** [suggestions.filter(s => s.iataCode)]; [None]: a suggestion is [null]. *)
Fixpoint validSuggestions (l : list jsval) : option (list jsval) :=
  match l with
  | [] => Some []
  | s :: l' =>
      match get_member s (txt "iataCode"), validSuggestions l' with
      | Some code, Some rest => Some (if truthy code then s :: rest else rest)
      | _, _ => None
      end
  end.

Fixpoint entries_of (l : list jsval) : option (list entry) :=
  match l with
  | [] => Some []
  | s :: l' =>
      match suggestion_entry s with
      | None => None
      | Some e =>
          match entries_of l' with
          | Some es => Some (e :: es)
          | None => None
          end
      end
  end.

(** [displayAirportSuggestions(suggestions)].  [None]: it throws (what it
    is given is not an array, a suggestion is [null], a name is not a
    string where one is needed). *)
Definition displayAirportSuggestions (suggestions : jsval) : option dropdown :=
  match suggestions with
  | JArr l =>
      match validSuggestions l with
      | None => None
      | Some [] => Some Hidden
      | Some (s :: valid) =>
          match entries_of (s :: valid) with
          | Some es => Some (Shown es)
          | None => None
          end
      end
  | _ => None
  end.

(** What the [await]s of the input listener give: one throws, the answer
    is not [ok], or the parsed body. *)
Inductive lookup_outcome : Type :=
| LookupThrows
| LookupNotOk
| LookupData (data : jsval).

(** The input listener: whether it asks the server (what comes back is
    then [answer]) and the dropdown in the end. *)
Definition on_keyword_input (keyword : text) (answer : lookup_outcome)
  : bool * dropdown :=
  if 2 <? length keyword then
    (true,
     match answer with
     | LookupThrows | LookupNotOk => Hidden
     | LookupData data => default Hidden (displayAirportSuggestions data)
     end)
  else (false, Hidden).

End Page.
Export Page.

(** ** More concrete inputs *)

Module Cases.

(** A suggestion list with [null] in the middle. *)
Definition with_null : text :=
  jtxt "[{'city': 'Paris, France', 'iataCode': 'CDG'}, null,
 {'city': 'Lima, Peru', 'iataCode': 'LIM'}]".

(** A suggestion that is one JSON string. *)
Definition a_string : text := jtxt "'Rome'".

(** What follows the opening fence when its tag is written JSON, before a
    line feed, the three candidates and the closing fence. *)
Definition after_upper_tag : text :=
  txt "SON" ++ [10%N] ++ Scenario.three_payload ++ [10%N] ++ fence.

(** The state after the race of [Scenario.race]. *)
Definition after_race : server :=
  Server {[Scenario.PAR := Scenario.answer_B]}
         [Timer (1000 + CACHE_TTL_MS) Scenario.PAR;
          Timer (5000 + CACHE_TTL_MS) Scenario.PAR]
         [] (1000 + CACHE_TTL_MS) [Scenario.PAR; Scenario.PAR].

Definition race_answers : list response :=
  [Response 200 (DataBody Scenario.answer_A);
   Response 200 (DataBody Scenario.answer_B)].

(** The state after [Scenario.a_day_later]. *)
Definition after_a_day : server :=
  Server {[Scenario.PAR := Scenario.answer_A]}
         [Timer CACHE_TTL_MS Scenario.PAR] [] CACHE_TTL_MS [Scenario.PAR].

(** An upstream that always gives the same answer. *)
Definition steady : text -> locations_outcome :=
  fun _ => LocationsResolved Scenario.answer_A.

(** A command line without the flag. *)
Definition node_server : list text := [txt "node"; txt "server.js"].

End Cases.

(** * Properties *)

(** ** The embedding on examples *)

Example parse_candidates :
  JSON_parse (jtxt "[ {'city': 'Paris, France', 'iataCode': 'CDG'},
                      {'iataCode': 'HND', 'n': [-1.50e2, true, null, 'aA\n']} ]")
  = Some (JArr [ JObj [(txt "city", JStr (txt "Paris, France"));
                       (txt "iataCode", JStr (txt "CDG"))];
                 JObj [(txt "iataCode", JStr (txt "HND"));
                       (txt "n", JArr [JNum (Decimal true 150 0);
                                       JBool true; JNull;
                                       JStr (txt "aA" ++ [10%N])])] ]).
Proof. vm_compute. reflexivity. Qed.

Example parse_rejects :
  map JSON_parse [txt "[1,]"; txt "01"; txt "{'a':1}"; txt "[1 2]"; txt "";
                  txt "1."; txt "-"; txt "tru"; jtxt "'a"; jtxt "{'a' 1}";
                  txt "[[[[1]]]"; txt "1 x"]
  = [None; None; None; None; None; None; None; None; None; None; None; None].
Proof. vm_compute. reflexivity. Qed.


(** ** The recommendation pipeline *)

Section pipeline.

Variable fare : FareSource.
Variable departureAirport : jsval.
Variable date : text.

Lemma candidate_iataCode c :
  get_member (to_js c) (txt "iataCode") = Some (JStr (iataCode c)).
Proof. reflexivity. Qed.

Lemma candidate_city c :
  get_member (to_js c) (txt "city") = Some (JStr (city c)).
Proof. reflexivity. Qed.

Lemma candidate_catch c : catch_block (to_js c) = Skipped.
Proof. reflexivity. Qed.

(** A turn of the loop on a candidate makes exactly one lookup and pushes
    the candidate's quote when there is one. *)
Lemma loop_turn_candidate n c :
  loop_turn fare n departureAirport date (to_js c)
  = (match quote (fare n (request_for departureAirport date c)) c with
     | Some r => Pushed r
     | None => Skipped
     end, [request_for departureAirport date c]).
Proof.
  unfold loop_turn. rewrite candidate_iataCode, candidate_city, candidate_catch.
  fold (request_for departureAirport date c). unfold quote.
  destruct (fare n (request_for departureAirport date c)) as [|[|first rest]];
    reflexivity.
Qed.

(** The loop never leaves early on candidates: one lookup each, the quotes
    in candidate order. *)
Lemma fare_loop_candidates cs : forall n,
  fare_loop fare n departureAirport date (map to_js cs)
  = (Some (quotes fare departureAirport date n cs),
     map (request_for departureAirport date) cs).
Proof.
  induction cs as [|c cs IH]; intros n; [reflexivity|].
  cbn [map fare_loop quotes]. rewrite loop_turn_candidate.
  cbn [length]. replace (n + 1) with (S n) by lia. rewrite IH.
  destruct (quote (fare n (request_for departureAirport date c)) c); reflexivity.
Qed.

Lemma quote_none o c : no_quote o -> quote o c = None.
Proof. intros [-> | ->]; reflexivity. Qed.

Lemma quotes_all_fail cs : forall n,
  (forall i c, cs !! i = Some c ->
     no_quote (fare (n + i) (request_for departureAirport date c))) ->
  quotes fare departureAirport date n cs = [].
Proof.
  induction cs as [|c cs IH]; intros n Hfail; [reflexivity|].
  cbn [quotes]. rewrite quote_none.
  - apply IH. intros i c' Hc'.
    replace (S n + i) with (n + S i) by lia. apply Hfail. exact Hc'.
  - replace n with (n + 0) at 1 by lia. apply Hfail. reflexivity.
Qed.

(** With valid inputs and a suggestion text that parses to a list of
    candidates, the handler answers 200 with the quotes, after one call to
    the suggestion service and one lookup per candidate. *)
Lemma search_flights_candidates numberOfDays geminiText cs :
  truthy numberOfDays = true -> truthy departureAirport = true ->
  toString_throws numberOfDays = false ->
  toString_throws departureAirport = false ->
  parse_suggestions geminiText = Some (JArr (map to_js cs)) ->
  search_flights (SuggestText geminiText) fare date numberOfDays departureAirport
  = (Response 200 (FlightsBody (quotes fare departureAirport date 0 cs)),
     SuggestCall numberOfDays departureAirport
       :: map FareCall (map (request_for departureAirport date) cs)).
Proof.
  intros Hn Ha Tn Ta Hparse. unfold search_flights.
  rewrite Hn, Ha, Tn, Ta, Hparse. cbn [negb orb iterate].
  rewrite fare_loop_candidates. reflexivity.
Qed.

End pipeline.

(** C5.  When the suggestion text gives three candidates, the fare lookups
    of the first and the third find at least one offer and the lookup of the
    second fails or finds none, the handler answers 200 with exactly the two
    results of the first and the third candidate, in that order.  When the
    lookup of every candidate fails or finds no offer, it answers 200 with
    the empty list.  In both cases every candidate was looked up. *)
Theorem search_flights_drops_failed_candidates :
  (forall fare date numberOfDays departureAirport geminiText
          c1 c2 c3 o1 more1 o3 more3,
     truthy numberOfDays = true -> truthy departureAirport = true ->
     toString_throws numberOfDays = false ->
     toString_throws departureAirport = false ->
     parse_suggestions geminiText = Some (JArr (map to_js [c1; c2; c3])) ->
     fare 0 (request_for departureAirport date c1) = FareResolved (o1 :: more1) ->
     no_quote (fare 1 (request_for departureAirport date c2)) ->
     fare 2 (request_for departureAirport date c3) = FareResolved (o3 :: more3) ->
     search_flights (SuggestText geminiText) fare date numberOfDays departureAirport
     = (Response 200
          (FlightsBody [Flight (JStr (city c1)) (parseFloat (price_total o1));
                        Flight (JStr (city c3)) (parseFloat (price_total o3))]),
        SuggestCall numberOfDays departureAirport
          :: map FareCall (map (request_for departureAirport date) [c1; c2; c3])))
  /\
  (forall fare date numberOfDays departureAirport geminiText cs,
     truthy numberOfDays = true -> truthy departureAirport = true ->
     toString_throws numberOfDays = false ->
     toString_throws departureAirport = false ->
     parse_suggestions geminiText = Some (JArr (map to_js cs)) ->
     (forall i c, cs !! i = Some c ->
        no_quote (fare i (request_for departureAirport date c))) ->
     search_flights (SuggestText geminiText) fare date numberOfDays departureAirport
     = (Response 200 (FlightsBody []),
        SuggestCall numberOfDays departureAirport
          :: map FareCall (map (request_for departureAirport date) cs))).
Proof.
  split.
  - intros fare date n a t c1 c2 c3 o1 more1 o3 more3 Hn Ha Tn Ta Hparse H1 H2 H3.
    rewrite (search_flights_candidates fare a date n t [c1; c2; c3]) by assumption.
    cbn [quotes]. rewrite H1, H3, (quote_none _ c2 H2). reflexivity.
  - intros fare date n a t cs Hn Ha Tn Ta Hparse Hfail.
    rewrite (search_flights_candidates fare a date n t cs) by assumption.
    rewrite quotes_all_fail; [reflexivity|]. exact Hfail.
Qed.

Lemma search_flights_drops_failed_candidates_witness :
  search_flights (SuggestText Scenario.three_suggestions) Scenario.fares
    Scenario.in_three_months Scenario.five Scenario.JFK
  = (Response 200
       (FlightsBody [Flight (JStr (txt "Paris, France")) (parseFloat (txt "450.0"));
                     Flight (JStr (txt "Lima, Peru")) (parseFloat (txt "980.5"))]),
     SuggestCall Scenario.five Scenario.JFK
       :: map FareCall
            (map (request_for Scenario.JFK Scenario.in_three_months)
                 [Scenario.paris; Scenario.tokyo; Scenario.lima]))
  /\
  search_flights (SuggestText Scenario.three_suggestions) Scenario.no_fares
    Scenario.in_three_months Scenario.five Scenario.JFK
  = (Response 200 (FlightsBody []),
     SuggestCall Scenario.five Scenario.JFK
       :: map FareCall
            (map (request_for Scenario.JFK Scenario.in_three_months)
                 [Scenario.paris; Scenario.tokyo; Scenario.lima])).
Proof.
  split.
  - apply (proj1 search_flights_drops_failed_candidates
             Scenario.fares Scenario.in_three_months Scenario.five Scenario.JFK
             Scenario.three_suggestions Scenario.paris Scenario.tokyo Scenario.lima
             (Offer (txt "450.0")) [] (Offer (txt "980.5")) []);
      first [ vm_compute; reflexivity | right; reflexivity ].
  - apply (proj2 search_flights_drops_failed_candidates
             Scenario.no_fares Scenario.in_three_months Scenario.five Scenario.JFK
             Scenario.three_suggestions
             [Scenario.paris; Scenario.tokyo; Scenario.lima]);
      first [ vm_compute; reflexivity | intros i c _; left; reflexivity ].
Defined.

(** ** The suggestion text *)

(** C6 as stated fails: a suggestion that parses but whose element lacks
    [iataCode] is not rejected.  The handler looks a fare up for it (with
    an undefined destination code) and answers 200. *)
Lemma missing_iataCode_is_not_fatal :
  (exists v, parse_suggestions Scenario.missing_code = Some v
             /\ candidate_shaped v = false) /\
  search_flights (SuggestText Scenario.missing_code) Scenario.no_fares
    Scenario.in_three_months Scenario.five Scenario.JFK
  = (Response 200 (FlightsBody []),
     [SuggestCall Scenario.five Scenario.JFK;
      FareCall (FareRequest Scenario.JFK JUndefined Scenario.in_three_months)]).
Proof.
  split.
  - eexists. split; vm_compute; reflexivity.
  - vm_compute. reflexivity.
Qed.

(** C6, amended.  When the cleaned suggestion text is not valid JSON, or is
    JSON that cannot be iterated (an object, a number, a boolean, null), the
    handler answers with the one fatal error and makes no fare lookup. *)
Theorem unparseable_suggestions_are_fatal
    fare date numberOfDays departureAirport geminiText :
  truthy numberOfDays = true -> truthy departureAirport = true ->
  parse_suggestions geminiText ≫= iterate = None ->
  fst (search_flights (SuggestText geminiText) fare date
         numberOfDays departureAirport) = recommendation_failed
  /\ fare_calls (snd (search_flights (SuggestText geminiText) fare date
                        numberOfDays departureAirport)) = [].
Proof.
  intros Hn Ha Hbad. unfold search_flights. rewrite Hn, Ha. cbn [negb orb].
  destruct (toString_throws numberOfDays || toString_throws departureAirport);
    [split; reflexivity|].
  destruct (parse_suggestions geminiText) as [destinations|];
    [|split; reflexivity].
  cbn in Hbad. rewrite Hbad. split; reflexivity.
Qed.

Lemma unparseable_suggestions_are_fatal_witness :
  fst (search_flights (SuggestText Scenario.prose) Scenario.fares
         Scenario.in_three_months Scenario.five Scenario.JFK)
  = recommendation_failed
  /\ fare_calls (snd (search_flights (SuggestText Scenario.prose) Scenario.fares
                        Scenario.in_three_months Scenario.five Scenario.JFK)) = [].
Proof.
  apply (unparseable_suggestions_are_fatal Scenario.fares
           Scenario.in_three_months Scenario.five Scenario.JFK Scenario.prose);
    vm_compute; reflexivity.
Defined.

(** *** Input validation *)

(** C9 as stated fails: a truthy [numberOfDays] that cannot be made a string
    passes the validation but the prompt cannot be built from it; the handler
    answers 500 and the suggestion service is never called. *)
Lemma truthy_days_may_not_reach_suggestions :
  truthy Scenario.odd_days = true /\
  search_flights (SuggestText Scenario.three_suggestions) Scenario.fares
    Scenario.in_three_months Scenario.odd_days Scenario.JFK
  = (recommendation_failed, []).
Proof. split; vm_compute; reflexivity. Qed.

Lemma search_flights_invalid suggest fare date numberOfDays departureAirport :
  truthy numberOfDays = false \/ truthy departureAirport = false ->
  search_flights suggest fare date numberOfDays departureAirport
  = (invalid_input, []).
Proof.
  intros [H | H]; unfold search_flights; rewrite H;
    [|rewrite orb_true_r]; reflexivity.
Qed.

Lemma search_flights_not_400 suggest fare date numberOfDays departureAirport :
  truthy numberOfDays = true -> truthy departureAirport = true ->
  status (fst (search_flights suggest fare date numberOfDays departureAirport))
  <> 400%Z.
Proof.
  intros Hn Ha. unfold search_flights. rewrite Hn, Ha. cbn [negb orb].
  destruct (toString_throws numberOfDays || toString_throws departureAirport);
    [discriminate|].
  destruct suggest as [|geminiText]; [discriminate|].
  destruct (parse_suggestions geminiText) as [destinations|]; [|discriminate].
  destruct (iterate destinations) as [ds|]; [|discriminate].
  destruct (fare_loop fare 0 departureAirport date ds) as [[results|] made];
    discriminate.
Qed.

Lemma search_flights_asks suggest fare date numberOfDays departureAirport :
  truthy numberOfDays = true -> truthy departureAirport = true ->
  toString_throws numberOfDays = false ->
  toString_throws departureAirport = false ->
  exists later,
    snd (search_flights suggest fare date numberOfDays departureAirport)
    = SuggestCall numberOfDays departureAirport :: later.
Proof.
  intros Hn Ha Tn Ta. unfold search_flights. rewrite Hn, Ha, Tn, Ta.
  cbn [negb orb].
  destruct suggest as [|geminiText]; [eexists; reflexivity|].
  destruct (parse_suggestions geminiText) as [destinations|];
    [|eexists; reflexivity].
  destruct (iterate destinations) as [ds|]; [|eexists; reflexivity].
  destruct (fare_loop fare 0 departureAirport date ds) as [results made].
  eexists; reflexivity.
Qed.

(** C9, amended.  The validation is a test of truthiness.  A falsy
    [numberOfDays] (the number 0 whatever its sign and exponent, the empty
    string) gets the 400 answer and no upstream call is made.  A truthy
    [numberOfDays], with a truthy [departureAirport], never gets the 400
    answer; the suggestion service is then called when both values can be
    made strings for the prompt, which every string (numeric or not), every
    number and every boolean can. *)
Theorem validation_is_truthiness suggest fare date numberOfDays departureAirport :
  (truthy numberOfDays = false ->
     search_flights suggest fare date numberOfDays departureAirport
     = (invalid_input, []))
  /\ (truthy numberOfDays = true -> truthy departureAirport = true ->
        status (fst (search_flights suggest fare date
                       numberOfDays departureAirport)) <> 400%Z
        /\ (toString_throws numberOfDays = false ->
            toString_throws departureAirport = false ->
            exists later,
              snd (search_flights suggest fare date
                     numberOfDays departureAirport)
              = SuggestCall numberOfDays departureAirport :: later))
  /\ (forall sign e, truthy (JNum (Decimal sign 0 e)) = false)
  /\ truthy (JStr []) = false
  /\ (forall c s, truthy (JStr (c :: s)) = true
                  /\ toString_throws (JStr (c :: s)) = false)
  /\ (forall d, toString_throws (JNum d) = false)
  /\ (forall b, toString_throws (JBool b) = false).
Proof.
  split; [|split; [|split; [|split; [|split; [|split]]]]].
  - intros H. apply search_flights_invalid. left. exact H.
  - intros Hn Ha. split.
    + apply search_flights_not_400; assumption.
    + intros Tn Ta. apply search_flights_asks; assumption.
  - reflexivity.
  - reflexivity.
  - intros c s. split; reflexivity.
  - reflexivity.
  - reflexivity.
Qed.

Lemma validation_is_truthiness_witness :
  search_flights (SuggestText Scenario.three_suggestions) Scenario.fares
    Scenario.in_three_months (JNum (Decimal false 0 0)) Scenario.JFK
  = (invalid_input, [])
  /\ exists later,
       snd (search_flights (SuggestText Scenario.three_suggestions) Scenario.fares
              Scenario.in_three_months Scenario.a_week Scenario.JFK)
       = SuggestCall Scenario.a_week Scenario.JFK :: later.
Proof.
  split.
  - apply (proj1 (validation_is_truthiness
                    (SuggestText Scenario.three_suggestions) Scenario.fares
                    Scenario.in_three_months (JNum (Decimal false 0 0))
                    Scenario.JFK)).
    reflexivity.
  - apply (proj1 (proj2 (validation_is_truthiness
                    (SuggestText Scenario.three_suggestions) Scenario.fares
                    Scenario.in_three_months Scenario.a_week Scenario.JFK)));
      reflexivity.
Defined.

(** *** JSON texts of candidates *)

Lemma hex_value_digit n : (n < 16)%N -> hex_value (hex_digit n) = Some n.
Proof.
  intros H. unfold hex_value, hex_digit.
  destruct (N.ltb_spec n 10).
  - destruct (N.leb_spec 48 (48 + n)), (N.leb_spec (48 + n) 57); cbn [andb]; try lia.
    f_equal. lia.
  - destruct (N.leb_spec 48 (87 + n)), (N.leb_spec (87 + n) 57); cbn [andb]; try lia.
    destruct (N.leb_spec 65 (87 + n)), (N.leb_spec (87 + n) 70); cbn [andb]; try lia.
    destruct (N.leb_spec 97 (87 + n)), (N.leb_spec (87 + n) 102); cbn [andb]; try lia.
    f_equal. lia.
Qed.

Lemma hex_digits_value c :
  (c < 65536)%N ->
  hex4 (hex_digit (c / 4096)) (hex_digit ((c / 256) mod 16))
       (hex_digit ((c / 16) mod 16)) (hex_digit (c mod 16)) = Some c.
Proof.
  intros H.
  assert (c / 256 = c / 16 / 16)%N as ->
    by (rewrite N.Div0.div_div; reflexivity).
  assert (c / 4096 = c / 16 / 16 / 16)%N as ->
    by (rewrite !N.Div0.div_div; reflexivity).
  pose proof (N.div_mod c 16 ltac:(lia)) as D0.
  pose proof (N.div_mod (c / 16) 16 ltac:(lia)) as D1.
  pose proof (N.div_mod (c / 16 / 16) 16 ltac:(lia)) as D2.
  pose proof (N.mod_upper_bound c 16 ltac:(lia)) as B0.
  pose proof (N.mod_upper_bound (c / 16) 16 ltac:(lia)) as B1.
  pose proof (N.mod_upper_bound (c / 16 / 16) 16 ltac:(lia)) as B2.
  revert D0 D1 D2 B0 B1 B2.
  generalize (c mod 16)%N ((c / 16) mod 16)%N ((c / 16 / 16) mod 16)%N
             (c / 16 / 16 / 16)%N.
  generalize (c / 16 / 16)%N. generalize (c / 16)%N.
  intros c1 c2 m0 m1 m2 c3 D0 D1 D2 B0 B1 B2.
  unfold hex4. rewrite !hex_value_digit by lia. f_equal. lia.
Qed.

Lemma parse_unicode_escape c rest :
  (c < 65536)%N ->
  parse_string (unicode_escape c ++ rest) = cons_char c (parse_string rest).
Proof.
  intros H. unfold unicode_escape. cbn [app parse_string].
  change (92 =? 34)%N with false. change (92 =? 92)%N with true.
  change (117 =? 117)%N with true. cbv iota.
  rewrite (hex_digits_value c H). reflexivity.
Qed.

Lemma parse_string_plain c rest :
  (32 <= c)%N -> c <> 34%N -> c <> 92%N ->
  parse_string (c :: rest) = cons_char c (parse_string rest).
Proof.
  intros H32 H34 H92. cbn [parse_string].
  destruct (N.eqb_spec c 34); [congruence|].
  destruct (N.eqb_spec c 92); [congruence|].
  destruct (N.ltb_spec c 32); [lia|]. reflexivity.
Qed.

Lemma surrogate_is_unit c :
  is_high_surrogate c || is_low_surrogate c = true -> (c < 65536)%N.
Proof.
  unfold is_high_surrogate, is_low_surrogate.
  destruct (N.leb_spec c 56319), (N.leb_spec c 57343);
    rewrite ?andb_false_r; cbn; try discriminate; lia.
Qed.

Lemma parse_quote_unit c rest :
  parse_string (quote_unit c ++ rest) = cons_char c (parse_string rest).
Proof.
  unfold quote_unit.
  destruct (N.eqb_spec c 8) as [->|]; [reflexivity|].
  destruct (N.eqb_spec c 9) as [->|]; [reflexivity|].
  destruct (N.eqb_spec c 10) as [->|]; [reflexivity|].
  destruct (N.eqb_spec c 12) as [->|]; [reflexivity|].
  destruct (N.eqb_spec c 13) as [->|]; [reflexivity|].
  destruct (N.eqb_spec c 34) as [->|]; [reflexivity|].
  destruct (N.eqb_spec c 92) as [->|]; [reflexivity|].
  destruct (N.ltb_spec c 32) as [Hlow|Hhigh]; cbn [orb].
  - apply parse_unicode_escape. lia.
  - destruct (is_high_surrogate c || is_low_surrogate c) eqn:Hsur.
    + apply parse_unicode_escape, surrogate_is_unit, Hsur.
    + cbn [app]. apply parse_string_plain; assumption.
Qed.

Lemma parse_surrogate c rest :
  is_high_surrogate c || is_low_surrogate c = true ->
  parse_string (c :: rest) = cons_char c (parse_string rest).
Proof.
  intros H. apply parse_string_plain;
    unfold is_high_surrogate, is_low_surrogate in H;
    destruct (N.leb_spec 55296 c), (N.leb_spec 56320 c);
    cbn in H; try discriminate; lia.
Qed.

Lemma quote_units_cons c l r :
  quote_units (c :: l :: r)
  = if is_high_surrogate c && is_low_surrogate l
    then c :: l :: quote_units r
    else quote_unit c ++ quote_units (l :: r).
Proof. reflexivity. Qed.

(** Parsing undoes quoting. *)
Lemma parse_string_quote_units s : forall rest,
  parse_string (quote_units s ++ 34%N :: rest) = Some (s, rest).
Proof.
  assert (forall n s, length s <= n ->
            forall rest, parse_string (quote_units s ++ 34%N :: rest)
                         = Some (s, rest)) as H.
  { induction n as [|n IH]; intros [|c [|l r]] Hlen rest;
      cbn [length] in Hlen; try lia; try reflexivity.
    - cbn [quote_units]. rewrite parse_quote_unit. reflexivity.
    - rewrite quote_units_cons.
      destruct (is_high_surrogate c && is_low_surrogate l) eqn:Hpair.
      + apply andb_true_iff in Hpair as [Hc Hl].
        change ((c :: l :: quote_units r) ++ 34%N :: rest)
          with (c :: l :: (quote_units r ++ 34%N :: rest)).
        rewrite (parse_surrogate c) by (rewrite Hc; reflexivity).
        rewrite (parse_surrogate l) by (rewrite Hl; apply orb_true_r).
        rewrite IH by (cbn [length]; lia). reflexivity.
      + rewrite <- app_assoc, parse_quote_unit.
        rewrite IH by (cbn [length]; lia). reflexivity. }
  intros rest. apply (H (length s) s). lia.
Qed.

Lemma parse_value_string f s rest :
  parse_value (S f) (QuoteJSONString s ++ rest) = Some (JStr s, rest).
Proof.
  unfold QuoteJSONString.
  change ((34%N :: quote_units s ++ [34%N]) ++ rest)
    with (34%N :: ((quote_units s ++ [34%N]) ++ rest)).
  rewrite <- app_assoc. cbn [app parse_value].
  change (skip_ws (34%N :: quote_units s ++ 34%N :: rest))
    with (34%N :: quote_units s ++ 34%N :: rest).
  change (34 =? 91)%N with false. change (34 =? 123)%N with false.
  change (34 =? 34)%N with true. cbv iota.
  rewrite parse_string_quote_units. reflexivity.
Qed.

Lemma parse_members_step pv n t k t2 v r3 :
  parse_string t = Some (k, 58%N :: t2) -> pv t2 = Some (v, r3) ->
  parse_members pv (S n) (34%N :: t)
  = match skip_ws r3 with
    | c' :: r4 =>
        if (c' =? 44)%N then
          match parse_members pv n r4 with
          | Some (ms, r5) => Some ((k, v) :: ms, r5)
          | None => None
          end
        else if (c' =? 125)%N then Some ([(k, v)], r4)
        else None
    | [] => None
    end.
Proof.
  intros Hk Hv. cbn [parse_members].
  change (skip_ws (34%N :: t)) with (34%N :: t).
  change (34 =? 34)%N with true. cbv iota. rewrite Hk.
  change (skip_ws (58%N :: t2)) with (58%N :: t2).
  change (58 =? 58)%N with true. cbv iota. rewrite Hv. reflexivity.
Qed.

Lemma stringify_candidate_app c rest :
  stringify_candidate c ++ rest
  = 123%N :: 34%N :: (quote_units (txt "city") ++ 34%N :: 58%N ::
      (QuoteJSONString (city c) ++ 44%N :: 34%N ::
         (quote_units (txt "iataCode") ++ 34%N :: 58%N ::
            (QuoteJSONString (iataCode c) ++ 125%N :: rest)))).
Proof.
  unfold stringify_candidate, QuoteJSONString.
  repeat (rewrite <- ?app_assoc, <- ?app_comm_cons; cbn [app]).
  reflexivity.
Qed.

Lemma parse_two_members f n k1 s1 k2 s2 rest :
  parse_members (parse_value (S f)) (S (S n))
    (34%N :: (quote_units k1 ++ 34%N :: 58%N ::
       (QuoteJSONString s1 ++ 44%N :: 34%N ::
          (quote_units k2 ++ 34%N :: 58%N ::
             (QuoteJSONString s2 ++ 125%N :: rest)))))
  = Some ([(k1, JStr s1); (k2, JStr s2)], rest).
Proof.
  rewrite (parse_members_step _ (S n) _ k1 _ (JStr s1) _
             (parse_string_quote_units k1 _) (parse_value_string f s1 _)).
  match goal with |- context [skip_ws (44%N :: ?t)] =>
    change (skip_ws (44%N :: t)) with (44%N :: t) end.
  change (44 =? 44)%N with true. cbv iota.
  rewrite (parse_members_step _ n _ k2 _ (JStr s2) _
             (parse_string_quote_units k2 _) (parse_value_string f s2 _)).
  change (skip_ws (125%N :: rest)) with (125%N :: rest).
  change (125 =? 44)%N with false. change (125 =? 125)%N with true.
  reflexivity.
Qed.

Lemma parse_value_object f r c' r' :
  skip_ws r = c' :: r' -> c' <> 125%N ->
  parse_value (S f) (123%N :: r)
  = match parse_members (parse_value f) (length r) r with
    | Some (ms, r'') => Some (JObj ms, r'')
    | None => None
    end.
Proof.
  intros Hs Hc. cbn [parse_value].
  change (skip_ws (123%N :: r)) with (123%N :: r). cbv beta match.
  change (123 =? 91)%N with false. change (123 =? 123)%N with true.
  cbv beta match. rewrite Hs.
  destruct (N.eqb_spec c' 125); [congruence | reflexivity].
Qed.

Lemma parse_value_array f r c' r' :
  skip_ws r = c' :: r' -> c' <> 93%N ->
  parse_value (S f) (91%N :: r)
  = match parse_elements (parse_value f) (length r) r with
    | Some (vs, r'') => Some (JArr vs, r'')
    | None => None
    end.
Proof.
  intros Hs Hc. cbn [parse_value].
  change (skip_ws (91%N :: r)) with (91%N :: r). cbv beta match.
  change (91 =? 91)%N with true. cbv beta match. rewrite Hs.
  destruct (N.eqb_spec c' 93); [congruence | reflexivity].
Qed.

Lemma parse_value_candidate f c rest :
  parse_value (S (S f)) (stringify_candidate c ++ rest) = Some (to_js c, rest).
Proof.
  rewrite stringify_candidate_app.
  erewrite parse_value_object; [|reflexivity|discriminate].
  match goal with |- context [length (34%N :: ?t)] =>
    assert (exists n, length (34%N :: t) = S (S n)) as [n ->] end.
  { cbn [length app txt]. eexists. reflexivity. }
  rewrite parse_two_members. reflexivity.
Qed.

Lemma join_candidates_cons c cs :
  join_candidates (c :: cs)
  = match cs with
    | [] => stringify_candidate c
    | _ :: _ => stringify_candidate c ++ [44%N] ++ join_candidates cs
    end.
Proof. reflexivity. Qed.

Lemma parse_elements_candidates f cs : forall n rest,
  cs <> [] -> length cs <= n ->
  parse_elements (parse_value (S (S f))) n (join_candidates cs ++ 93%N :: rest)
  = Some (map to_js cs, rest).
Proof.
  induction cs as [|c cs IH]; intros n rest Hne Hn; [congruence|].
  destruct n as [|n]; [cbn [length] in Hn; lia|].
  rewrite join_candidates_cons. cbn [parse_elements].
  destruct cs as [|c' cs].
  - rewrite parse_value_candidate.
    change (skip_ws (93%N :: rest)) with (93%N :: rest). reflexivity.
  - rewrite <- !app_assoc, parse_value_candidate. cbn [app].
    match goal with |- context [skip_ws (44%N :: ?t)] =>
      change (skip_ws (44%N :: t)) with (44%N :: t) end.
    cbv beta match. change (44 =? 44)%N with true. cbv beta match.
    rewrite IH; [reflexivity | discriminate | cbn [length] in *; lia].
Qed.

Lemma length_join_candidates cs : length cs <= length (join_candidates cs).
Proof.
  induction cs as [|c cs IH]; [reflexivity|].
  rewrite join_candidates_cons. destruct cs as [|c' cs].
  - cbn. lia.
  - rewrite !length_app. cbn [length] in *.
    unfold stringify_candidate. rewrite length_app. cbn [length]. lia.
Qed.

(** [JSON.parse] undoes [JSON.stringify] on a list of candidates. *)
Lemma JSON_parse_stringify cs :
  JSON_parse (JSON_stringify cs) = Some (JArr (map to_js cs)).
Proof.
  destruct cs as [|c cs]; [reflexivity|].
  unfold JSON_parse, JSON_stringify.
  change ([91%N] ++ join_candidates (c :: cs) ++ [93%N])
    with (91%N :: (join_candidates (c :: cs) ++ [93%N])).
  assert (exists f, length (join_candidates (c :: cs) ++ [93%N]) = S (S f))
    as [f Hf].
  { pose proof (length_join_candidates (c :: cs)) as H.
    rewrite length_app. cbn [length] in *.
    exists (length (join_candidates (c :: cs)) - 1). lia. }
  cbn [length]. rewrite Hf.
  assert (exists r', skip_ws (join_candidates (c :: cs) ++ [93%N]) = 123%N :: r')
    as [r' Hr'].
  { rewrite join_candidates_cons. destruct cs; eexists;
      rewrite <- ?app_assoc, stringify_candidate_app; reflexivity. }
  rewrite (parse_value_array _ _ _ _ Hr') by discriminate.
  rewrite Hf, parse_elements_candidates;
    [reflexivity | discriminate |].
  pose proof (length_join_candidates (c :: cs)).
  rewrite <- Hf, length_app. lia.
Qed.

Lemma trim_stringify cs : trim (JSON_stringify cs) = JSON_stringify cs.
Proof.
  unfold trim, JSON_stringify.
  change (trim_start ([91%N] ++ join_candidates cs ++ [93%N]))
    with ([91%N] ++ join_candidates cs ++ [93%N]).
  unfold trim_end. rewrite app_assoc, rev_app_distr.
  change (trim_start (rev [93%N] ++ rev ([91%N] ++ join_candidates cs)))
    with (rev [93%N] ++ rev ([91%N] ++ join_candidates cs)).
  rewrite <- rev_app_distr, rev_involutive. reflexivity.
Qed.

(** *** Fence stripping *)

Lemma starts_with_app p q t :
  starts_with (p ++ q) t = true -> starts_with p t = true.
Proof.
  revert t. induction p as [|a p IH]; intros t; [reflexivity|].
  destruct t as [|b t]; cbn [app starts_with]; [discriminate|].
  intros H. apply andb_true_iff in H as [Hab Hrest].
  rewrite Hab, (IH t Hrest). reflexivity.
Qed.

Lemma fence_json_starts_with_fence t :
  starts_with fence_json t = true -> starts_with fence t = true.
Proof. apply starts_with_app. Qed.

(** A text without three grave accents in a row is left as it is. *)
Lemma strip_fences_no_fence t : has_fence t = false -> strip_fences t = t.
Proof.
  unfold strip_fences. induction t as [|c r IH]; [reflexivity|].
  intros H. cbn [has_fence] in H. apply orb_false_elim in H as [Hhere Hlater].
  cbn [strip_from].
  destruct (starts_with fence_json (c :: r)) eqn:Hjson.
  - apply fence_json_starts_with_fence in Hjson. congruence.
  - rewrite Hhere, (IH Hlater). reflexivity.
Qed.

Lemma no_fence_before_line_feed s rest :
  starts_with fence s = false ->
  starts_with fence (s ++ 10%N :: rest) = false.
Proof.
  unfold fence.
  destruct s as [|a [|b [|c s]]]; cbn [app starts_with]; intros H.
  - reflexivity.
  - change (96 =? 10)%N with false. apply andb_false_r.
  - change (96 =? 10)%N with false.
    destruct (96 =? a)%N; [apply andb_false_r | reflexivity].
  - exact H.
Qed.

Lemma strip_closing_fence s :
  has_fence s = false -> strip_from 0 (s ++ 10%N :: fence) = s ++ [10%N].
Proof.
  induction s as [|c r IH]; [reflexivity|].
  intros H. cbn [has_fence] in H. apply orb_false_elim in H as [Hhere Hlater].
  change ((c :: r) ++ 10%N :: fence) with (c :: (r ++ 10%N :: fence)).
  cbn [strip_from].
  pose proof (no_fence_before_line_feed (c :: r) fence Hhere) as Hno.
  change ((c :: r) ++ 10%N :: fence) with (c :: (r ++ 10%N :: fence)) in Hno.
  destruct (starts_with fence_json (c :: r ++ 10%N :: fence)) eqn:Hjson.
  - apply fence_json_starts_with_fence in Hjson. congruence.
  - rewrite Hno, (IH Hlater). reflexivity.
Qed.

(** Of a fenced payload without three grave accents in a row, what is left is
    the payload between its two line feeds. *)
Lemma strip_fences_fenced s :
  has_fence s = false -> strip_fences (fenced s) = 10%N :: s ++ [10%N].
Proof.
  intros H. unfold strip_fences.
  change (strip_from 0 (fenced s))
    with (10%N :: strip_from 0 (s ++ 10%N :: fence)).
  rewrite (strip_closing_fence s H). reflexivity.
Qed.

Lemma trim_start_snoc s c :
  is_js_space c = true ->
  (trim_start (s ++ [c]) = [] /\ trim_start s = [])
  \/ trim_start (s ++ [c]) = trim_start s ++ [c].
Proof.
  intros Hc. induction s as [|a s IH]; cbn [app trim_start].
  - rewrite Hc. left. split; reflexivity.
  - destruct (is_js_space a); [exact IH | right; reflexivity].
Qed.

Lemma trim_end_snoc x c :
  is_js_space c = true -> trim_end (x ++ [c]) = trim_end x.
Proof.
  intros Hc. unfold trim_end. rewrite rev_app_distr. cbn [rev app trim_start].
  rewrite Hc. reflexivity.
Qed.

Lemma trim_between_line_feeds s : trim (10%N :: s ++ [10%N]) = trim s.
Proof.
  unfold trim. change (trim_start (10%N :: s ++ [10%N]))
    with (trim_start (s ++ [10%N])).
  destruct (trim_start_snoc s 10%N eq_refl) as [[-> ->] | ->]; [reflexivity|].
  apply trim_end_snoc. reflexivity.
Qed.

(** Of a fenced payload without three grave accents in a row, the handler
    parses the trimmed payload, as it does of the payload alone. *)
Lemma fenced_payload_parses_alike payload :
  has_fence payload = false ->
  parse_suggestions (fenced payload) = JSON_parse (trim payload)
  /\ parse_suggestions payload = JSON_parse (trim payload).
Proof.
  intros H. unfold parse_suggestions.
  rewrite (strip_fences_fenced payload H), trim_between_line_feeds.
  rewrite (strip_fences_no_fence payload H). split; reflexivity.
Qed.

(** C7 as stated fails: three grave accents inside a string of the payload
    are removed with the fence.  The fenced serialization of a candidate
    whose city has them parses to another candidate. *)
Lemma backticks_in_a_city_are_lost :
  JSON_stringify [Scenario.backticks_candidate] = Scenario.backticks
  /\ JSON_parse (JSON_stringify [Scenario.backticks_candidate])
     = Some (JArr (map to_js [Scenario.backticks_candidate]))
  /\ parse_suggestions (fenced (JSON_stringify [Scenario.backticks_candidate]))
     = Some (JArr (map to_js [Candidate (txt "ab") (txt "CDG")]))
  /\ parse_suggestions (fenced (JSON_stringify [Scenario.backticks_candidate]))
     <> Some (JArr (map to_js [Scenario.backticks_candidate])).
Proof.
  split; [vm_compute; reflexivity|].
  split; [vm_compute; reflexivity|].
  split; [vm_compute; reflexivity|].
  vm_compute. discriminate.
Qed.

(** C7, amended.  For every list of candidates whose serialization has no
    three grave accents in a row, stripping the fences of the fenced
    serialization and parsing gives exactly the list, which is what parsing
    the serialization alone gives. *)
Theorem fenced_candidates_parse cs :
  has_fence (JSON_stringify cs) = false ->
  parse_suggestions (fenced (JSON_stringify cs)) = Some (JArr (map to_js cs))
  /\ parse_suggestions (fenced (JSON_stringify cs))
     = JSON_parse (JSON_stringify cs).
Proof.
  intros H.
  destruct (fenced_payload_parses_alike _ H) as [Hfenced _].
  rewrite Hfenced, trim_stringify, JSON_parse_stringify.
  split; reflexivity.
Qed.

Lemma fenced_candidates_parse_witness :
  parse_suggestions
    (fenced (JSON_stringify [Scenario.paris; Scenario.tokyo; Scenario.lima]))
  = Some (JArr (map to_js [Scenario.paris; Scenario.tokyo; Scenario.lima])).
Proof.
  apply (fenced_candidates_parse
           [Scenario.paris; Scenario.tokyo; Scenario.lima]).
  vm_compute. reflexivity.
Defined.

(** ** The airport cache *)

(** *** Keys *)

(** The code points of a string, by one or by two code units. *)
Lemma pairs_ind (P : text -> Prop) :
  P [] -> (forall c, P [c]) ->
  (forall c l r, P (l :: r) -> P r -> P (c :: l :: r)) ->
  forall s, P s.
Proof.
  intros H0 H1 H2 s.
  assert (P s /\ forall c, P (c :: s)) as [H _]; [|exact H].
  induction s as [|l r [IHr IHc]].
  - split; [exact H0 | exact H1].
  - split; [apply IHc|]. intros c. apply H2; [apply IHc | exact IHr].
Qed.

Lemma surrogates_disjoint c :
  is_low_surrogate c = true -> is_high_surrogate c = false.
Proof.
  unfold is_low_surrogate, is_high_surrogate.
  destruct (N.leb_spec 56320 c), (N.leb_spec c 57343), (N.leb_spec 55296 c),
    (N.leb_spec c 56319); cbn; intros; try reflexivity; try discriminate; lia.
Qed.

Lemma code_points_step c l r :
  code_points (c :: l :: r)
  = if is_high_surrogate c && is_low_surrogate l
    then [c; l] :: code_points r
    else [c] :: code_points (l :: r).
Proof. reflexivity. Qed.

Lemma code_points_app q : forall r,
  ends_high q = false \/ starts_low r = false ->
  code_points (q ++ r) = code_points q ++ code_points r.
Proof.
  induction q as [|c|c l q' IH1 IH2] using pairs_ind; intros r H.
  - reflexivity.
  - destruct r as [|l r']; [reflexivity|]. cbn [app code_points].
    destruct (is_high_surrogate c) eqn:Hc; [|reflexivity].
    destruct (is_low_surrogate l) eqn:Hl; [|reflexivity].
    cbn in H. rewrite Hc, Hl in H. destruct H; discriminate.
  - change ((c :: l :: q') ++ r) with (c :: l :: (q' ++ r)).
    rewrite (code_points_step c l (q' ++ r)), (code_points_step c l q').
    destruct (is_high_surrogate c && is_low_surrogate l) eqn:Hpair.
    + cbn [app]. f_equal. destruct q' as [|c' q'']; [reflexivity|].
      apply IH2. exact H.
    + change (l :: q' ++ r) with ((l :: q') ++ r).
      rewrite (IH1 r H). reflexivity.
Qed.

Lemma code_points_pieces s : Forall piece (code_points s).
Proof.
  induction s as [|c|c l r IH1 IH2] using pairs_ind.
  - constructor.
  - constructor; [|constructor]. left. eexists; reflexivity.
  - rewrite code_points_step.
    destruct (is_high_surrogate c && is_low_surrogate l) eqn:Hpair.
    + apply andb_true_iff in Hpair as [Hc Hl].
      constructor; [|exact IH2]. right. exists c, l. auto.
    + constructor; [|exact IH1]. left. eexists; reflexivity.
Qed.

Lemma concat_code_points s : concat (code_points s) = s.
Proof.
  induction s as [|c|c l r IH1 IH2] using pairs_ind; [reflexivity..|].
  rewrite code_points_step.
  destruct (is_high_surrogate c && is_low_surrogate l).
  - cbn [concat app]. rewrite IH2. reflexivity.
  - cbn [concat app]. rewrite IH1. reflexivity.
Qed.

Lemma piece_code_points p : piece p -> code_points p = [p].
Proof.
  intros [[c ->]|(h & l & -> & Hh & Hl)]; [reflexivity|].
  cbn. rewrite Hh, Hl. reflexivity.
Qed.

Lemma piece_upper p : piece p -> toUpperCase p = upper_point p.
Proof.
  intros Hp. unfold toUpperCase. rewrite (piece_code_points p Hp).
  cbn. apply app_nil_r.
Qed.

Lemma units_of_point_of p i :
  piece p -> point_of p = Npos i -> units_of (Npos i) = p.
Proof.
  intros [[c ->]|(h & l & -> & Hh & Hl)]; cbn [point_of].
  - destruct (N.ltb_spec c 65536); [|discriminate]. intros <-.
    unfold units_of. destruct (N.ltb_spec c 65536); [reflexivity | lia].
  - rewrite Hh, Hl. cbn [andb]. intros <-.
    unfold is_high_surrogate in Hh. unfold is_low_surrogate in Hl.
    apply andb_true_iff in Hh as [Hh1 Hh2]. apply andb_true_iff in Hl as [Hl1 Hl2].
    apply N.leb_le in Hh1, Hh2, Hl1, Hl2.
    unfold units_of.
    destruct (N.ltb_spec (65536 + (h - 55296) * 1024 + (l - 56320)) 65536);
      [lia|].
    replace (65536 + (h - 55296) * 1024 + (l - 56320) - 65536)%N
      with ((l - 56320) + (h - 55296) * 1024)%N by lia.
    rewrite N.div_add by discriminate. rewrite N.Div0.mod_add.
    rewrite N.div_small by lia. rewrite N.mod_small by lia.
    f_equal; [lia|]. f_equal. lia.
Qed.

Lemma mapped_cases m p :
  mapped m p = p
  \/ exists i, point_of p = Npos i /\ PositiveMap.find i m = Some (mapped m p).
Proof.
  unfold mapped. destruct (point_of p) as [|i]; [left; reflexivity|].
  destruct (PositiveMap.find i m) as [q|] eqn:Hq; [|left; reflexivity].
  right. exists i. split; [reflexivity | exact Hq].
Qed.

Lemma upper_index_checked : upper_index_sound = true.
Proof. vm_compute. reflexivity. Qed.

Lemma lower_index_checked : lower_index_sound = true.
Proof. vm_compute. reflexivity. Qed.

Lemma upper_tabled i q :
  PositiveMap.find i upper_index = Some q ->
  closed q = true /\ toUpperCase q = q.
Proof.
  intros H. apply PositiveMap.elements_correct in H.
  pose proof upper_index_checked as Hall. unfold upper_index_sound in Hall.
  rewrite forallb_forall in Hall. specialize (Hall _ H). cbn beta iota in Hall.
  apply andb_true_iff in Hall as [Hc Hu]. split; [exact Hc|].
  exact (bool_decide_eq_true_1 _ Hu).
Qed.

Lemma lower_tabled i q :
  PositiveMap.find i lower_index = Some q ->
  closed q = true
  /\ (toUpperCase q = upper_point (units_of (Npos i))
      \/ units_of (Npos i) ∈ irreversible).
Proof.
  intros H. apply PositiveMap.elements_correct in H.
  pose proof lower_index_checked as Hall. unfold lower_index_sound in Hall.
  rewrite forallb_forall in Hall. specialize (Hall _ H). cbn beta iota in Hall.
  apply andb_true_iff in Hall as [Hc Hu]. split; [exact Hc|].
  apply orb_true_iff in Hu as [Hu|Hu];
    [left | right]; exact (bool_decide_eq_true_1 _ Hu).
Qed.

Lemma safely_recased_upper p q :
  piece p -> safely_recased p q -> toUpperCase q = upper_point p.
Proof.
  intros Hp [->|[->|[-> Hsafe]]].
  - exact (piece_upper p Hp).
  - destruct (mapped_cases upper_index p) as [He|(i & _ & Hi)].
    + unfold upper_point. rewrite He. rewrite (piece_upper p Hp). exact He.
    + exact (proj2 (upper_tabled i _ Hi)).
  - destruct (mapped_cases lower_index p) as [He|(i & Hpi & Hi)].
    + unfold lower_point. rewrite He. exact (piece_upper p Hp).
    + destruct (lower_tabled i _ Hi) as [_ [Hu|Hirr]];
        rewrite (units_of_point_of p i Hp Hpi) in *;
        [exact Hu | contradiction].
Qed.

Lemma piece_closed_or p :
  piece p -> ends_high p = false \/ (exists c, p = [c]).
Proof.
  intros [[c ->]|(h & l & -> & Hh & Hl)]; [right; eexists; reflexivity|].
  left. cbn. exact (surrogates_disjoint l Hl).
Qed.

Lemma recased_cases p q :
  recased p q -> q = p \/ closed q = true.
Proof.
  intros [->|[->| ->]]; [left; reflexivity| |].
  - unfold upper_point.
    destruct (mapped_cases upper_index p) as [->|(i & _ & Hi)];
      [left; reflexivity|]. right. exact (proj1 (upper_tabled i _ Hi)).
  - unfold lower_point.
    destruct (mapped_cases lower_index p) as [->|(i & _ & Hi)];
      [left; reflexivity|]. right. exact (proj1 (lower_tabled i _ Hi)).
Qed.

Lemma closed_facts q :
  closed q = true -> starts_low q = false /\ ends_high q = false /\ q <> [].
Proof.
  unfold closed. intros H.
  apply andb_true_iff in H as [H H3]. apply andb_true_iff in H as [H1 H2].
  apply negb_true_iff in H1, H2, H3. repeat split; try assumption.
  exact (bool_decide_eq_false_1 _ H3).
Qed.

Lemma starts_low_app q r : q <> [] -> starts_low (q ++ r) = starts_low q.
Proof. destruct q; [congruence | reflexivity]. Qed.

Lemma recased_code_points k : forall qs,
  Forall2 recased (code_points k) qs ->
  code_points (concat qs) = concat (map code_points qs)
  /\ (starts_low (concat qs) = true -> starts_low k = true).
Proof.
  induction k as [|c|c l r IH1 IH2] using pairs_ind; intros qs H.
  - inversion H; subst. split; [reflexivity | cbn; congruence].
  - cbn [code_points] in H. inversion H as [|? q ? qs' Hq Hqs']; subst.
    inversion Hqs'; subst. cbn [concat map]. rewrite !app_nil_r.
    split; [reflexivity|].
    destruct (recased_cases _ _ Hq) as [->|Hc]; [trivial|].
    apply closed_facts in Hc as (Hc & _ & _). congruence.
  - rewrite code_points_step in H.
    destruct (is_high_surrogate c && is_low_surrogate l) eqn:Hpair.
    + inversion H as [|? q ? qs' Hq Hqs']; subst.
      destruct (IH2 qs' Hqs') as [IHa IHb].
      apply andb_true_iff in Hpair as [Hc Hl].
      cbn [concat map]. split.
      * rewrite code_points_app; [rewrite IHa; reflexivity|].
        left. destruct (recased_cases _ _ Hq) as [->|Hcl].
        -- cbn. exact (surrogates_disjoint l Hl).
        -- exact (proj1 (proj2 (closed_facts q Hcl))).
      * destruct (recased_cases _ _ Hq) as [->|Hcl]; [trivial|].
        apply closed_facts in Hcl as (Hs & _ & Hne).
        rewrite (starts_low_app q _ Hne). congruence.
    + inversion H as [|? q ? qs' Hq Hqs']; subst.
      destruct (IH1 qs' Hqs') as [IHa IHb].
      cbn [concat map]. split.
      * rewrite code_points_app; [rewrite IHa; reflexivity|].
        destruct (recased_cases _ _ Hq) as [->|Hcl].
        -- cbn [ends_high]. destruct (is_high_surrogate c) eqn:Hc;
             [|left; reflexivity].
           right. destruct (starts_low (concat qs')) eqn:Hs; [|reflexivity].
           specialize (IHb eq_refl). cbn in IHb. rewrite IHb in Hpair.
           discriminate.
        -- left. exact (proj1 (proj2 (closed_facts q Hcl))).
      * destruct (recased_cases _ _ Hq) as [->|Hcl]; [trivial|].
        apply closed_facts in Hcl as (Hs & _ & Hne).
        rewrite (starts_low_app q _ Hne). congruence.
Qed.

Lemma safely_recased_recased p q : safely_recased p q -> recased p q.
Proof. intros [H|[H|[H _]]]; [left|right; left|right; right]; exact H. Qed.

Lemma safely_recased_all ps : forall qs,
  Forall piece ps -> Forall2 safely_recased ps qs ->
  map toUpperCase qs = map upper_point ps.
Proof.
  induction ps as [|p ps IH]; intros qs Hps H; inversion H; subst;
    [reflexivity|].
  inversion Hps; subst. cbn [map]. f_equal.
  - apply safely_recased_upper; assumption.
  - apply IH; assumption.
Qed.

Lemma toUpperCase_concat qs :
  code_points (concat qs) = concat (map code_points qs) ->
  toUpperCase (concat qs) = concat (map toUpperCase qs).
Proof.
  intros H. unfold toUpperCase at 1. rewrite H. clear H.
  induction qs as [|q qs IH]; [reflexivity|].
  cbn [concat map]. rewrite map_app, concat_app, IH. reflexivity.
Qed.

Lemma safely_recased_toUpperCase k qs :
  Forall2 safely_recased (code_points k) qs ->
  toUpperCase (concat qs) = toUpperCase k.
Proof.
  intros H.
  assert (Forall2 recased (code_points k) qs) as Hr
    by (eapply Forall2_impl; [exact H | exact safely_recased_recased]).
  destruct (recased_code_points k qs Hr) as [Hcp _].
  rewrite (toUpperCase_concat qs Hcp).
  rewrite (safely_recased_all _ qs (code_points_pieces k) H). reflexivity.
Qed.

Lemma toUpperCase_idem s : toUpperCase (toUpperCase s) = toUpperCase s.
Proof.
  apply (safely_recased_toUpperCase s (map upper_point (code_points s))).
  induction (code_points s) as [|p ps IH]; constructor; [|exact IH].
  right; left; reflexivity.
Qed.

Lemma case_variant_nonempty k k' : case_variant k k' -> k <> [] -> k' <> [].
Proof.
  intros (qs & H & ->) Hk. destruct k as [|c r]; [congruence|].
  assert (exists p ps, code_points (c :: r) = p :: ps) as (p & ps & E).
  { destruct r as [|l r']; [eexists; eexists; reflexivity|].
    rewrite code_points_step.
    destruct (is_high_surrogate c && is_low_surrogate l);
      eexists; eexists; reflexivity. }
  pose proof (code_points_pieces (c :: r)) as Hp. rewrite E in H, Hp.
  inversion H as [|? q ? qs' Hq _]; subst. inversion Hp as [|? ? Hpiece _]; subst.
  cbn [concat]. intros Hnil. apply app_eq_nil in Hnil as [Hq0 _]. subst q.
  destruct (recased_cases _ _ Hq) as [<-|Hc].
  - destruct Hpiece as [[? Hx]|(? & ? & Hx & _)]; discriminate Hx.
  - apply closed_facts in Hc as (_ & _ & Hne). congruence.
Qed.

Lemma safe_case_variant_variant k k' :
  safe_case_variant k k' -> case_variant k k'.
Proof.
  intros (qs & H & ->). exists qs. split; [|reflexivity].
  eapply Forall2_impl; [exact H | exact safely_recased_recased].
Qed.

Lemma safe_case_variant_cacheKey k k' :
  safe_case_variant k k' -> cacheKey k' = cacheKey k.
Proof.
  intros (qs & H & ->). exact (safely_recased_toUpperCase k qs H).
Qed.

Lemma lower_case_variant k : case_variant k (lower_case k).
Proof.
  exists (map lower_point (code_points k)). split; [|reflexivity].
  induction (code_points k) as [|p ps IH]; constructor; [|exact IH].
  right; right; reflexivity.
Qed.

Lemma search_airports_hit s kw data :
  kw <> [] -> airportCache s !! cacheKey kw = Some data ->
  search_airports (Some kw) s = (s, Some (Response 200 (DataBody data))).
Proof.
  intros Hkw Hhit. unfold search_airports.
  destruct kw as [|c kw]; [congruence|]. rewrite Hhit. reflexivity.
Qed.

Lemma search_airports_miss s kw :
  kw <> [] -> airportCache s !! cacheKey kw = None ->
  search_airports (Some kw) s
  = (Server (airportCache s) (timers s) (awaiting s ++ [cacheKey kw])
            (clock s) (upstream_calls s ++ [cacheKey kw]), None).
Proof.
  intros Hkw Hmiss. unfold search_airports.
  destruct kw as [|c kw]; [congruence|]. rewrite Hmiss. reflexivity.
Qed.

(** C4 as stated fails: the key is the keyword in upper case, and the lower
    case of a keyword can have another upper case than the keyword.  What is
    put under a keyword that begins with capital I with dot above is not
    found under the lower case of the keyword. *)
Lemma lower_case_of_Istanbul_misses :
  case_variant Scenario.Istanbul Scenario.istanbul
  /\ Scenario.istanbul = lower_case Scenario.Istanbul
  /\ cacheKey Scenario.Istanbul = 304%N :: txt "STANBUL"
  /\ cacheKey Scenario.istanbul = 73%N :: 775%N :: txt "STANBUL"
  /\ cache_get Scenario.istanbul
       (cache_put Scenario.Istanbul Scenario.answer_A start) = None.
Proof.
  assert (Scenario.istanbul = lower_case Scenario.Istanbul) as E
    by (vm_compute; reflexivity).
  split; [rewrite E; apply lower_case_variant|].
  split; [exact E|]. repeat split; vm_compute; reflexivity.
Qed.

(** Each of the six characters left out below does lose its key when it is
    put in lower case. *)
Lemma irreversible_keys_differ :
  Forall (fun p => cacheKey (lower_point p) <> cacheKey p) irreversible.
Proof. repeat constructor; vm_compute; discriminate. Qed.

(** C4, amended.  The key of the cache is the keyword in upper case, for the
    read, the write and the removal alike: what is put under a keyword is
    what a get of a case variant of it returns, the handler answers a request
    for the variant with it, and the removal for a keyword removes the entry
    of its variants, for every variant in which none of the six characters
    of [irreversible] has been put in lower case. *)
Theorem cache_keys_fold_case s k k' v :
  safe_case_variant k k' ->
  cache_get k' (cache_put k v s) = Some v
  /\ (k <> [] ->
      search_airports (Some k') (cache_put k v s)
      = (cache_put k v s, Some (Response 200 (DataBody v))))
  /\ cache_get k' (expire (cacheKey k) (cache_put k v s)) = None.
Proof.
  intros Hvar. pose proof (safe_case_variant_cacheKey k k' Hvar) as HK.
  assert (cache_get k' (cache_put k v s) = Some v) as Hget.
  { unfold cache_get, cache_put, store. cbn [airportCache].
    rewrite HK. apply lookup_insert_eq. }
  split; [exact Hget|]. split.
  - intros Hk. apply search_airports_hit.
    + exact (case_variant_nonempty k k'
               (safe_case_variant_variant k k' Hvar) Hk).
    + exact Hget.
  - unfold cache_get, expire. cbn [airportCache].
    rewrite HK. apply lookup_delete_eq.
Qed.

Lemma cache_keys_fold_case_witness :
  cache_get (txt "pAr") (cache_put Scenario.PAR Scenario.answer_A start)
  = Some Scenario.answer_A.
Proof.
  apply (cache_keys_fold_case start Scenario.PAR (txt "pAr") Scenario.answer_A).
  exists [txt "p"; txt "A"; txt "r"]. split; [|reflexivity].
  change (code_points Scenario.PAR) with [txt "P"; txt "A"; txt "R"].
  constructor; [|constructor; [|constructor; [|constructor]]].
  - right; right. split; [reflexivity|].
    apply (bool_decide_unpack _). vm_compute. exact I.
  - left; reflexivity.
  - right; right. split; [reflexivity|].
    apply (bool_decide_unpack _). vm_compute. exact I.
Defined.

(** *** Expiry *)

(** C1 as stated fails: the handler reads the map without looking at the
    clock.  An entry made at time 0 is still returned 24 hours later when its
    timer has not run yet. *)
Lemma stale_read_before_timer_runs :
  let s := Server {[Scenario.PAR := Scenario.answer_A]}
                  [Timer CACHE_TTL_MS Scenario.PAR] [] CACHE_TTL_MS
                  [Scenario.PAR] in
  run Scenario.a_day_later start
  = Some (s, [Response 200 (DataBody Scenario.answer_A)])
  /\ (0 + CACHE_TTL_MS <= clock s)%Z
  /\ step (Request (Some Scenario.par)) s
     = Some (s, Some (Response 200 (DataBody Scenario.answer_A))).
Proof.
  cbv zeta. split; [vm_compute; reflexivity|].
  split; [vm_compute; discriminate|]. vm_compute. reflexivity.
Qed.

Lemma elem_of_delete_other {A} (l : list A) i x y :
  x ∈ l -> l !! i = Some y -> x <> y -> x ∈ delete i l.
Proof.
  intros Hx Hi Hne. apply list_elem_of_lookup in Hx as [j Hj].
  apply list_elem_of_lookup.
  destruct (Nat.lt_ge_cases j i) as [Hlt|Hge].
  - exists j. rewrite list_lookup_delete_lt by exact Hlt. exact Hj.
  - assert (j <> i) as Hji by (intros ->; congruence).
    exists (j - 1). rewrite list_lookup_delete_ge by lia.
    replace (S (j - 1)) with j by lia. exact Hj.
Qed.

(** Every entry is the last store under its key, with the removal of that
    store pending: an invariant of the event loop. *)
Lemma own_removal_step last e s s' r :
  own_removal_pending last s -> step e s = Some (s', r) ->
  own_removal_pending (fun K => stored_by K e s (last K)) s'.
Proof.
  intros Hs Hstep K v. unfold stored_by. revert Hstep.
  destruct e as [d|keyword|i o|i]; cbn [step].
  - destruct (Z.leb_spec 0 d); [|discriminate]. intros [= <- _] HK.
    destruct (Hs K v HK) as (T & HT & Hle & Ht).
    exists T. cbn. repeat split; try assumption. lia.
  - intros [= H]. revert H. unfold search_airports.
    destruct keyword as [[|c kw]|]; try (intros [= <- _]; exact (Hs K v)).
    cbv zeta. generalize (cacheKey (c :: kw)). intros K'.
    destruct (airportCache s !! K'); intros [= <- _]; exact (Hs K v).
  - destruct (awaiting s !! i) as [K'|] eqn:Hi; [|discriminate].
    destruct o as [description|responseData]; cbn; intros [= <- _].
    + exact (Hs K v).
    + cbn. destruct (decide (K' = K)) as [->|Hne].
      * rewrite lookup_insert_eq. intros [= <-]. exists (clock s).
        rewrite bool_decide_eq_true_2 by reflexivity.
        split; [reflexivity|]. split; [lia|].
        apply elem_of_app; right; apply list_elem_of_singleton; reflexivity.
      * rewrite lookup_insert_ne by exact Hne. intros HK.
        destruct (Hs K v HK) as (T & HT & Hle & Ht).
        exists T. rewrite bool_decide_eq_false_2 by congruence.
        split; [exact HT|]. split; [exact Hle|].
        apply elem_of_app; left; exact Ht.
  - destruct (timers s !! i) as [t0|] eqn:Hi; [|discriminate].
    destruct (due t0 <=? clock s)%Z; [|discriminate].
    intros [= <- _]. cbn. intros HK.
    apply lookup_delete_Some in HK as [Hne HK].
    destruct (Hs K v HK) as (T & HT & Hle & Ht).
    exists T. split; [exact HT|]. split; [exact Hle|].
    apply (elem_of_delete_other _ i _ t0 Ht Hi). intros <-. cbn in Hne.
    congruence.
Qed.

Lemma own_removal_run es : forall last s s' rs,
  own_removal_pending last s -> run es s = Some (s', rs) ->
  own_removal_pending (fun K => last_store K es s (last K)) s'.
Proof.
  induction es as [|e es IH]; intros last s s' rs Hs; cbn [run last_store].
  - intros [= <- _]. exact Hs.
  - destruct (step e s) as [[s1 r]|] eqn:Hstep; [|discriminate].
    destruct (run es s1) as [[s2 rs']|] eqn:Hrun; [|discriminate].
    intros [= <- _].
    exact (IH _ s1 s2 rs' (own_removal_step last e s s1 r Hs Hstep) Hrun).
Qed.

Lemma own_removal_start : own_removal_pending (fun _ => None) start.
Proof. intros K v H. cbn in H. rewrite lookup_empty in H. discriminate. Qed.

Lemma stored_by_None K e s acc : stored_by K e s acc = None -> acc = None.
Proof.
  unfold stored_by. destruct e as [| |i [|data]|]; auto.
  destruct (bool_decide _); [discriminate | auto].
Qed.

Lemma last_store_None K es : forall s acc,
  last_store K es s acc = None -> acc = None.
Proof.
  induction es as [|e es IH]; intros s acc; cbn [last_store]; [auto|].
  destruct (step e s) as [[s1 r]|]; [|auto].
  intros H. apply IH in H. exact (stored_by_None K e s acc H).
Qed.

Lemma last_store_cons K e es s s1 r :
  step e s = Some (s1, r) -> last_store K (e :: es) s None = None ->
  stored_by K e s None = None /\ last_store K es s1 None = None.
Proof.
  cbn [last_store]. intros -> H.
  pose proof (last_store_None K es s1 _ H) as H0. rewrite H0 in H. auto.
Qed.

(** Until a removal for its key runs, an entry stays, or is replaced by a
    store: no event looks at the clock. *)
Lemma kept_step K v e s s' r :
  airportCache s !! K = Some v -> step e s = Some (s', r) ->
  removes K e s = false ->
  exists v', airportCache s' !! K = Some v'
             /\ (stored_by K e s None = None -> v' = v).
Proof.
  intros HK. destruct e as [d|keyword|i o|i]; cbn [step removes stored_by].
  - destruct (0 <=? d)%Z; [|discriminate]. intros [= <- _] _.
    exists v. split; [exact HK | reflexivity].
  - intros [= H] _. revert H. unfold search_airports.
    destruct keyword as [[|c kw]|];
      try (intros [= <- _]; exists v; split; [exact HK | reflexivity]).
    cbv zeta. generalize (cacheKey (c :: kw)). intros K'.
    destruct (airportCache s !! K'); intros [= <- _];
      exists v; (split; [exact HK | reflexivity]).
  - destruct (awaiting s !! i) as [K'|] eqn:Hi; [|discriminate].
    destruct o as [description|responseData]; cbn; intros [= <- _] _.
    + exists v. split; [exact HK | reflexivity].
    + cbn. destruct (decide (K' = K)) as [->|Hne].
      * exists responseData. split; [apply lookup_insert_eq|].
        rewrite bool_decide_eq_true_2 by reflexivity. discriminate.
      * exists v. split; [|reflexivity].
        rewrite lookup_insert_ne by exact Hne. exact HK.
  - destruct (timers s !! i) as [t0|] eqn:Hi; [|discriminate].
    destruct (due t0 <=? clock s)%Z; [|discriminate].
    intros [= <- _] Hrem. exists v. split; [|reflexivity]. cbn.
    apply bool_decide_eq_false_1 in Hrem.
    rewrite lookup_delete_ne; [exact HK|]. intros E. apply Hrem.
    cbn. rewrite E. reflexivity.
Qed.

Lemma kept_run K es : forall v s s' rs,
  airportCache s !! K = Some v -> run es s = Some (s', rs) ->
  removed K es s = false ->
  exists v', airportCache s' !! K = Some v'
             /\ (last_store K es s None = None -> v' = v).
Proof.
  induction es as [|e es IH]; intros v s s' rs HK; cbn [run removed].
  - intros [= <- _] _. exists v. split; [exact HK | reflexivity].
  - destruct (step e s) as [[s1 r]|] eqn:Hstep; [|discriminate].
    destruct (run es s1) as [[s2 rs']|] eqn:Hrun; [|discriminate].
    intros [= <- _] Hrem. apply orb_false_iff in Hrem as [Hrem1 Hrem2].
    destruct (kept_step K v e s s1 r HK Hstep Hrem1) as (v1 & HK1 & Hv1).
    destruct (IH v1 s1 s2 rs' HK1 Hrun Hrem2) as (v' & HK' & Hv').
    exists v'. split; [exact HK'|]. intros Hlast.
    destruct (last_store_cons K e es s s1 r Hstep Hlast) as [H1 H2].
    rewrite (Hv' H2). exact (Hv1 H1).
Qed.

(** After a removal, and until the next store under the key, the key is
    absent. *)
Lemma absent_step K e s s' r :
  airportCache s !! K = None -> step e s = Some (s', r) ->
  stored_by K e s None = None -> airportCache s' !! K = None.
Proof.
  intros HK. destruct e as [d|keyword|i o|i]; cbn [step stored_by].
  - destruct (0 <=? d)%Z; [|discriminate]. intros [= <- _] _. exact HK.
  - intros [= H] _. revert H. unfold search_airports.
    destruct keyword as [[|c kw]|]; try (intros [= <- _]; exact HK).
    cbv zeta. generalize (cacheKey (c :: kw)). intros K'.
    destruct (airportCache s !! K'); intros [= <- _]; exact HK.
  - destruct (awaiting s !! i) as [K'|] eqn:Hi; [|discriminate].
    destruct o as [description|responseData]; cbn; intros [= <- _].
    + intros _. exact HK.
    + cbn. destruct (decide (K' = K)) as [->|Hne].
      * rewrite bool_decide_eq_true_2 by reflexivity. discriminate.
      * intros _. rewrite lookup_insert_ne by exact Hne. exact HK.
  - destruct (timers s !! i) as [t0|] eqn:Hi; [|discriminate].
    destruct (due t0 <=? clock s)%Z; [|discriminate].
    intros [= <- _] _. cbn. apply lookup_delete_None. right. exact HK.
Qed.

Lemma absent_run K es : forall s s' rs,
  airportCache s !! K = None -> run es s = Some (s', rs) ->
  last_store K es s None = None -> airportCache s' !! K = None.
Proof.
  induction es as [|e es IH]; intros s s' rs HK; cbn [run].
  - intros [= <- _] _. exact HK.
  - destruct (step e s) as [[s1 r]|] eqn:Hstep; [|discriminate].
    destruct (run es s1) as [[s2 rs']|] eqn:Hrun; [|discriminate].
    intros [= <- _] Hlast.
    destruct (last_store_cons K e es s s1 r Hstep Hlast) as [H1 H2].
    exact (IH s1 s2 rs' (absent_step K e s s1 r HK Hstep H1) Hrun H2).
Qed.

(** C1, amended.  Expiry is the work of the removal timers alone.  In every
    state the server can reach, each entry of the map is the last store
    under its key, and the removal which that store has set, due 24 hours
    after the store, is still pending: no entry is kept once its own removal
    has run.  A removal runs when it is due or later; once one has run for
    a key, and until the next store under the key, the key is absent: a get
    is a miss and the handler goes upstream, as for a key never stored.
    Nothing else looks at the clock: as long as no removal for the key runs,
    whatever else happens and however much time passes, a request for a
    stored key is answered from the map. *)
Theorem entries_expire_by_timer es s rs :
  run es start = Some (s, rs) ->
  (forall K v, airportCache s !! K = Some v ->
     exists T, last_store K es start None = Some (T, v)
               /\ (T <= clock s)%Z
               /\ Timer (T + CACHE_TTL_MS) K ∈ timers s)
  /\ (forall i t s1 r later s' rs',
        timers s !! i = Some t -> step (Fire i) s = Some (s1, r) ->
        run later s1 = Some (s', rs') ->
        last_store (key t) later s1 None = None ->
        (due t <= clock s)%Z
        /\ forall kw, kw <> [] -> cacheKey kw = key t ->
             cache_get kw s' = None
             /\ snd (search_airports (Some kw) s') = None
             /\ upstream_calls (fst (search_airports (Some kw) s'))
                = upstream_calls s' ++ [key t])
  /\ (forall K v later s' rs',
        airportCache s !! K = Some v ->
        run later s = Some (s', rs') -> removed K later s = false ->
        exists v',
          (last_store K later s None = None -> v' = v)
          /\ forall kw, kw <> [] -> cacheKey kw = K ->
               cache_get kw s' = Some v'
               /\ step (Request (Some kw)) s'
                  = Some (s', Some (Response 200 (DataBody v')))).
Proof.
  intros Hrun. split; [|split].
  - exact (own_removal_run es (fun _ => None) start s rs
             own_removal_start Hrun).
  - intros i t s1 r later s' rs' Ht. cbn [step]. rewrite Ht.
    destruct (Z.leb_spec (due t) (clock s)) as [Hdue|]; [|discriminate].
    intros [= <- _] Hlater Hlast. split; [exact Hdue|].
    assert (airportCache s' !! key t = None) as Hgone.
    { eapply absent_run; [|exact Hlater|exact Hlast].
      apply lookup_delete_eq. }
    intros kw Hkw HK. unfold cache_get. rewrite HK. split; [exact Hgone|].
    rewrite search_airports_miss; [|exact Hkw|rewrite HK; exact Hgone].
    rewrite HK. split; reflexivity.
  - intros K v later s' rs' HK Hlater Hrem.
    destruct (kept_run K later v s s' rs' HK Hlater Hrem) as (v' & HK' & Hv').
    exists v'. split; [exact Hv'|]. intros kw Hkw <-.
    split; [exact HK'|]. cbn [step]. f_equal.
    apply search_airports_hit; [exact Hkw | exact HK'].
Qed.

Lemma entries_expire_by_timer_witness :
  exists T,
    last_store Scenario.PAR Scenario.a_day_later start None
    = Some (T, Scenario.answer_A)
    /\ (T <= clock Cases.after_a_day)%Z
    /\ Timer (T + CACHE_TTL_MS) Scenario.PAR ∈ timers Cases.after_a_day.
Proof.
  apply (proj1 (entries_expire_by_timer Scenario.a_day_later Cases.after_a_day
                  [Response 200 (DataBody Scenario.answer_A)]
                  ltac:(vm_compute; reflexivity))
           Scenario.PAR Scenario.answer_A).
  vm_compute. reflexivity.
Defined.

(** C2 on the code: after the race the key holds the answer stored at
    5 seconds, and the timer of the store at 1 second is first in line.
    When it runs, at 24 hours and 1 second, it deletes that newer entry. *)
Theorem stale_timer_deletes_fresh_entry :
  let K := Scenario.PAR in
  let first := Timer (1000 + CACHE_TTL_MS) K in
  let second := Timer (5000 + CACHE_TTL_MS) K in
  run Scenario.race start
  = Some (Server {[K := Scenario.answer_B]} [first; second] []
                 (1000 + CACHE_TTL_MS) [K; K],
          [Response 200 (DataBody Scenario.answer_A);
           Response 200 (DataBody Scenario.answer_B)])
  /\ step (Fire 0)
          (Server {[K := Scenario.answer_B]} [first; second] []
                  (1000 + CACHE_TTL_MS) [K; K])
     = Some (Server ∅ [second] [] (1000 + CACHE_TTL_MS) [K; K], None).
Proof. cbv zeta. split; vm_compute; reflexivity. Qed.

(** C3 on the code: the second store of the race replaces the value and
    schedules a removal 24 hours after itself, but the removal of the first
    store stays pending.  When that one runs, 24 hours after the first write,
    the entry is gone: the next request misses and goes upstream again. *)
Theorem overwrite_keeps_first_expiry :
  let K := Scenario.PAR in
  exists s0 s,
    run Scenario.race start
    = Some (s0, [Response 200 (DataBody Scenario.answer_A);
                 Response 200 (DataBody Scenario.answer_B)])
    /\ cache_get Scenario.par s0 = Some Scenario.answer_B
    /\ timers s0 = [Timer (1000 + CACHE_TTL_MS) K; Timer (5000 + CACHE_TTL_MS) K]
    /\ step (Fire 0) s0 = Some (s, None)
    /\ clock s = (1000 + CACHE_TTL_MS)%Z
    /\ (clock s < 5000 + CACHE_TTL_MS)%Z
    /\ cache_get Scenario.par s = None
    /\ step (Request (Some Scenario.par)) s
       = Some (Server ∅ [Timer (5000 + CACHE_TTL_MS) K] [K]
                      (1000 + CACHE_TTL_MS) [K; K; K], None).
Proof.
  cbv zeta. eexists. eexists.
  split; [vm_compute; reflexivity|].
  split; [vm_compute; reflexivity|].
  split; [vm_compute; reflexivity|].
  split; [vm_compute; reflexivity|].
  split; [reflexivity|]. split; [reflexivity|].
  split; vm_compute; reflexivity.
Qed.

(** *** Hits after a store *)








Lemma untouched_start K : untouched K start.
Proof. split; [apply lookup_empty|]. split; constructor. Qed.

(** A request for an untouched key goes upstream once; when the answer
    comes, [d] milliseconds later, it is stored and sent, and from then on
    the key is cached until 24 hours after the store. *)
Lemma first_lookup s kw data d :
  kw <> [] -> untouched (cacheKey kw) s -> (0 <= d)%Z ->
  let K := cacheKey kw in
  let s2 := store K data
              (Server (airportCache s) (timers s) (awaiting s)
                      (clock s + d) (upstream_calls s ++ [K])) in
  run [Request (Some kw); Tick d;
       Reply (length (awaiting s)) (LocationsResolved data)] s
  = Some (s2, [Response 200 (DataBody data)])
  /\ cached K data (clock s2 + CACHE_TTL_MS) s2.
Proof.
  intros Hkw (Hmiss & Htimers & Hwaiting) Hd K s2. split.
  - cbn [run step]. rewrite (search_airports_miss s kw Hkw Hmiss).
    destruct (Z.leb_spec 0 d); [|lia]. cbn [set_clock awaiting clock].
    fold K. rewrite (list_lookup_middle (awaiting s) [] K _ eq_refl).
    cbn [search_airports_resume set_awaiting awaiting].
    rewrite (delete_middle (awaiting s) [] K), app_nil_r. reflexivity.
  - subst s2. unfold store. split; [|split]; cbn.
    + apply lookup_insert_eq.
    + apply Forall_app. split.
      * eapply Forall_impl; [exact Htimers|]. cbn. intros t Hne HK.
        fold K in Hne. congruence.
      * constructor; [|constructor]. cbn. intros _. lia.
    + exact Hwaiting.
Qed.





(** C10 on the code: an empty list is stored and served like any other
    answer, but not for its 24 hours when an older removal for the key is
    pending.  In the race, the empty list is stored at 5 seconds and served
    from the map; the timer of the store at 1 second deletes it at 24 hours
    and 1 second, and the next request, 4 seconds before the 24 hours of the
    empty list are over, goes upstream. *)
Theorem stale_timer_deletes_empty_result :
  let K := Scenario.PAR in
  exists s0 s,
    run Scenario.empty_race start
    = Some (s0, [Response 200 (DataBody Scenario.answer_A);
                 Response 200 (DataBody (JArr []))])
    /\ cache_get Scenario.par s0 = Some (JArr [])
    /\ step (Request (Some Scenario.par)) s0
       = Some (s0, Some (Response 200 (DataBody (JArr []))))
    /\ timers s0 = [Timer (1000 + CACHE_TTL_MS) K; Timer (5000 + CACHE_TTL_MS) K]
    /\ step (Fire 0) s0 = Some (s, None)
    /\ clock s = (1000 + CACHE_TTL_MS)%Z
    /\ (clock s < 5000 + CACHE_TTL_MS)%Z
    /\ cache_get Scenario.par s = None
    /\ step (Request (Some Scenario.par)) s
       = Some (Server ∅ [Timer (5000 + CACHE_TTL_MS) K] [K]
                      (1000 + CACHE_TTL_MS) [K; K; K], None).
Proof.
  cbv zeta. eexists. eexists.
  split; [vm_compute; reflexivity|].
  split; [vm_compute; reflexivity|].
  split; [vm_compute; reflexivity|].
  split; [vm_compute; reflexivity|].
  split; [vm_compute; reflexivity|].
  split; [reflexivity|]. split; [reflexivity|].
  split; vm_compute; reflexivity.
Qed.

(** * Further properties *)

(** ** The recommendation pipeline, in general *)

Lemma loop_turn_made fare n a date d t made :
  loop_turn fare n a date d = (t, made) ->
  (made = [] \/ exists code, made = [FareRequest a code date])
  /\ (forall r, t = Pushed r ->
        length made = 1
        /\ destination r = city_of d).
Proof.
  unfold loop_turn.
  destruct (get_member d (txt "iataCode")) as [code|].
  - destruct (fare n (FareRequest a code date)) as [|[|first more]];
      intros [= <- <-]; (split; [right; eexists; reflexivity|]);
      intros r Hr; try discriminate.
    + unfold catch_block in Hr. destruct (get_member d (txt "iataCode"));
        [destruct (toString_throws j)|]; discriminate.
    + injection Hr as <-. split; reflexivity.
  - intros [= <- <-]. split; [left; reflexivity|].
    intros r Hr. unfold catch_block in Hr.
    destruct (get_member d (txt "iataCode"));
      [destruct (toString_throws j)|]; discriminate.
Qed.

Lemma fare_loop_bounds fare a date ds : forall n res made,
  fare_loop fare n a date ds = (res, made) ->
  length made <= length ds
  /\ Forall (fun q => originLocationCode q = a /\ departureDate q = date) made
  /\ (forall rs, res = Some rs ->
        length rs <= length made
        /\ sublist (map destination rs) (map city_of ds)).
Proof.
  induction ds as [|d ds IH]; intros n res made; cbn [fare_loop].
  - intros [= <- <-]. split; [reflexivity|]. split; [constructor|].
    intros rs [= <-]. split; [reflexivity | constructor].
  - destruct (loop_turn fare n a date d) as [t made1] eqn:Hturn.
    destruct (loop_turn_made _ _ _ _ _ _ _ Hturn) as [Hmade Hpushed].
    assert (length made1 <= 1 /\
            Forall (fun q => originLocationCode q = a /\ departureDate q = date)
                   made1) as [Hlen1 Hall1].
    { destruct Hmade as [-> | [code ->]]; cbn; split; try lia; repeat constructor. }
    destruct (fare_loop fare (n + length made1) a date ds) as [rest made2] eqn:Hrest.
    destruct (IH _ _ _ Hrest) as (Hlen2 & Hall2 & Hres2).
    destruct t as [r| |].
    + intros [= <- <-]. rewrite length_app. cbn [length].
      destruct (Hpushed r eq_refl) as [Hone Hcity].
      split; [lia|]. split; [apply Forall_app; split; assumption|].
      intros rs Hrs. destruct rest as [rs'|]; [|discriminate].
      injection Hrs as <-. destruct (Hres2 rs' eq_refl) as [Hle Hsub].
      cbn [length map]. split; [lia|]. rewrite Hcity. constructor. exact Hsub.
    + intros [= <- <-]. rewrite length_app. cbn [length].
      split; [lia|]. split; [apply Forall_app; split; assumption|].
      intros rs Hrs. destruct (Hres2 rs Hrs) as [Hle Hsub].
      split; [lia|]. cbn [map]. constructor. exact Hsub.
    + intros [= <- <-]. cbn [length]. split; [lia|]. split; [exact Hall1|].
      intros rs Hrs. discriminate.
Qed.

(** The ways the handler can end. *)
Lemma search_flights_cases suggest fare date n a :
  let r := search_flights suggest fare date n a in
  (r = (invalid_input, []) /\ (truthy n = false \/ truthy a = false))
  \/ (truthy n = true /\ truthy a = true /\
      ((r = (recommendation_failed, [])
        /\ (toString_throws n = true \/ toString_throws a = true))
       \/ (r = (recommendation_failed, [SuggestCall n a])
           /\ match suggest with
              | SuggestRejected => True
              | SuggestText t => parse_suggestions t ≫= iterate = None
              end)
       \/ exists t ds res made,
            suggest = SuggestText t
            /\ parse_suggestions t ≫= iterate = Some ds
            /\ fare_loop fare 0 a date ds = (res, made)
            /\ r = (match res with
                    | Some flightResults => Response 200 (FlightsBody flightResults)
                    | None => recommendation_failed
                    end, SuggestCall n a :: map FareCall made))).
Proof.
  cbv zeta. unfold search_flights.
  destruct (truthy n) eqn:Hn; [|left; split; [reflexivity | left; reflexivity]].
  destruct (truthy a) eqn:Ha; [|left; split; [reflexivity | right; reflexivity]].
  right. split; [reflexivity|]. split; [reflexivity|]. cbn [negb orb].
  destruct (toString_throws n) eqn:Tn;
    [left; split; [reflexivity | left; reflexivity]|].
  destruct (toString_throws a) eqn:Ta;
    [left; split; [reflexivity | right; reflexivity]|].
  cbn [orb]. right.
  destruct suggest as [|t]; [left; split; [reflexivity | exact I]|].
  destruct (parse_suggestions t) as [destinations|] eqn:Hparse;
    [|left; split; reflexivity].
  destruct (iterate destinations) as [ds|] eqn:Hiter;
    [|left; split; [reflexivity | exact Hiter]].
  right. destruct (fare_loop fare 0 a date ds) as [res made] eqn:Hloop.
  exists t, ds, res, made. repeat split; [rewrite Hparse; exact Hiter | exact Hloop].
Qed.

Lemma fare_calls_map made : fare_calls (map FareCall made) = made.
Proof. induction made as [|q made IH]; [reflexivity|]. cbn. f_equal. exact IH. Qed.

(** X1.  [POST /api/search-flights] answers 400 exactly when [numberOfDays] or
    [departureAirport] is falsy, the body is then the error of lines 185 to
    187 and no service is called; whatever the services answer, the status
    is 400, 500 or 200. *)
Theorem search_flights_rejects_falsy_input suggest fare date n a :
  (fst (search_flights suggest fare date n a) = invalid_input
   <-> truthy n = false \/ truthy a = false)
  /\ (status (fst (search_flights suggest fare date n a)) = 400%Z
      <-> truthy n = false \/ truthy a = false)
  /\ (truthy n = false \/ truthy a = false ->
      snd (search_flights suggest fare date n a) = [])
  /\ (status (fst (search_flights suggest fare date n a)) = 400%Z
      \/ status (fst (search_flights suggest fare date n a)) = 500%Z
      \/ status (fst (search_flights suggest fare date n a)) = 200%Z).
Proof.
  pose proof (search_flights_cases suggest fare date n a) as H. cbv zeta in H.
  destruct H as [[-> Hf] | (Hn & Ha & H)].
  - repeat split; auto.
  - assert (~ (truthy n = false \/ truthy a = false)) as Hnot
      by (intros [H'|H']; congruence).
    destruct H as [[-> _] | [[-> _] | (t & ds & res & made & _ & _ & _ & ->)]];
      cbn [fst snd]; try destruct res;
      (split; [split; [discriminate | tauto]|]);
      (split; [split; [discriminate | tauto]|]);
      (split; [tauto|]); cbn; auto.
Qed.

(** X2.  The calls of [POST /api/search-flights] are none, or one call of the
    suggestion service followed by fare lookups only.  A fare lookup is made
    only after a suggestion text that parses to something iterable; when
    the suggestion service rejects, no fare lookup is made and the status is
    not 200. *)
Theorem suggestion_is_asked_first suggest fare date n a :
  (snd (search_flights suggest fare date n a) = []
   \/ exists made, snd (search_flights suggest fare date n a)
                   = SuggestCall n a :: map FareCall made)
  /\ (fare_calls (snd (search_flights suggest fare date n a)) <> [] ->
      exists t, suggest = SuggestText t
                /\ is_Some (parse_suggestions t ≫= iterate))
  /\ (suggest = SuggestRejected ->
      fare_calls (snd (search_flights suggest fare date n a)) = []
      /\ status (fst (search_flights suggest fare date n a)) <> 200%Z).
Proof.
  pose proof (search_flights_cases suggest fare date n a) as H. cbv zeta in H.
  destruct H as [[-> _] | (_ & _ & [[-> _] | [[-> Hs] |
    (t & ds & res & made & -> & Hds & _ & ->)]])]; cbn [fst snd].
  - split; [left; reflexivity|]. split; [intros H; destruct (H eq_refl)|].
    intros _. split; [reflexivity | discriminate].
  - split; [left; reflexivity|]. split; [intros H; destruct (H eq_refl)|].
    intros _. split; [reflexivity | discriminate].
  - split; [right; exists []; reflexivity|].
    split; [intros H; destruct (H eq_refl)|].
    intros _. split; [reflexivity | discriminate].
  - split; [right; exists made; reflexivity|]. split.
    + intros _. exists t. split; [reflexivity|]. rewrite Hds. eexists. reflexivity.
    + discriminate.
Qed.

(** X3.  Every fare lookup of a request has the [departureAirport] of the request
    as its origin and the one [departureDate] computed before the loop. *)
Theorem lookups_share_origin_and_date suggest fare date n a :
  Forall (fun q => originLocationCode q = a /\ departureDate q = date)
         (fare_calls (snd (search_flights suggest fare date n a))).
Proof.
  pose proof (search_flights_cases suggest fare date n a) as H. cbv zeta in H.
  destruct H as [[-> _] | (_ & _ & [[-> _] | [[-> Hs] |
    (t & ds & res & made & -> & Hds & Hloop & ->)]])]; cbn [fst snd];
    try (cbn; constructor).
  change (fare_calls (SuggestCall n a :: map FareCall made))
    with (fare_calls (map FareCall made)).
  rewrite fare_calls_map.
  exact (proj1 (proj2 (fare_loop_bounds _ _ _ _ _ _ _ Hloop))).
Qed.

Lemma search_flights_iterated fare date n a t ds :
  parse_suggestions t ≫= iterate = Some ds ->
  search_flights (SuggestText t) fare date n a = (invalid_input, [])
  \/ search_flights (SuggestText t) fare date n a = (recommendation_failed, [])
  \/ exists res made,
       fare_loop fare 0 a date ds = (res, made)
       /\ search_flights (SuggestText t) fare date n a
          = (match res with
             | Some flightResults => Response 200 (FlightsBody flightResults)
             | None => recommendation_failed
             end, SuggestCall n a :: map FareCall made).
Proof.
  intros Hds.
  pose proof (search_flights_cases (SuggestText t) fare date n a) as H.
  cbv zeta in H.
  destruct H as [[-> _] | (_ & _ & [[-> _] | [[_ Hs] |
    (t' & ds' & res & made & [= <-] & Hds' & Hloop & ->)]])].
  - left. reflexivity.
  - right. left. reflexivity.
  - congruence.
  - right. right. exists res, made. split; [|reflexivity]. congruence.
Qed.

(** X4.  There are at most as many fare lookups as the suggestion has elements,
    and at most as many flights in the answer as fare lookups. *)
Theorem lookups_and_results_are_bounded fare date n a t ds :
  parse_suggestions t ≫= iterate = Some ds ->
  length (fare_calls (snd (search_flights (SuggestText t) fare date n a)))
  <= length ds
  /\ forall flights,
       json (fst (search_flights (SuggestText t) fare date n a))
       = FlightsBody flights ->
       length flights
       <= length (fare_calls (snd (search_flights (SuggestText t) fare date n a))).
Proof.
  intros Hds.
  destruct (search_flights_iterated fare date n a t ds Hds)
    as [-> | [-> | (res & made & Hloop & ->)]]; cbn [fst snd].
  - split; [cbn; lia | discriminate].
  - split; [cbn; lia | discriminate].
  - change (fare_calls (SuggestCall n a :: map FareCall made))
      with (fare_calls (map FareCall made)).
    rewrite fare_calls_map.
    destruct (fare_loop_bounds _ _ _ _ _ _ _ Hloop) as (Hlen & _ & Hres).
    split; [exact Hlen|]. intros flights.
    destruct res as [rs|]; [|discriminate].
    intros [= <-]. exact (proj1 (Hres rs eq_refl)).
Qed.

Lemma lookups_and_results_are_bounded_witness :
  length (fare_calls (snd (search_flights
            (SuggestText Scenario.three_suggestions) Scenario.fares
            Scenario.in_three_months Scenario.five Scenario.JFK)))
  <= length (map to_js [Scenario.paris; Scenario.tokyo; Scenario.lima]).
Proof.
  apply (lookups_and_results_are_bounded Scenario.fares
           Scenario.in_three_months Scenario.five Scenario.JFK
           Scenario.three_suggestions
           (map to_js [Scenario.paris; Scenario.tokyo; Scenario.lima])).
  vm_compute; reflexivity.
Defined.

(** X5.  The flights of the answer are in the order of the suggestion: their
    destinations are a sublist of the [city] members of its elements. *)
Theorem results_keep_destination_order fare date n a t ds flights :
  parse_suggestions t ≫= iterate = Some ds ->
  json (fst (search_flights (SuggestText t) fare date n a)) = FlightsBody flights ->
  sublist (map destination flights) (map city_of ds).
Proof.
  intros Hds.
  destruct (search_flights_iterated fare date n a t ds Hds)
    as [-> | [-> | (res & made & Hloop & ->)]]; cbn [fst snd];
    try discriminate.
  destruct (fare_loop_bounds _ _ _ _ _ _ _ Hloop) as (_ & _ & Hres).
  destruct res as [rs|]; [|discriminate].
  intros [= <-]. exact (proj2 (Hres rs eq_refl)).
Qed.

Lemma results_keep_destination_order_witness :
  sublist (map destination
             [Flight (JStr (txt "Paris, France")) (parseFloat (txt "450.0"));
              Flight (JStr (txt "Lima, Peru")) (parseFloat (txt "980.5"))])
          (map city_of (map to_js [Scenario.paris; Scenario.tokyo; Scenario.lima])).
Proof.
  apply (results_keep_destination_order Scenario.fares
           Scenario.in_three_months Scenario.five Scenario.JFK
           Scenario.three_suggestions);
    vm_compute; reflexivity.
Defined.

Lemma fare_loop_null fare a date cs rest : forall n,
  fare_loop fare n a date (map to_js cs ++ JNull :: rest)
  = (None, map (request_for a date) cs).
Proof.
  induction cs as [|c cs IH]; intros n; [reflexivity|].
  cbn [map app fare_loop]. rewrite loop_turn_candidate.
  cbn [length]. rewrite IH.
  destruct (quote (fare n (request_for a date c)) c); reflexivity.
Qed.

(** X6.  A [null] among the suggestions ends the request with 500: reading
    [destination.iataCode] throws in the inner [try] and again in its
    [catch].  The lookups of the elements before it have been made, their
    flights are not sent. *)
Theorem null_suggestion_is_fatal fare date n a t cs rest :
  truthy n = true -> truthy a = true ->
  toString_throws n = false -> toString_throws a = false ->
  parse_suggestions t = Some (JArr (map to_js cs ++ JNull :: rest)) ->
  search_flights (SuggestText t) fare date n a
  = (recommendation_failed,
     SuggestCall n a :: map FareCall (map (request_for a date) cs)).
Proof.
  intros Hn Ha Tn Ta Hparse. unfold search_flights.
  rewrite Hn, Ha, Tn, Ta, Hparse. cbn [negb orb iterate].
  rewrite fare_loop_null. reflexivity.
Qed.

Lemma null_suggestion_is_fatal_witness :
  search_flights (SuggestText Cases.with_null) Scenario.fares
                 Scenario.in_three_months Scenario.five Scenario.JFK
  = (recommendation_failed,
     SuggestCall Scenario.five Scenario.JFK
       :: map FareCall
            (map (request_for Scenario.JFK Scenario.in_three_months)
                 [Scenario.paris])).
Proof.
  apply (null_suggestion_is_fatal Scenario.fares Scenario.in_three_months
           Scenario.five Scenario.JFK Cases.with_null [Scenario.paris]
           [to_js Scenario.lima]);
    vm_compute; reflexivity.
Defined.

Lemma fare_loop_strings fare a date l : forall n,
  exists flights,
    fare_loop fare n a date (map JStr l)
    = (Some flights, repeat (FareRequest a JUndefined date) (length l))
    /\ Forall (fun f => destination f = JUndefined) flights.
Proof.
  induction l as [|s l IH]; intros n.
  - exists []. split; [reflexivity | constructor].
  - cbn [map fare_loop loop_turn get_member catch_block toString_throws].
    destruct (IH (n + 1)) as (flights & Hloop & Hall).
    destruct (fare n (FareRequest a JUndefined date)) as [|[|first more]];
      cbn [length]; rewrite Hloop.
    + exists flights. split; [reflexivity | exact Hall].
    + exists flights. split; [reflexivity | exact Hall].
    + eexists. split; [reflexivity|]. constructor; [reflexivity | exact Hall].
Qed.

(** X7.  A suggestion that is one JSON string is iterated by code point: there
    is one fare lookup for each, with [undefined] as the destination code,
    and the answer is 200. *)
Theorem string_suggestion_is_iterated fare date n a t s :
  truthy n = true -> truthy a = true ->
  toString_throws n = false -> toString_throws a = false ->
  parse_suggestions t = Some (JStr s) ->
  exists flights,
    search_flights (SuggestText t) fare date n a
    = (Response 200 (FlightsBody flights),
       SuggestCall n a
         :: repeat (FareCall (FareRequest a JUndefined date))
                   (length (code_points s)))
    /\ Forall (fun f => destination f = JUndefined) flights.
Proof.
  intros Hn Ha Tn Ta Hparse. unfold search_flights.
  rewrite Hn, Ha, Tn, Ta, Hparse. cbn [negb orb iterate].
  destruct (fare_loop_strings fare a date (code_points s) 0)
    as (flights & -> & Hall).
  exists flights. split; [|exact Hall].
  f_equal. f_equal.
  induction (length (code_points s)) as [|k IH]; [reflexivity|].
  cbn. f_equal. exact IH.
Qed.

Lemma string_suggestion_is_iterated_witness :
  exists flights,
    search_flights (SuggestText Cases.a_string) Scenario.no_fares
                   Scenario.in_three_months Scenario.five Scenario.JFK
    = (Response 200 (FlightsBody flights),
       SuggestCall Scenario.five Scenario.JFK
         :: repeat (FareCall (FareRequest Scenario.JFK JUndefined
                                          Scenario.in_three_months))
                   (length (code_points (txt "Rome"))))
    /\ Forall (fun f => destination f = JUndefined) flights.
Proof.
  apply (string_suggestion_is_iterated Scenario.no_fares
           Scenario.in_three_months Scenario.five Scenario.JFK
           Cases.a_string (txt "Rome"));
    vm_compute; reflexivity.
Defined.

(** ** The fences *)

Lemma starts_with_cons a p b t :
  starts_with (a :: p) (b :: t) = (a =? b)%N && starts_with p t.
Proof. reflexivity. Qed.

Lemma strip_keeps c r :
  c <> 96%N -> strip_from 0 (c :: r) = c :: strip_from 0 r.
Proof.
  intros Hc. cbn [strip_from]. unfold fence_json, fence. cbn [app].
  rewrite !starts_with_cons.
  destruct (N.eqb_spec 96 c) as [E|_]; [congruence|]. reflexivity.
Qed.

Lemma strip_head_kept t :
  tick_first t = false -> tick_first (strip_from 0 t) = false.
Proof.
  unfold tick_first. destruct t as [|c r]; [reflexivity|].
  rewrite starts_with_cons. intros H.
  destruct (N.eqb_spec 96 c) as [E|Hc]; [discriminate H|].
  rewrite strip_keeps by congruence. rewrite starts_with_cons.
  destruct (N.eqb_spec 96 c); [congruence | reflexivity].
Qed.

Lemma strip_kept_no_fence c r :
  starts_with fence (c :: r) = false ->
  starts_with fence (c :: strip_from 0 r) = false.
Proof.
  unfold fence. rewrite !starts_with_cons.
  destruct (N.eqb_spec 96 c) as [<-|Hc]; [|reflexivity]. cbn [andb].
  destruct r as [|d r']; [reflexivity|]. rewrite starts_with_cons.
  destruct (N.eqb_spec 96 d) as [<-|Hd].
  - cbn [andb]. intros H.
    assert (strip_from 0 (96%N :: r') = 96%N :: strip_from 0 r') as ->.
    { cbn [strip_from]. unfold fence_json, fence. cbn [app].
      rewrite !starts_with_cons. change (96 =? 96)%N with true. cbn [andb].
      destruct r' as [|e r'']; [reflexivity|]. rewrite !starts_with_cons in *.
      destruct (96 =? e)%N; [discriminate H | reflexivity]. }
    rewrite starts_with_cons. change (96 =? 96)%N with true. cbn [andb].
    apply (strip_head_kept r'). exact H.
  - intros _. rewrite strip_keeps by congruence. rewrite starts_with_cons.
    destruct (N.eqb_spec 96 d); [congruence | reflexivity].
Qed.

Lemma strip_from_no_fence t : forall k, has_fence (strip_from k t) = false.
Proof.
  induction t as [|c r IH]; intros k; [reflexivity|].
  cbn [strip_from]. destruct k as [|k]; [|apply IH].
  destruct (starts_with fence_json (c :: r)); [apply IH|].
  destruct (starts_with fence (c :: r)) eqn:Hhere; [apply IH|].
  cbn [has_fence]. rewrite (strip_kept_no_fence c r Hhere), (IH 0).
  reflexivity.
Qed.

(** X8.  [replace(/```json|```/g, '')] leaves no fence where one was, is
    idempotent and never makes the text longer. *)
Theorem strip_fences_leaves_no_fence t :
  has_fence (strip_fences t) = false
  /\ strip_fences (strip_fences t) = strip_fences t
  /\ length (strip_fences t) <= length t.
Proof.
  split; [apply strip_from_no_fence|]. split.
  - apply strip_fences_no_fence. apply strip_from_no_fence.
  - unfold strip_fences. generalize 0.
    induction t as [|c r IH]; intros k; [reflexivity|].
    cbn [strip_from length]. destruct k as [|k]; [|specialize (IH k); lia].
    destruct (starts_with fence_json (c :: r)); [specialize (IH 6); lia|].
    destruct (starts_with fence (c :: r)); [specialize (IH 2); lia|].
    cbn [length]. specialize (IH 0). lia.
Qed.

Lemma space_not_tick c : is_js_space c = true -> c <> 96%N.
Proof. intros H ->. discriminate H. Qed.

Lemma space_not_j c : is_js_space c = true -> c <> 106%N.
Proof. intros H ->. discriminate H. Qed.

Lemma strip_space w x :
  all_space w = true -> strip_from 0 (w ++ x) = w ++ strip_from 0 x.
Proof.
  induction w as [|c w IH]; [reflexivity|]. cbn [all_space forallb].
  intros H. apply andb_true_iff in H as [Hc Hw].
  cbn [app]. rewrite strip_keeps by (apply space_not_tick, Hc).
  rewrite (IH Hw). reflexivity.
Qed.

Lemma no_fence_before c s x :
  c <> 96%N -> starts_with fence s = false ->
  starts_with fence (s ++ c :: x) = false.
Proof.
  intros Hc. unfold fence.
  destruct s as [|a [|b [|d s]]]; cbn [app]; rewrite ?starts_with_cons;
    intros H.
  - destruct (N.eqb_spec 96 c); [congruence | reflexivity].
  - destruct (N.eqb_spec 96 c); [congruence|]. apply andb_false_r.
  - destruct (N.eqb_spec 96 c); [congruence|]. rewrite andb_false_r.
    apply andb_false_r.
  - exact H.
Qed.

Lemma strip_past s c x :
  has_fence s = false -> c <> 96%N ->
  strip_from 0 (s ++ c :: x) = s ++ strip_from 0 (c :: x).
Proof.
  intros Hs Hc. induction s as [|a s IH]; [reflexivity|].
  cbn [has_fence] in Hs. apply orb_false_elim in Hs as [Hhere Hlater].
  pose proof (no_fence_before c (a :: s) x Hc Hhere) as Hno.
  change ((a :: s) ++ c :: x) with (a :: (s ++ c :: x)) in *.
  cbn [strip_from].
  destruct (starts_with fence_json (a :: s ++ c :: x)) eqn:Hjson.
  - apply fence_json_starts_with_fence in Hjson. congruence.
  - rewrite Hno, (IH Hlater). reflexivity.
Qed.

Lemma strip_from_0 c r :
  strip_from 0 (c :: r)
  = if starts_with fence_json (c :: r) then strip_from 6 r
    else if starts_with fence (c :: r) then strip_from 2 r
    else c :: strip_from 0 r.
Proof. reflexivity. Qed.

Lemma starts_with_same p q t : starts_with (p ++ q) (p ++ t) = starts_with q t.
Proof.
  induction p as [|a p IH]; [reflexivity|]. cbn [app].
  rewrite starts_with_cons, N.eqb_refl. exact IH.
Qed.

Lemma strip_opening opening c x :
  opening = fence \/ opening = fence_json -> c <> 106%N ->
  strip_from 0 (opening ++ c :: x) = strip_from 0 (c :: x).
Proof.
  intros [-> | ->] Hc; [|reflexivity].
  assert (starts_with fence_json (fence ++ c :: x) = false) as Hjson.
  { unfold fence_json. rewrite starts_with_same.
    change (txt "json") with (106%N :: txt "son"). rewrite starts_with_cons.
    destruct (N.eqb_spec 106 c); [congruence | reflexivity]. }
  assert (starts_with fence (fence ++ c :: x) = true) as Hfence.
  { rewrite <- (app_nil_r fence) at 1. rewrite starts_with_same. reflexivity. }
  change (fence ++ c :: x) with (96%N :: (96%N :: 96%N :: c :: x)) in *.
  rewrite strip_from_0, Hjson, Hfence. reflexivity.
Qed.

Lemma strip_closing w3 : all_space w3 = true -> strip_from 0 (fence ++ w3) = w3.
Proof.
  intros Hw. destruct w3 as [|c w]; [reflexivity|].
  cbn [all_space forallb] in Hw. apply andb_true_iff in Hw as [Hc Hw].
  rewrite (strip_opening fence c w (or_introl eq_refl) (space_not_j c Hc)).
  assert (all_space (c :: w) = true) as Hcw
    by (cbn [all_space forallb]; rewrite Hc; exact Hw).
  pose proof (strip_space (c :: w) [] Hcw) as H.
  rewrite app_nil_r in H. rewrite H. apply app_nil_r.
Qed.

Lemma trim_start_space w x : all_space w = true -> trim_start (w ++ x) = trim_start x.
Proof.
  induction w as [|c w IH]; [reflexivity|]. cbn [all_space forallb].
  intros H. apply andb_true_iff in H as [Hc Hw].
  cbn [app trim_start]. rewrite Hc. exact (IH Hw).
Qed.

Lemma trim_snoc x c : is_js_space c = true -> trim (x ++ [c]) = trim x.
Proof.
  intros Hc. unfold trim.
  destruct (trim_start_snoc x c Hc) as [[-> ->] | ->]; [reflexivity|].
  apply trim_end_snoc. exact Hc.
Qed.

Lemma trim_space_end w : forall x, all_space w = true -> trim (x ++ w) = trim x.
Proof.
  induction w as [|c w IH]; intros x; [rewrite app_nil_r; reflexivity|].
  cbn [all_space forallb]. intros H. apply andb_true_iff in H as [Hc Hw].
  change (x ++ c :: w) with (x ++ [c] ++ w). rewrite app_assoc.
  rewrite (IH (x ++ [c]) Hw). apply trim_snoc. exact Hc.
Qed.

Lemma trim_space w x w' :
  all_space w = true -> all_space w' = true -> trim (w ++ x ++ w') = trim x.
Proof.
  intros Hw Hw'. rewrite app_assoc, (trim_space_end w' (w ++ x) Hw').
  unfold trim. rewrite (trim_start_space w x Hw). reflexivity.
Qed.

Lemma all_space_app w w' :
  all_space w = true -> all_space w' = true -> all_space (w ++ w') = true.
Proof. unfold all_space. intros H H'. rewrite forallb_app, H, H'. reflexivity. Qed.

(** X9.  White space around the fences does not matter: a payload between an
    opening fence, with or without the [json] tag, and a closing fence, with
    white space before, between and after, parses as the payload alone. *)
Theorem padded_fences_parse_alike opening w0 w1 payload w2 w3 :
  opening = fence \/ opening = fence_json ->
  all_space w0 = true -> all_space w1 = true -> all_space w2 = true ->
  all_space w3 = true -> w1 <> [] -> w2 <> [] ->
  has_fence payload = false ->
  parse_suggestions (w0 ++ opening ++ w1 ++ payload ++ w2 ++ fence ++ w3)
  = parse_suggestions payload.
Proof.
  intros Hopen H0 H1 H2 H3 Hne1 Hne2 Hpayload.
  destruct w1 as [|c1 w1]; [congruence|]. destruct w2 as [|c2 w2]; [congruence|].
  assert (is_js_space c1 = true /\ is_js_space c2 = true) as [Hc1 Hc2].
  { cbn [all_space forallb] in H1, H2.
    apply andb_true_iff in H1 as [? _]. apply andb_true_iff in H2 as [? _].
    split; assumption. }
  unfold parse_suggestions, strip_fences.
  rewrite (strip_space w0 _ H0).
  change ((c1 :: w1) ++ payload ++ (c2 :: w2) ++ fence ++ w3)
    with (c1 :: (w1 ++ payload ++ (c2 :: w2) ++ fence ++ w3)).
  rewrite (strip_opening opening c1 _ Hopen (space_not_j c1 Hc1)).
  change (c1 :: w1 ++ payload ++ (c2 :: w2) ++ fence ++ w3)
    with ((c1 :: w1) ++ payload ++ c2 :: (w2 ++ fence ++ w3)).
  rewrite (strip_space (c1 :: w1) _ H1).
  rewrite (strip_past payload c2 _ Hpayload (space_not_tick c2 Hc2)).
  change (c2 :: w2 ++ fence ++ w3) with ((c2 :: w2) ++ fence ++ w3).
  rewrite (strip_space (c2 :: w2) _ H2), (strip_closing w3 H3).
  fold (strip_fences payload). rewrite (strip_fences_no_fence payload Hpayload).
  replace (w0 ++ (c1 :: w1) ++ payload ++ (c2 :: w2) ++ w3)
    with ((w0 ++ c1 :: w1) ++ payload ++ ((c2 :: w2) ++ w3))
    by (rewrite <- !app_assoc; reflexivity).
  rewrite trim_space; [reflexivity | |]; apply all_space_app; assumption.
Qed.

Lemma padded_fences_parse_alike_witness :
  parse_suggestions ([32%N] ++ fence ++ [13%N; 10%N] ++ Scenario.three_payload
                     ++ [10%N] ++ fence ++ [10%N])
  = parse_suggestions Scenario.three_payload.
Proof.
  apply (padded_fences_parse_alike fence [32%N] [13%N; 10%N]
           Scenario.three_payload [10%N] [10%N]);
    first [ left; reflexivity | discriminate | vm_compute; reflexivity ].
Defined.

Lemma letter_facts c :
  is_letter c = true ->
  (65 <= c)%N /\ c <> 91%N /\ c <> 123%N /\ c <> 96%N
  /\ is_js_space c = false /\ is_json_space c = false /\ is_digit c = false.
Proof.
  unfold is_letter, is_js_space, is_json_space, is_digit. intros H.
  assert ((65 <= c <= 90)%N \/ (97 <= c <= 122)%N) as Hrange.
  { destruct (N.leb_spec 65 c), (N.leb_spec c 90), (N.leb_spec 97 c),
      (N.leb_spec c 122); cbn in H; try discriminate; lia. }
  repeat split; try lia.
  - repeat (match goal with |- context [(c =? ?k)%N] =>
              destruct (N.eqb_spec c k); [lia|] end).
    destruct (N.leb_spec 8192 c), (N.leb_spec c 8202); cbn; try reflexivity; lia.
  - repeat (match goal with |- context [(c =? ?k)%N] =>
              destruct (N.eqb_spec c k); [lia|] end). reflexivity.
  - destruct (N.leb_spec 48 c), (N.leb_spec c 57); cbn; try reflexivity; lia.
Qed.

Lemma parse_value_letter f c z v r :
  is_letter c = true -> parse_value f (c :: z) = Some (v, r) -> iterate v = None.
Proof.
  intros Hl. destruct (letter_facts c Hl) as (H65 & H91 & H123 & H96 & _ & Hws & Hd).
  destruct f as [|f]; [discriminate|]. cbn [parse_value skip_ws]. rewrite Hws.
  destruct (N.eqb_spec c 91); [congruence|].
  destruct (N.eqb_spec c 123); [congruence|].
  destruct (N.eqb_spec c 34); [lia|].
  unfold parse_literal.
  destruct (N.eqb_spec c 116);
    [destruct (starts_with _ _); [intros [= <- _]; reflexivity | discriminate]|].
  destruct (N.eqb_spec c 102);
    [destruct (starts_with _ _); [intros [= <- _]; reflexivity | discriminate]|].
  destruct (N.eqb_spec c 110);
    [destruct (starts_with _ _); [intros [= <- _]; reflexivity | discriminate]|].
  unfold parse_number. destruct (N.eqb_spec c 45); [lia|].
  unfold parse_int. destruct (N.eqb_spec c 48); [lia|]. rewrite Hd. discriminate.
Qed.

Lemma JSON_parse_letter c z :
  is_letter c = true -> JSON_parse (c :: z) ≫= iterate = None.
Proof.
  intros Hl. unfold JSON_parse.
  destruct (parse_value (S (length (c :: z))) (c :: z)) as [[v r]|] eqn:Hp;
    [|reflexivity].
  destruct (skip_ws r); [|reflexivity].
  exact (parse_value_letter _ c z v r Hl Hp).
Qed.

Lemma trim_start_snoc_kept l c :
  is_js_space c = false -> trim_start (l ++ [c]) = trim_start l ++ [c].
Proof.
  intros Hc. induction l as [|a l IH]; cbn [app trim_start].
  - rewrite Hc. reflexivity.
  - destruct (is_js_space a); [exact IH | reflexivity].
Qed.

Lemma trim_cons_kept c y :
  is_js_space c = false -> exists z, trim (c :: y) = c :: z.
Proof.
  intros Hc. unfold trim. cbn [trim_start]. rewrite Hc.
  unfold trim_end. cbn [rev]. rewrite (trim_start_snoc_kept _ c Hc).
  rewrite rev_app_distr. eexists. reflexivity.
Qed.

Lemma not_iterable_is_fatal fare date n a t :
  truthy n = true -> truthy a = true ->
  parse_suggestions t ≫= iterate = None ->
  fst (search_flights (SuggestText t) fare date n a) = recommendation_failed
  /\ fare_calls (snd (search_flights (SuggestText t) fare date n a)) = [].
Proof.
  intros Hn Ha Hbad.
  pose proof (search_flights_cases (SuggestText t) fare date n a) as H.
  cbv zeta in H.
  destruct H as [[_ [H|H]] | (_ & _ & [[-> _] | [[-> _] |
    (t' & ds & res & made & [= <-] & Hds & _)]])]; try congruence;
    split; reflexivity.
Qed.

(** X10.  Only the tag [json], in lower case, is removed with the fence.  A
    fenced answer whose fence is followed by a letter that does not start
    [json] cannot be parsed: the request answers 500 without a fare
    lookup. *)
Theorem other_info_string_is_fatal fare date n a w0 c rest :
  truthy n = true -> truthy a = true ->
  all_space w0 = true -> is_letter c = true ->
  starts_with (txt "json") (c :: rest) = false ->
  parse_suggestions (w0 ++ fence ++ c :: rest) ≫= iterate = None
  /\ fst (search_flights (SuggestText (w0 ++ fence ++ c :: rest)) fare date n a)
     = recommendation_failed
  /\ fare_calls (snd (search_flights (SuggestText (w0 ++ fence ++ c :: rest))
                        fare date n a)) = [].
Proof.
  intros Hn Ha Hw Hl Htag.
  destruct (letter_facts c Hl) as (_ & _ & _ & H96 & Hsp & _ & _).
  assert (parse_suggestions (w0 ++ fence ++ c :: rest) ≫= iterate = None) as Hbad.
  { unfold parse_suggestions, strip_fences. rewrite (strip_space w0 _ Hw).
    assert (strip_from 0 (fence ++ c :: rest) = c :: strip_from 0 rest) as ->.
    { assert (starts_with fence_json (fence ++ c :: rest) = false) as Hjson
        by (unfold fence_json; rewrite starts_with_same; exact Htag).
      assert (starts_with fence (fence ++ c :: rest) = true) as Hfence
        by (rewrite <- (app_nil_r fence) at 1; rewrite starts_with_same;
            reflexivity).
      change (fence ++ c :: rest) with (96%N :: (96%N :: 96%N :: c :: rest)) in *.
      rewrite strip_from_0, Hjson, Hfence.
      change (strip_from 2 (96%N :: 96%N :: c :: rest))
        with (strip_from 0 (c :: rest)).
      apply strip_keeps. exact H96. }
    unfold trim. rewrite (trim_start_space w0 _ Hw). fold (trim (c :: strip_from 0 rest)).
    destruct (trim_cons_kept c (strip_from 0 rest) Hsp) as [z ->].
    apply JSON_parse_letter. exact Hl. }
  split; [exact Hbad|]. apply not_iterable_is_fatal; assumption.
Qed.

Lemma other_info_string_is_fatal_witness :
  fst (search_flights
         (SuggestText ([] ++ fence ++ 74%N :: Cases.after_upper_tag))
         Scenario.fares Scenario.in_three_months Scenario.five Scenario.JFK)
  = recommendation_failed.
Proof.
  apply (other_info_string_is_fatal Scenario.fares Scenario.in_three_months
           Scenario.five Scenario.JFK [] 74%N Cases.after_upper_tag);
    vm_compute; reflexivity.
Defined.

(** ** Runs of the airport server *)

Lemma run_cons e es s :
  run (e :: es) s
  = match step e s with
    | None => None
    | Some (s', r) =>
        match run es s' with
        | None => None
        | Some (s'', rs) => Some (s'', from_option (fun x => [x]) [] r ++ rs)
        end
    end.
Proof. reflexivity. Qed.

Lemma count_cons p e es :
  count p (e :: es) = (if p e then 1 else 0) + count p es.
Proof. unfold count. cbn [List.filter]. destruct (p e); reflexivity. Qed.

Lemma step_upstream e s s' r :
  step e s = Some (s', r) ->
  length (upstream_calls s') + length (awaiting s)
  = length (upstream_calls s) + length (awaiting s')
    + (if is_reply e then 1 else 0)
  /\ length (upstream_calls s')
     <= length (upstream_calls s) + (if is_request e then 1 else 0).
Proof.
  destruct e as [d|keyword|i o|i]; cbn [step is_reply is_request].
  - destruct (0 <=? d)%Z; [|discriminate]. intros [= <- _]. cbn. lia.
  - intros [= H]. revert H. unfold search_airports.
    destruct keyword as [[|c kw]|]; try (intros [= <- _]; lia).
    cbv zeta. generalize (cacheKey (c :: kw)). intros K.
    destruct (airportCache s !! K); intros [= <- _]; cbn;
      rewrite ?length_app; cbn; lia.
  - destruct (awaiting s !! i) as [K|] eqn:Hi; [|discriminate].
    pose proof (length_delete (awaiting s) i (mk_is_Some _ _ Hi)) as Hlen.
    pose proof (lookup_lt_Some _ _ _ Hi) as Hlt.
    destruct o; cbn; intros [= <- _]; cbn; lia.
  - destruct (timers s !! i) as [t|]; [|discriminate].
    destruct (due t <=? clock s)%Z; [|discriminate].
    intros [= <- _]. cbn. lia.
Qed.

Lemma step_timers e s s' r :
  step e s = Some (s', r) ->
  length (timers s') + (if is_fire e then 1 else 0)
  = length (timers s) + (if is_store e then 1 else 0).
Proof.
  destruct e as [d|keyword|i o|i]; cbn [step is_fire is_store].
  - destruct (0 <=? d)%Z; [|discriminate]. intros [= <- _]. cbn. lia.
  - intros [= H]. revert H. unfold search_airports.
    destruct keyword as [[|c kw]|]; try (intros [= <- _]; lia).
    cbv zeta. generalize (cacheKey (c :: kw)). intros K.
    destruct (airportCache s !! K); intros [= <- _]; cbn; lia.
  - destruct (awaiting s !! i) as [K|] eqn:Hi; [|discriminate].
    destruct o; cbn; intros [= <- _]; cbn; rewrite ?length_app; cbn; lia.
  - destruct (timers s !! i) as [t|] eqn:Hi; [|discriminate].
    pose proof (length_delete (timers s) i (mk_is_Some _ _ Hi)) as Hlen.
    pose proof (lookup_lt_Some _ _ _ Hi) as Hlt.
    destruct (due t <=? clock s)%Z; [|discriminate].
    intros [= <- _]. cbn. lia.
Qed.

Lemma run_accounts es : forall s s' rs,
  run es s = Some (s', rs) ->
  length (upstream_calls s') + length (awaiting s)
  = length (upstream_calls s) + length (awaiting s') + count is_reply es
  /\ length (upstream_calls s')
     <= length (upstream_calls s) + count is_request es
  /\ length (timers s') + count is_fire es
     = length (timers s) + count is_store es.
Proof.
  induction es as [|e es IH]; intros s s' rs; rewrite ?run_cons.
  - intros [= <- _]. cbn. lia.
  - destruct (step e s) as [[s1 r]|] eqn:Hstep; [|discriminate].
    destruct (run es s1) as [[s2 rs']|] eqn:Hrun; [|discriminate].
    intros [= <- _]. rewrite !count_cons.
    destruct (step_upstream _ _ _ _ Hstep) as [Hu Hle].
    pose proof (step_timers _ _ _ _ Hstep) as Ht.
    destruct (IH _ _ _ Hrun) as (Hu' & Hle' & Ht'). lia.
Qed.

(** X11.  In every run from the start, each location lookup sent upstream is
    either still awaited or has been answered, and there are no more lookups
    than requests. *)
Theorem upstream_calls_are_accounted es s rs :
  run es start = Some (s, rs) ->
  length (upstream_calls s) = length (awaiting s) + count is_reply es
  /\ length (upstream_calls s) <= count is_request es.
Proof.
  intros Hrun. destruct (run_accounts es start s rs Hrun) as (Hu & Hle & _).
  cbn in Hu, Hle. lia.
Qed.

Lemma upstream_calls_are_accounted_witness :
  length (upstream_calls Cases.after_race)
  = length (awaiting Cases.after_race) + count is_reply Scenario.race
  /\ length (upstream_calls Cases.after_race) <= count is_request Scenario.race.
Proof.
  apply (upstream_calls_are_accounted Scenario.race Cases.after_race
           Cases.race_answers).
  vm_compute; reflexivity.
Defined.

(** X12.  Every successful lookup sets one timer, and nothing else does: the
    pending timers and the ones that ran are as many as the entries
    stored. *)
Theorem timers_are_accounted es s rs :
  run es start = Some (s, rs) ->
  length (timers s) + count is_fire es = count is_store es.
Proof.
  intros Hrun. destruct (run_accounts es start s rs Hrun) as (_ & _ & Ht).
  cbn in Ht. lia.
Qed.

Lemma timers_are_accounted_witness :
  length (timers Cases.after_race) + count is_fire Scenario.race
  = count is_store Scenario.race.
Proof.
  apply (timers_are_accounted Scenario.race Cases.after_race
           Cases.race_answers).
  vm_compute; reflexivity.
Defined.

Lemma step_provenance D e s s' r :
  holds_only D s -> step e s = Some (s', r) ->
  holds_only (D ++ delivered [e]) s'
  /\ forall x, r = Some x -> from_upstream (D ++ delivered [e]) x.
Proof.
  intros HD. destruct e as [d|keyword|i o|i]; cbn [step].
  - destruct (0 <=? d)%Z; [|discriminate]. intros [= <- <-].
    split; [|discriminate]. intros K v H. apply elem_of_app. left.
    exact (HD K v H).
  - intros [= H]. revert H. unfold search_airports.
    assert (holds_only (D ++ delivered [Request keyword]) s) as HD'
      by (intros K v H; apply elem_of_app; left; exact (HD K v H)).
    destruct keyword as [[|c kw]|];
      try (intros [= <- <-]; split; [exact HD'|];
           intros x [= <-]; discriminate).
    cbv zeta. generalize (cacheKey (c :: kw)). intros K.
    destruct (airportCache s !! K) as [cached|] eqn:HK; intros [= <- <-].
    + split; [exact HD'|]. intros x [= <-] _. exists cached.
      split; [reflexivity|]. exact (HD' K cached HK).
    + split; [exact HD'|]. discriminate.
  - destruct (awaiting s !! i) as [K|] eqn:Hi; [|discriminate].
    destruct o as [description|data]; cbn; intros [= <- <-].
    + split; [|intros x [= <-]; discriminate].
      intros K' v H. apply elem_of_app. left. exact (HD K' v H).
    + split.
      * intros K' v. cbn. destruct (decide (K = K')) as [->|Hne].
        -- rewrite lookup_insert_eq. intros [= <-]. apply elem_of_app. right.
           apply list_elem_of_singleton. reflexivity.
        -- rewrite lookup_insert_ne by exact Hne. intros H.
           apply elem_of_app. left. exact (HD K' v H).
      * intros x [= <-] _. exists data. split; [reflexivity|].
        apply elem_of_app. right. apply list_elem_of_singleton. reflexivity.
  - destruct (timers s !! i) as [t|]; [|discriminate].
    destruct (due t <=? clock s)%Z; [|discriminate]. intros [= <- <-].
    split; [|discriminate]. intros K v. cbn. intros H.
    apply lookup_delete_Some in H as [_ H]. apply elem_of_app. left.
    exact (HD K v H).
Qed.

Lemma delivered_cons e es : delivered (e :: es) = delivered [e] ++ delivered es.
Proof. unfold delivered. cbn [omap]. destruct e as [| |i [|data]|]; reflexivity. Qed.

Lemma run_provenance es : forall D s s' rs,
  holds_only D s -> run es s = Some (s', rs) ->
  holds_only (D ++ delivered es) s'
  /\ Forall (from_upstream (D ++ delivered es)) rs.
Proof.
  induction es as [|e es IH]; intros D s s' rs HD; rewrite ?run_cons.
  - intros [= <- <-]. split; [|constructor].
    intros K v H. apply elem_of_app. left. exact (HD K v H).
  - destruct (step e s) as [[s1 r]|] eqn:Hstep; [|discriminate].
    destruct (run es s1) as [[s2 rs']|] eqn:Hrun; [|discriminate].
    intros [= <- <-].
    destruct (step_provenance D e s s1 r HD Hstep) as [HD1 Hr].
    destruct (IH _ _ _ _ HD1 Hrun) as [HD2 Hrs].
    rewrite delivered_cons, app_assoc. split; [exact HD2|].
    apply Forall_app. split; [|exact Hrs].
    destruct r as [x|]; [|constructor]. constructor; [|constructor].
    intros H200. destruct (Hr x eq_refl H200) as (v & Hv & Hin).
    exists v. split; [exact Hv|]. apply elem_of_app. left. exact Hin.
Qed.

(** X13.  Whatever [GET /api/search-airports] sends with status 200, and whatever
    the cache holds, is a value the upstream delivered in the run. *)
Theorem answers_come_from_upstream es s rs :
  run es start = Some (s, rs) ->
  (forall x, x ∈ rs -> status x = 200%Z ->
     exists v, json x = DataBody v /\ v ∈ delivered es)
  /\ (forall K v, airportCache s !! K = Some v -> v ∈ delivered es).
Proof.
  intros Hrun.
  assert (holds_only [] start) as H0
    by (intros K v H; cbn in H; rewrite lookup_empty in H; discriminate).
  destruct (run_provenance es [] start s rs H0 Hrun) as [HD Hrs].
  cbn [app] in *. split; [|exact HD].
  intros x Hx. exact (proj1 (Forall_forall _ _) Hrs x Hx).
Qed.

Lemma answers_come_from_upstream_witness :
  Scenario.answer_B ∈ delivered Scenario.race.
Proof.
  apply (proj2 (answers_come_from_upstream Scenario.race Cases.after_race
                  Cases.race_answers ltac:(vm_compute; reflexivity))
           Scenario.PAR).
  vm_compute; reflexivity.
Defined.

Lemma cacheKey_folded kw : folded (cacheKey kw).
Proof. exact (toUpperCase_idem kw). Qed.

Lemma keys_folded_step e s s' r :
  keys_folded s -> step e s = Some (s', r) -> keys_folded s'.
Proof.
  intros (Hc & Ht & Hw & Hu). destruct e as [d|keyword|i o|i]; cbn [step].
  - destruct (0 <=? d)%Z; [|discriminate]. intros [= <- _].
    repeat split; assumption.
  - intros [= H]. revert H. unfold search_airports.
    destruct keyword as [[|c kw]|];
      try (intros [= <- _]; repeat split; assumption).
    cbv zeta. pose proof (cacheKey_folded (c :: kw)) as HK. revert HK.
    generalize (cacheKey (c :: kw)). intros K HK.
    destruct (airportCache s !! K); intros [= <- _].
    + repeat split; assumption.
    + split; [exact Hc|]. split; [exact Ht|]. cbn.
      split; apply Forall_app; (split; [assumption|]); repeat constructor;
        exact HK.
  - destruct (awaiting s !! i) as [K|] eqn:Hi; [|discriminate].
    pose proof (Forall_lookup_1 _ _ _ _ Hw Hi) as HK.
    destruct o as [description|data]; cbn; intros [= <- _].
    + split; [exact Hc|]. split; [exact Ht|]. split; [|exact Hu].
      apply Forall_delete. exact Hw.
    + split; [|split; [|split]]; cbn.
      * intros K' v. destruct (decide (K = K')) as [<-|Hne];
          [intros _; exact HK|].
        rewrite lookup_insert_ne by exact Hne. apply Hc.
      * apply Forall_app. split; [exact Ht|]. repeat constructor. exact HK.
      * apply Forall_delete. exact Hw.
      * exact Hu.
  - destruct (timers s !! i) as [t|]; [|discriminate].
    destruct (due t <=? clock s)%Z; [|discriminate]. intros [= <- _].
    split; [|split; [|split]]; cbn.
    + intros K v H. apply lookup_delete_Some in H as [_ H]. exact (Hc K v H).
    + apply Forall_delete. exact Ht.
    + exact Hw.
    + exact Hu.
Qed.

Lemma keys_folded_run es : forall s s' rs,
  keys_folded s -> run es s = Some (s', rs) -> keys_folded s'.
Proof.
  induction es as [|e es IH]; intros s s' rs Hs; rewrite ?run_cons.
  - intros [= <- _]. exact Hs.
  - destruct (step e s) as [[s1 r]|] eqn:Hstep; [|discriminate].
    destruct (run es s1) as [[s2 rs']|] eqn:Hrun; [|discriminate].
    intros [= <- _]. apply (IH s1 s2 rs'); [|exact Hrun].
    exact (keys_folded_step e s s1 r Hs Hstep).
Qed.

(** X14.  Every key of the cache, of a timer and of a lookup sent upstream is in
    upper case. *)
Theorem keys_are_upper_case es s rs :
  run es start = Some (s, rs) ->
  (forall K v, airportCache s !! K = Some v -> toUpperCase K = K)
  /\ Forall (fun t => toUpperCase (key t) = key t) (timers s)
  /\ Forall (fun K => toUpperCase K = K) (awaiting s)
  /\ Forall (fun K => toUpperCase K = K) (upstream_calls s).
Proof.
  intros Hrun. apply (keys_folded_run es start s rs); [|exact Hrun].
  split; [intros K v H; cbn in H; rewrite lookup_empty in H; discriminate|].
  repeat split; constructor.
Qed.

Lemma keys_are_upper_case_witness :
  Forall (fun K => toUpperCase K = K) (upstream_calls Cases.after_race).
Proof.
  apply (keys_are_upper_case Scenario.race Cases.after_race Cases.race_answers).
  vm_compute; reflexivity.
Defined.

Lemma run_app es1 es2 s s1 rs1 :
  run es1 s = Some (s1, rs1) ->
  run (es1 ++ es2) s
  = match run es2 s1 with
    | Some (s2, rs2) => Some (s2, rs1 ++ rs2)
    | None => None
    end.
Proof.
  revert s s1 rs1. induction es1 as [|e es1 IH]; intros s s1 rs1.
  - intros [= <- <-]. cbn [app]. destruct (run es2 s) as [[s2 rs2]|]; reflexivity.
  - cbn [app]. rewrite !run_cons.
    destruct (step e s) as [[s' r]|]; [|discriminate].
    destruct (run es1 s') as [[s'' rs]|] eqn:Hrun; [|discriminate].
    intros [= <- <-]. rewrite (IH _ _ _ Hrun).
    destruct (run es2 s'') as [[s2 rs2]|]; [|reflexivity].
    rewrite app_assoc. reflexivity.
Qed.

(** X15.  The life of an entry, from any state in which its key is neither cached
    nor scheduled: a miss, the reply, and the timer once the lifetime has
    passed bring the server back to the cache, timers and pending lookups it
    had. *)
Theorem entry_lifecycle s kw data d d' :
  kw <> [] -> untouched (cacheKey kw) s ->
  (0 <= d)%Z -> (CACHE_TTL_MS <= d')%Z ->
  run [Request (Some kw); Tick d;
       Reply (length (awaiting s)) (LocationsResolved data);
       Tick d'; Fire (length (timers s))] s
  = Some (Server (airportCache s) (timers s) (awaiting s)
                 (clock s + d + d') (upstream_calls s ++ [cacheKey kw]),
          [Response 200 (DataBody data)]).
Proof.
  intros Hkw Hu Hd Hd'.
  destruct (first_lookup s kw data d Hkw Hu Hd) as [Hrun _]. cbv zeta in Hrun.
  change [Request (Some kw); Tick d;
          Reply (length (awaiting s)) (LocationsResolved data);
          Tick d'; Fire (length (timers s))]
    with ([Request (Some kw); Tick d;
           Reply (length (awaiting s)) (LocationsResolved data)]
          ++ [Tick d'; Fire (length (timers s))]).
  rewrite (run_app _ _ _ _ _ Hrun). clear Hrun.
  destruct Hu as (Hmiss & _ & _).
  rewrite !run_cons. cbn [step run].
  destruct (Z.leb_spec 0 d'); [|unfold CACHE_TTL_MS in Hd'; lia].
  cbn [set_clock store timers clock airportCache awaiting upstream_calls].
  rewrite (list_lookup_middle (timers s) [] _ _ eq_refl).
  cbn [due key].
  destruct (Z.leb_spec (clock s + d + CACHE_TTL_MS) (clock s + d + d')); [|lia].
  cbn [expire set_timers timers clock airportCache awaiting upstream_calls
       from_option app].
  rewrite (delete_middle (timers s) [] _), app_nil_r.
  unfold expire, set_timers, set_clock, store. cbn.
  rewrite (delete_insert_id _ _ _ Hmiss). reflexivity.
Qed.

Lemma entry_lifecycle_witness :
  run [Request (Some Scenario.par); Tick 120;
       Reply (length (awaiting start)) (LocationsResolved Scenario.answer_A);
       Tick CACHE_TTL_MS; Fire (length (timers start))] start
  = Some (Server (airportCache start) (timers start) (awaiting start)
                 (clock start + 120 + CACHE_TTL_MS)
                 (upstream_calls start ++ [cacheKey Scenario.par]),
          [Response 200 (DataBody Scenario.answer_A)]).
Proof.
  apply (entry_lifecycle start Scenario.par Scenario.answer_A 120 CACHE_TTL_MS).
  - discriminate.
  - apply untouched_start.
  - vm_compute; discriminate.
  - vm_compute; discriminate.
Defined.

(** X16.  A lookup the upstream rejects leaves the cache and the timers as they
    were and answers 500; the next request for the keyword goes upstream
    again. *)
Theorem failed_lookup_caches_nothing s kw d description :
  kw <> [] -> airportCache s !! cacheKey kw = None -> (0 <= d)%Z ->
  let s2 := Server (airportCache s) (timers s) (awaiting s) (clock s + d)
                   (upstream_calls s ++ [cacheKey kw]) in
  run [Request (Some kw); Tick d;
       Reply (length (awaiting s)) (LocationsRejected description)] s
  = Some (s2, [lookup_failed description])
  /\ step (Request (Some kw)) s2
     = Some (Server (airportCache s) (timers s) (awaiting s ++ [cacheKey kw])
                    (clock s + d)
                    (upstream_calls s ++ [cacheKey kw; cacheKey kw]), None).
Proof.
  intros Hkw Hmiss Hd s2. split.
  - rewrite !run_cons. cbn [step run].
    rewrite (search_airports_miss s kw Hkw Hmiss).
    destruct (Z.leb_spec 0 d); [|lia]. cbn [set_clock awaiting clock].
    rewrite (list_lookup_middle (awaiting s) [] _ _ eq_refl).
    cbn [search_airports_resume set_awaiting awaiting].
    rewrite (delete_middle (awaiting s) [] _), app_nil_r. reflexivity.
  - cbn [step]. rewrite (search_airports_miss s2 kw Hkw Hmiss).
    subst s2. cbn. rewrite <- app_assoc. reflexivity.
Qed.

Lemma failed_lookup_caches_nothing_witness :
  run [Request (Some Scenario.par); Tick 120;
       Reply (length (awaiting start))
             (LocationsRejected (JStr (txt "timeout")))] start
  = Some (Server (airportCache start) (timers start) (awaiting start)
                 (clock start + 120)
                 (upstream_calls start ++ [cacheKey Scenario.par]),
          [lookup_failed (JStr (txt "timeout"))]).
Proof.
  apply (failed_lookup_caches_nothing start Scenario.par 120
           (JStr (txt "timeout"))).
  - discriminate.
  - reflexivity.
  - vm_compute; discriminate.
Defined.

(** X17.  Requests that arrive before the first reply are not coalesced: each of
    them, whatever the case of its keyword, sends its own lookup upstream. *)
Theorem concurrent_misses_all_go_upstream K kws : forall s,
  Forall (fun kw => kw <> [] /\ cacheKey kw = K) kws ->
  airportCache s !! K = None ->
  run (map (fun kw => Request (Some kw)) kws) s
  = Some (Server (airportCache s) (timers s)
                 (awaiting s ++ repeat K (length kws)) (clock s)
                 (upstream_calls s ++ repeat K (length kws)), []).
Proof.
  induction kws as [|kw kws IH]; intros s Hall Hmiss.
  - cbn. rewrite !app_nil_r. destruct s; reflexivity.
  - inversion Hall as [|? ? [Hkw HK] Hall']; subst.
    cbn [map]. rewrite run_cons. cbn [step]. unfold text in *.
    rewrite (search_airports_miss s kw Hkw Hmiss).
    rewrite IH; [|exact Hall'|exact Hmiss].
    cbn. rewrite <- !app_assoc. reflexivity.
Qed.

Lemma concurrent_misses_all_go_upstream_witness :
  run (map (fun kw => Request (Some kw))
           [Scenario.par; Scenario.PAR; txt "Par"]) start
  = Some (Server (airportCache start) (timers start)
                 (awaiting start ++ repeat Scenario.PAR 3) (clock start)
                 (upstream_calls start ++ repeat Scenario.PAR 3), []).
Proof.
  apply (concurrent_misses_all_go_upstream Scenario.PAR
           [Scenario.par; Scenario.PAR; txt "Par"] start).
  - repeat constructor; try discriminate; vm_compute; reflexivity.
  - reflexivity.
Defined.

(** ** The cache against the first server *)

Lemma mirrors_step up e s s' r :
  mirrors up s ->
  match e with
  | Reply i o => forall K, awaiting s !! i = Some K -> o = up K
  | _ => True
  end ->
  step e s = Some (s', r) -> mirrors up s'.
Proof.
  intros Hm Hagree. destruct e as [d|keyword|i o|i]; cbn [step].
  - destruct (0 <=? d)%Z; [|discriminate]. intros [= <- _]. exact Hm.
  - intros [= H]. revert H. unfold search_airports.
    destruct keyword as [[|c kw]|]; try (intros [= <- _]; exact Hm).
    cbv zeta. generalize (cacheKey (c :: kw)). intros K.
    destruct (airportCache s !! K); intros [= <- _]; exact Hm.
  - destruct (awaiting s !! i) as [K|] eqn:Hi; [|discriminate].
    specialize (Hagree K eq_refl).
    destruct o as [description|data]; cbn; intros [= <- _]; [exact Hm|].
    intros K' v. cbn. destruct (decide (K = K')) as [<-|Hne].
    + rewrite lookup_insert_eq. intros [= <-]. symmetry. exact Hagree.
    + rewrite lookup_insert_ne by exact Hne. apply Hm.
  - destruct (timers s !! i) as [t|]; [|discriminate].
    destruct (due t <=? clock s)%Z; [|discriminate]. intros [= <- _].
    intros K v. cbn. intros H. apply lookup_delete_Some in H as [_ H].
    exact (Hm K v H).
Qed.

Lemma mirrors_run up es : forall s s' rs,
  mirrors up s -> agrees up es s -> run es s = Some (s', rs) -> mirrors up s'.
Proof.
  induction es as [|e es IH]; intros s s' rs Hm Ha; cbn [run].
  - intros [= <- _]. exact Hm.
  - cbn [agrees] in Ha. destruct Ha as [He Hrest].
    destruct (step e s) as [[s1 r]|] eqn:Hstep; [|discriminate].
    destruct (run es s1) as [[s2 rs']|] eqn:Hrun; [|discriminate].
    intros [= <- _]. apply (IH s1 s2 rs'); [|exact Hrest|exact Hrun].
    exact (mirrors_step up e s s1 r Hm He Hstep).
Qed.

(** X18.  Against an upstream whose answer depends on the keyword alone, the
    cache changes no answer: a request answered at once gets what the first
    server of the file, which has no cache, would send, and one that misses
    asks the upstream for the same keyword and answers it alike. *)
Theorem cache_is_transparent up es s rs :
  run es start = Some (s, rs) -> agrees up es start ->
  forall keyword,
    match search_airports keyword s with
    | (s', Some r) =>
        s' = s
        /\ r = snd (search_airports_v1 keyword
                      (up (cacheKey (default [] keyword))))
    | (s', None) =>
        exists kw,
          keyword = Some kw
          /\ upstream_calls s' = upstream_calls s ++ [cacheKey kw]
          /\ forall answer s1,
               search_airports_v1 keyword answer
               = (Some (cacheKey kw),
                  snd (search_airports_resume (cacheKey kw) answer s1))
    end.
Proof.
  intros Hrun Hagree keyword.
  assert (mirrors up s) as Hm.
  { apply (mirrors_run up es start s rs); [|exact Hagree|exact Hrun].
    intros K v H. cbn in H. rewrite lookup_empty in H. discriminate. }
  unfold search_airports.
  destruct keyword as [[|c kw]|]; try (split; reflexivity).
  cbv zeta. destruct (airportCache s !! cacheKey (c :: kw)) as [cached|] eqn:HK.
  - split; [reflexivity|].
    change (default [] (Some (c :: kw))) with (c :: kw).
    unfold search_airports_v1. cbn [snd]. rewrite (Hm _ _ HK). reflexivity.
  - exists (c :: kw). split; [reflexivity|]. split; [reflexivity|].
    intros [description|data] s1; reflexivity.
Qed.

Lemma cache_is_transparent_witness :
  match search_airports (Some Scenario.par) Cases.after_a_day with
  | (s', Some r) =>
      s' = Cases.after_a_day
      /\ r = snd (search_airports_v1 (Some Scenario.par)
                    (Cases.steady (cacheKey (default [] (Some Scenario.par)))))
  | (s', None) =>
      exists kw,
        Some Scenario.par = Some kw
        /\ upstream_calls s' = upstream_calls Cases.after_a_day ++ [cacheKey kw]
        /\ forall answer s1,
             search_airports_v1 (Some Scenario.par) answer
             = (Some (cacheKey kw),
                snd (search_airports_resume (cacheKey kw) answer s1))
  end.
Proof.
  apply (cache_is_transparent Cases.steady Scenario.a_day_later
           Cases.after_a_day [Response 200 (DataBody Scenario.answer_A)]).
  - vm_compute; reflexivity.
  - cbn. repeat split.
Defined.

(** ** The port of the first server *)

Lemma indexOf_first flag pre rest :
  indexOf flag pre = None ->
  indexOf flag (pre ++ flag :: rest) = Some (length pre).
Proof.
  induction pre as [|a pre IH]; cbn [indexOf app length].
  - intros _. unfold text_eqb. rewrite bool_decide_eq_true_2; reflexivity.
  - destruct (text_eqb a flag); [discriminate|].
    destruct (indexOf flag pre); [discriminate|]. intros _.
    rewrite IH; reflexivity.
Qed.

Lemma indexOf_bound flag argv i : indexOf flag argv = Some i -> i < length argv.
Proof.
  revert i. induction argv as [|a argv IH]; intros i; cbn [indexOf length];
    [discriminate|].
  destruct (text_eqb a flag); [intros [= <-]; lia|].
  destruct (indexOf flag argv) as [j|]; [|discriminate].
  intros [= <-]. specialize (IH j eq_refl). lia.
Qed.

Lemma indexOf_none_snoc flag argv :
  indexOf flag argv = None ->
  indexOf flag (argv ++ [flag]) = Some (length argv).
Proof. apply indexOf_first. Qed.

(** X19.  The first server listens on what [parseInt] reads after the first
    [--port] of the command line, whatever [PORT] is in the environment. *)
Theorem port_flag_wins pre v post PORT :
  indexOf (txt "--port") pre = None ->
  port (pre ++ txt "--port" :: v :: post) PORT = parseInt v.
Proof.
  intros Hpre. unfold port. rewrite (indexOf_first _ pre (v :: post) Hpre).
  rewrite length_app. cbn [length].
  destruct (Nat.ltb_spec (length pre + 1) (length pre + S (S (length post))));
    [|lia].
  replace (length pre + 1) with (length (pre ++ [txt "--port"]))
    by (rewrite length_app; reflexivity).
  change (pre ++ txt "--port" :: v :: post)
    with (pre ++ [txt "--port"] ++ v :: post).
  rewrite app_assoc, (list_lookup_middle _ post v _ eq_refl). reflexivity.
Qed.

Lemma port_flag_wins_witness :
  port (Cases.node_server ++ txt "--port" :: txt "8080" :: [])
       (Some (txt "5000"))
  = parseInt (txt "8080").
Proof.
  apply (port_flag_wins Cases.node_server (txt "8080") [] (Some (txt "5000"))).
  vm_compute; reflexivity.
Defined.

(** X20.  Without the flag, and also when the flag is the last word of the
    command line, the port is read from [PORT], or is 3000 when [PORT] is
    not set or empty. *)
Theorem port_falls_back_to_environment argv PORT :
  indexOf (txt "--port") argv = None ->
  port argv PORT = port_of_environment PORT
  /\ port (argv ++ [txt "--port"]) PORT = port_of_environment PORT.
Proof.
  intros Hno. unfold port, port_of_environment. rewrite Hno. split; [reflexivity|].
  rewrite (indexOf_none_snoc _ argv Hno), length_app. cbn [length].
  destruct (Nat.ltb_spec (length argv + 1) (length argv + 1)); [lia|].
  reflexivity.
Qed.

Lemma port_falls_back_to_environment_witness :
  port Cases.node_server None = port_of_environment None
  /\ port (Cases.node_server ++ [txt "--port"]) None = port_of_environment None.
Proof.
  apply (port_falls_back_to_environment Cases.node_server None).
  vm_compute; reflexivity.
Defined.





(** ** The page *)

Lemma request_body_app days code rest :
  request_body days code ++ rest
  = 123%N :: 34%N :: (quote_units (txt "numberOfDays") ++ 34%N :: 58%N ::
      (QuoteJSONString days ++ 44%N :: 34%N ::
         (quote_units (txt "departureAirport") ++ 34%N :: 58%N ::
            (QuoteJSONString code ++ 125%N :: rest)))).
Proof.
  unfold request_body, QuoteJSONString.
  repeat (rewrite <- ?app_assoc, <- ?app_comm_cons; cbn [app]).
  reflexivity.
Qed.

Lemma JSON_parse_request_body days code :
  JSON_parse (request_body days code)
  = Some (JObj [(txt "numberOfDays", JStr days);
                (txt "departureAirport", JStr code)]).
Proof.
  unfold JSON_parse.
  assert (exists f, length (request_body days code) = S f) as [f Hf].
  { unfold request_body. cbn [app length]. eexists. reflexivity. }
  rewrite Hf, <- (app_nil_r (request_body days code)), request_body_app.
  erewrite parse_value_object; [|reflexivity|discriminate].
  match goal with |- context [length (34%N :: ?t)] =>
    assert (exists n, length (34%N :: t) = S (S n)) as [n ->] end.
  { cbn [length app txt]. eexists. reflexivity. }
  rewrite parse_two_members. reflexivity.
Qed.

(** X22.  What the page posts passes the validation of the server: the body a
    click sends for a filled form parses to an object with the two strings,
    and for these the handler does not answer 400 and asks the suggestion
    service. *)
Theorem page_request_passes_validation suggest fare date days code :
  days <> [] -> code <> [] ->
  on_search_click days (Some code) = Post (request_body days code)
  /\ (exists b,
        JSON_parse (request_body days code) = Some b
        /\ get_member b (txt "numberOfDays") = Some (JStr days)
        /\ get_member b (txt "departureAirport") = Some (JStr code))
  /\ status (fst (search_flights suggest fare date (JStr days) (JStr code)))
     <> 400%Z
  /\ exists later,
       snd (search_flights suggest fare date (JStr days) (JStr code))
       = SuggestCall (JStr days) (JStr code) :: later.
Proof.
  intros Hdays Hcode.
  destruct days as [|d days]; [congruence|].
  destruct code as [|c code]; [congruence|].
  split; [reflexivity|]. split.
  - eexists. split; [apply JSON_parse_request_body|]. split; reflexivity.
  - split.
    + apply search_flights_not_400; reflexivity.
    + apply search_flights_asks; reflexivity.
Qed.

Lemma page_request_passes_validation_witness :
  on_search_click (txt "5") (Some (txt "JFK"))
  = Post (request_body (txt "5") (txt "JFK")).
Proof.
  apply (page_request_passes_validation SuggestRejected Scenario.no_fares
           Scenario.in_three_months (txt "5") (txt "JFK"));
    discriminate.
Defined.

(** X23.  The page does not look at the status: for an answer of the
    handler that is not 200 it shows that no flights were found, as it does
    for a 200 with an empty list.  For a 200 with flights it shows a card
    for each, unless a destination cannot be converted to a string: that is
    the one case in which an answer of the handler makes the page say that
    something went wrong. *)
Theorem failed_search_shows_no_flights suggest fare date n a :
  (status (fst (search_flights suggest fare date n a)) <> 200%Z ->
   after_search (SearchAnswered (json (fst (search_flights suggest fare date n a))))
   = NoFlightsFound)
  /\ (forall flights,
        fst (search_flights suggest fare date n a)
        = Response 200 (FlightsBody flights) ->
        after_search (SearchAnswered (FlightsBody flights))
        = match flights with
          | [] => NoFlightsFound
          | _ :: _ =>
              if existsb (fun flight => toString_throws (destination flight))
                         flights
              then SomethingWentWrong
              else FlightCards flights
          end)
  /\ (after_search
        (SearchAnswered (json (fst (search_flights suggest fare date n a))))
      = SomethingWentWrong
      <-> exists flights,
            fst (search_flights suggest fare date n a)
            = Response 200 (FlightsBody flights)
            /\ existsb (fun flight => toString_throws (destination flight))
                       flights = true).
Proof.
  pose proof (search_flights_cases suggest fare date n a) as H. cbv zeta in H.
  assert (forall flights,
            after_search (SearchAnswered (FlightsBody flights))
            = match flights with
              | [] => NoFlightsFound
              | _ :: _ =>
                  if existsb (fun flight => toString_throws (destination flight))
                             flights
                  then SomethingWentWrong
                  else FlightCards flights
              end) as Hshow.
  { intros [|f fs]; [reflexivity|]. unfold after_search, flights_of, displayFlights.
    destruct (existsb _ (f :: fs)); reflexivity. }
  split; [|split].
  - destruct H as [[-> _] | (_ & _ & [[-> _] | [[-> _] |
      (t & ds & [rs|] & made & _ & _ & _ & ->)]])]; cbn [fst json status];
      intros Hs; try reflexivity. congruence.
  - intros flights _. apply Hshow.
  - destruct H as [[-> _] | (_ & _ & [[-> _] | [[-> _] |
      (t & ds & [flights|] & made & _ & _ & _ & ->)]])]; cbn [fst json];
      try (split; [discriminate | intros (? & [=] & _)]).
    rewrite Hshow. split.
    + intros Hw. exists flights. split; [reflexivity|].
      destruct flights as [|f fs]; [discriminate|].
      destruct (existsb _ (f :: fs)); [reflexivity | discriminate].
    + intros (flights' & [= <-] & Hex).
      destruct flights as [|f fs]; [discriminate|]. rewrite Hex. reflexivity.
Qed.

Lemma validSuggestions_filter l : forall valid,
  validSuggestions l = Some valid ->
  map iataCode_of valid = List.filter truthy (map iataCode_of l)
  /\ Forall (fun s => truthy (iataCode_of s) = true) valid.
Proof.
  induction l as [|s l IH]; intros valid; cbn [validSuggestions].
  - intros [= <-]. split; [reflexivity | constructor].
  - destruct (get_member s (txt "iataCode")) as [code|] eqn:Hcode;
      [|discriminate].
    destruct (validSuggestions l) as [rest|]; [|discriminate].
    destruct (IH rest eq_refl) as [Hmap Hall].
    assert (iataCode_of s = code) as Hs by (unfold iataCode_of; rewrite Hcode; reflexivity).
    cbn [map List.filter]. rewrite Hs.
    destruct (truthy code) eqn:Ht; intros [= <-].
    + cbn [map]. rewrite Hs, Hmap. split; [reflexivity|].
      constructor; [rewrite Hs; exact Ht | exact Hall].
    + split; [exact Hmap | exact Hall].
Qed.

Lemma suggestion_entry_picked s e :
  suggestion_entry s = Some e ->
  picked e = iataCode_of s /\ toString_throws (picked e) = false.
Proof.
  unfold suggestion_entry.
  destruct (city_differs s) as [with_city|]; [|discriminate]. cbv zeta.
  destruct (toString_throws (default JUndefined (get_member s (txt "name"))));
    [discriminate|].
  destruct (toString_throws (iataCode_of s)) eqn:Hcode; [discriminate|].
  cbn [orb].
  destruct with_city; [destruct (get_member s (txt "address"))|];
    intros [= <-]; split; try reflexivity; exact Hcode.
Qed.

Lemma entries_of_picked v : forall es,
  entries_of v = Some es ->
  map picked es = map iataCode_of v
  /\ Forall (fun e => toString_throws (picked e) = false) es.
Proof.
  induction v as [|s v IH]; intros es; cbn [entries_of].
  - intros [= <-]. split; [reflexivity | constructor].
  - destruct (suggestion_entry s) as [e|] eqn:He; [|discriminate].
    destruct (entries_of v) as [es'|]; [|discriminate]. intros [= <-].
    destruct (suggestion_entry_picked s e He) as [Hp Ht].
    destruct (IH es' eq_refl) as [Hmap Hall].
    cbn [map]. rewrite Hp, Hmap. split; [reflexivity|].
    constructor; assumption.
Qed.

(** X24.  The dropdown shows, in order, the suggestions with a truthy [iataCode]
    and is hidden when there is none; every line it shows carries such a
    code, and a click on a line whose code is a string lets the search
    button post. *)
Theorem dropdown_lists_valid_suggestions l :
  (forall es,
     displayAirportSuggestions (JArr l) = Some (Shown es) ->
     es <> []
     /\ map picked es = List.filter truthy (map iataCode_of l)
     /\ Forall (fun e => truthy (picked e) = true
                         /\ toString_throws (picked e) = false) es
     /\ forall e code days,
          e ∈ es -> picked e = JStr code -> days <> [] ->
          on_search_click days (Some code) = Post (request_body days code))
  /\ (displayAirportSuggestions (JArr l) = Some Hidden ->
      List.filter truthy (map iataCode_of l) = []).
Proof.
  cbn [displayAirportSuggestions].
  destruct (validSuggestions l) as [valid|] eqn:Hvalid; [|split; discriminate].
  destruct (validSuggestions_filter l valid Hvalid) as [Hmap Htruthy].
  destruct valid as [|s valid].
  - split; [discriminate|]. intros _. rewrite <- Hmap. reflexivity.
  - split; [|destruct (entries_of (s :: valid)); discriminate].
    intros es. destruct (entries_of (s :: valid)) as [es'|] eqn:Hes;
      [|discriminate].
    intros [= <-]. destruct (entries_of_picked _ _ Hes) as [Hp Hts].
    assert (Forall (fun e => truthy (picked e) = true) es') as Hall.
    { apply List.Forall_forall. intros e He.
      apply (List.in_map picked) in He. rewrite Hp in He.
      apply List.in_map_iff in He as (s' & <- & Hs').
      exact (proj1 (List.Forall_forall _ _) Htruthy s' Hs'). }
    split; [intros ->; discriminate Hp|].
    split; [rewrite Hp; exact Hmap|].
    split.
    + apply List.Forall_forall. intros e He. split.
      * exact (proj1 (List.Forall_forall _ _) Hall e He).
      * exact (proj1 (List.Forall_forall _ _) Hts e He).
    + intros e code days He Hcode Hdays. apply list_elem_of_In in He.
      pose proof (proj1 (List.Forall_forall _ _) Hall e He) as Ht.
      cbn beta in Ht. rewrite Hcode in Ht. destruct code as [|c code]; [discriminate Ht|].
      destruct days as [|d days]; [congruence|]. reflexivity.
Qed.
